(** * ExactSvmScheme: the facilitator side of the exact payment scheme on SVM

    A shallow embedding of [ExactSvmScheme] (exact/facilitator/scheme.ts):
    [getExtra], [verify], [settle], [validateInstructions] and the private
    helpers, together with the configuration types of types.ts.

    JavaScript values are modelled as follows.
    - strings are [string]; [a !== b] on strings is [negb (a =? b)];
    - an optional property [p?: T] is [option T], [None] standing for
      [undefined];
    - a [Uint8Array] is a [list Z] of bytes;
    - a [bigint] is a [Z]; an integral [number] is a [Z] or a [nat];
    - a call that may throw returns a [Completion]: [Normal v] or [Throw t];
    - an [async] method is a function on the [World] (the signer's state and the
      log of effects performed so far): [await] is sequencing. *)

From Stdlib Require Import String Ascii List ZArith Bool Lia DecimalString.
Import ListNotations.
Open Scope string_scope.

(** ** JavaScript runtime *)

Module Js.

(** What a [throw] carries: an [Error] object with its [message], or any other
    value, kept as its [String(...)] conversion. *)
Inductive Thrown : Type :=
| ErrorObject (message : string)
| NonError (asString : string).

Inductive Completion (A : Type) : Type :=
| Normal (value : A)
| Throw (thrown : Thrown).
Arguments Normal {A} value.
Arguments Throw {A} thrown.

Definition bindC {A B : Type} (c : Completion A) (k : A -> Completion B) : Completion B :=
  match c with
  | Normal a => k a
  | Throw t => Throw t
  end.

(** [error instanceof Error ? error.message : String(error)] *)
Definition messageOrString (error : Thrown) : string :=
  match error with
  | ErrorObject message => message
  | NonError s => s
  end.

(** [Array.prototype.includes] on an array of strings. *)
Definition includes (xs : list string) (x : string) : bool :=
  existsb (fun y => y =? x) xs.

(** [Array.prototype.includes] on an array of numbers. *)
Definition includesNumber (xs : list Z) (x : Z) : bool :=
  existsb (fun y => Z.eqb y x) xs.

(** [String.prototype.includes]: [needle] occurs in [hay]. *)
Fixpoint stringIncludes (needle hay : string) : bool :=
  if prefix needle hay then true
  else match hay with
       | EmptyString => false
       | String _ rest => stringIncludes needle rest
       end.

(** [`${n}`] for an integral number. *)
Definition numberToString (n : Z) : string :=
  NilZero.string_of_int (Z.to_int n).

(** The values a property of type [unknown] may hold, as far as [!v] and
    [typeof v] see them. *)
Inductive Value : Type :=
| Undefined
| Str (s : string)
| Other (truthy : bool).

Definition truthy (v : Value) : bool :=
  match v with
  | Undefined => false
  | Str s => negb (s =? "")
  | Other b => b
  end.

Definition typeofIsString (v : Value) : bool :=
  match v with
  | Str _ => true
  | _ => false
  end.

End Js.
Import Js.

Declare Scope completion_scope.
Delimit Scope completion_scope with completion.
Notation "'let?' x ':=' c 'in' k" := (bindC c (fun x => k))
  (at level 10, x name, c at level 100, k at level 200) : completion_scope.

(** ** Types (types.ts and the library types the scheme reads) *)

Module AccountMeta.
Record t : Type := mk {
  address : string;
  role : Z
}.
End AccountMeta.

(** A decompiled instruction, also the [VerifiableInstruction] handed to custom
    verifiers. *)
Record Instruction : Type := mkInstruction {
  programAddress : string;
  accounts : option (list AccountMeta.t);
  data : option (list Z)
}.

Module Types.

Record InstructionVerifierContext : Type := mkContext {
  signerAddresses : list string;
  feePayer : string;
  instructionIndex : nat
}.

(** A custom verifier returns normally ([None]) or throws ([Some t]). *)
Definition InstructionVerifier : Type :=
  Instruction -> InstructionVerifierContext -> option Thrown.

Record InstructionVerifierConfig : Type := mkVerifier {
  programIds : list string;
  allowedPositions : option (list Z);
  verify : option InstructionVerifier
}.

(** [SvmVerificationConfig]: every property is optional. *)
Record SvmVerificationConfig : Type := mkConfig {
  maxInstructionCount : option Z;
  allowAdditionalInstructions : option bool;
  allowedProgramIds : option (list string);
  blockedProgramIds : option (list string);
  customVerifiers : option (list InstructionVerifierConfig);
  requireFeePayerNotInInstructions : option bool
}.

End Types.

(** [Required<SvmVerificationConfig>] *)
Module Required.

Record SvmVerificationConfig : Type := mk {
  maxInstructionCount : Z;
  allowAdditionalInstructions : bool;
  allowedProgramIds : list string;
  blockedProgramIds : list string;
  customVerifiers : list Types.InstructionVerifierConfig;
  requireFeePayerNotInInstructions : bool
}.

End Required.

Definition DEFAULT_VERIFICATION_CONFIG : Required.SvmVerificationConfig :=
  {| Required.maxInstructionCount := 3;
     Required.allowAdditionalInstructions := false;
     Required.allowedProgramIds := [];
     Required.blockedProgramIds := [];
     Required.customVerifiers := [];
     Required.requireFeePayerNotInInstructions := true |}.

(** [{ ...defaults, ...overrides }]: a property present in [overrides] wins. *)
Definition spread (defaults : Required.SvmVerificationConfig)
    (overrides : Types.SvmVerificationConfig) : Required.SvmVerificationConfig :=
  let pick {A : Type} (o : option A) (d : A) : A :=
    match o with Some v => v | None => d end in
  {| Required.maxInstructionCount :=
       pick (Types.maxInstructionCount overrides) (Required.maxInstructionCount defaults);
     Required.allowAdditionalInstructions :=
       pick (Types.allowAdditionalInstructions overrides)
            (Required.allowAdditionalInstructions defaults);
     Required.allowedProgramIds :=
       pick (Types.allowedProgramIds overrides) (Required.allowedProgramIds defaults);
     Required.blockedProgramIds :=
       pick (Types.blockedProgramIds overrides) (Required.blockedProgramIds defaults);
     Required.customVerifiers :=
       pick (Types.customVerifiers overrides) (Required.customVerifiers defaults);
     Required.requireFeePayerNotInInstructions :=
       pick (Types.requireFeePayerNotInInstructions overrides)
            (Required.requireFeePayerNotInInstructions defaults) |}.

(** The configuration [config] with another allow-list. *)
Definition withAllowedProgramIds (config : Required.SvmVerificationConfig)
    (allowed : list string) : Required.SvmVerificationConfig :=
  {| Required.maxInstructionCount := Required.maxInstructionCount config;
     Required.allowAdditionalInstructions := Required.allowAdditionalInstructions config;
     Required.allowedProgramIds := allowed;
     Required.blockedProgramIds := Required.blockedProgramIds config;
     Required.customVerifiers := Required.customVerifiers config;
     Required.requireFeePayerNotInInstructions :=
       Required.requireFeePayerNotInInstructions config |}.

Record InstructionValidationResult : Type := mkValidation {
  isValid : bool;
  reason : option string;
  transferInstructionIndex : nat
}.

(** Program addresses exported by the Solana program libraries. *)
Definition COMPUTE_BUDGET_PROGRAM_ADDRESS : string :=
  "ComputeBudget111111111111111111111111111111".
Definition TOKEN_PROGRAM_ADDRESS : string :=
  "TokenkegQfeZyiNwAJbNbGKPFXCWuBvf9Ss623VQ5DA".
Definition TOKEN_2022_PROGRAM_ADDRESS : string :=
  "TokenzQdBNbLqP5VEhdkAS6EPFLC1PHnBqCXEpPxuEb".

(** What the source reads of a parsed [TransferChecked] instruction:
    [accounts.authority.address], [accounts.mint.address],
    [accounts.destination.address] and [data.amount]. *)
Record ParsedTransferChecked : Type := mkTransfer {
  authority : string;
  mint : string;
  destination : string;
  amount : Z
}.

(** What the source reads of a parsed [SetComputeUnitPrice] instruction: the
    property [microLamports] of the parser's result, through the cast
    [as unknown as { microLamports: bigint }]; [None] when the result has no
    such property. *)
Record ParsedSetComputeUnitPrice : Type := mkPrice {
  microLamports : option Z
}.

(** [Transaction] of @solana/kit; the scheme reads [messageBytes] only. *)
Record Transaction : Type := mkTransaction {
  messageBytes : list Z
}.

(** The decompiled message; the scheme reads [instructions] only. *)
Record DecompiledMessage : Type := mkDecompiled {
  instructions : option (list Instruction)
}.

(** [ExactSvmPayloadV2] *)
Record ExactSvmPayloadV2 : Type := mkExactPayload {
  transaction : string
}.

(** ** Collaborators

    The functions the scheme imports and does not define: the transaction
    codecs and instruction parsers of the Solana libraries, the two helpers of
    ../../utils, and the built-in [BigInt]. Each is a function of its
    arguments that returns or throws. *)
Record Libraries (Compiled : Type) : Type := mkLibraries {
  decodeTransactionFromPayload : ExactSvmPayloadV2 -> Completion Transaction;
  getTokenPayerFromTransaction : Transaction -> Completion string;
  (** [getCompiledTransactionMessageDecoder().decode] *)
  decodeCompiledTransactionMessage : list Z -> Completion Compiled;
  decompileTransactionMessage : Compiled -> Completion DecompiledMessage;
  (** [address(s)] returns [s] when [isAddress s] and throws otherwise. *)
  isAddress : string -> bool;
  addressError : string -> Thrown;
  parseSetComputeUnitLimitInstruction : Instruction -> Completion unit;
  parseSetComputeUnitPriceInstruction : Instruction -> Completion ParsedSetComputeUnitPrice;
  parseTransferCheckedInstructionToken : Instruction -> Completion ParsedTransferChecked;
  parseTransferCheckedInstruction2022 : Instruction -> Completion ParsedTransferChecked;
  (** [findAssociatedTokenPda({ mint, owner, tokenProgram })], first component *)
  findAssociatedTokenPda : string -> string -> string -> Completion string;
  BigInt : string -> Completion Z
}.
Arguments decodeTransactionFromPayload {Compiled} _ _.
Arguments getTokenPayerFromTransaction {Compiled} _ _.
Arguments decodeCompiledTransactionMessage {Compiled} _ _.
Arguments decompileTransactionMessage {Compiled} _ _.
Arguments isAddress {Compiled} _ _.
Arguments addressError {Compiled} _ _.
Arguments parseSetComputeUnitLimitInstruction {Compiled} _ _.
Arguments parseSetComputeUnitPriceInstruction {Compiled} _ _.
Arguments parseTransferCheckedInstructionToken {Compiled} _ _.
Arguments parseTransferCheckedInstruction2022 {Compiled} _ _.
Arguments findAssociatedTokenPda {Compiled} _ _ _ _.
Arguments BigInt {Compiled} _ _.

(** [FacilitatorSvmSigner]: every asynchronous operation may change the
    signer's own state [S] and may reject. *)
Record FacilitatorSvmSigner (S : Type) : Type := mkSigner {
  getAddresses : list string;
  signTransaction : string -> string -> string -> S -> Completion string * S;
  simulateTransaction : string -> string -> S -> Completion unit * S;
  sendTransaction : string -> string -> S -> Completion string * S;
  confirmTransaction : string -> string -> S -> Completion unit * S
}.
Arguments getAddresses {S} _.
Arguments signTransaction {S} _ _ _ _ _.
Arguments simulateTransaction {S} _ _ _ _.
Arguments sendTransaction {S} _ _ _ _.
Arguments confirmTransaction {S} _ _ _ _.

(** The effects a call performs, in order. *)
Inductive Effect : Type :=
| SignTransaction (transaction feePayer network : string)
| SimulateTransaction (transaction network : string)
| SendTransaction (transaction network : string)
| ConfirmTransaction (signature network : string)
| ConsoleError (message : string) (error : Thrown).

Record World (S : Type) : Type := mkWorld {
  signerState : S;
  effects : list Effect
}.
Arguments mkWorld {S} _ _.
Arguments signerState {S} _.
Arguments effects {S} _.

(** An [async] computation. *)
Definition Async (S A : Type) : Type := World S -> Completion A * World S.

Definition ret {S A : Type} (a : A) : Async S A := fun w => (Normal a, w).

Definition raise {S A : Type} (t : Thrown) : Async S A := fun w => (Throw t, w).

Definition bind {S A B : Type} (m : Async S A) (k : A -> Async S B) : Async S B :=
  fun w =>
    match m w with
    | (Normal a, w') => k a w'
    | (Throw t, w') => (Throw t, w')
    end.

(** [try { m } catch (error) { handler error }] *)
Definition tryCatch {S A : Type} (m : Async S A) (handler : Thrown -> Async S A) : Async S A :=
  fun w =>
    match m w with
    | (Normal a, w') => (Normal a, w')
    | (Throw t, w') => handler t w'
    end.

Definition lift {S A : Type} (c : Completion A) : Async S A := fun w => (c, w).

Declare Scope async_scope.
Delimit Scope async_scope with async.
Notation "'await' x '<-' m ';;' k" := (bind m (fun x => k))
  (at level 10, x name, m at level 100, k at level 200) : async_scope.

(** A signer operation, logged. *)
Definition perform {S A : Type} (e : Effect) (op : S -> Completion A * S) : Async S A :=
  fun w =>
    let (r, s') := op (signerState w) in
    (r, mkWorld s' (effects w ++ [e])%list).

(** The payment types of @x402/core/types, as far as the scheme reads or
    writes them. *)
Module Extra.
Record t : Type := mk { feePayer : Value }.
End Extra.

Module PaymentRequirements.
Record t : Type := mk {
  scheme : string;
  network : string;
  asset : string;
  payTo : string;
  amount : string;
  extra : option Extra.t
}.
End PaymentRequirements.

Module PaymentPayload.
Record t : Type := mk {
  accepted : PaymentRequirements.t;
  payload : ExactSvmPayloadV2
}.
End PaymentPayload.

Module VerifyResponse.
Record t : Type := mk {
  isValid : bool;
  invalidReason : option string;
  payer : string
}.
End VerifyResponse.

Module SettleResponse.
Record t : Type := mk {
  success : bool;
  errorReason : option string;
  transaction : string;
  network : string;
  payer : string
}.
End SettleResponse.

(** ** Numbers of [getExtra]

    [Math.random()] returns a binary64 number in [0, 1); the array length is an
    integer below 2^32, exact in binary64. Their product is the exact product
    rounded to the nearest binary64 number, ties to even. The numbers met here
    are non-negative and below 2^32, so overflow does not occur, and a product
    below 2^53 * 2^(-exponent) is exact. *)
Module Double.

(** The non-negative binary64 number [mantissa * 2^(-exponent)]. *)
Record t : Type := mk {
  mantissa : Z;
  exponent : Z
}.

Definition wellFormed (d : t) : Prop :=
  (0 <= mantissa d < 2 ^ 53 /\ 0 <= exponent d <= 1074)%Z.

(** [d < 1] *)
Definition belowOne (d : t) : Prop :=
  (mantissa d < 2 ^ exponent d)%Z.

(** The integer [m] rounded to 53 significant bits, to nearest, ties to even. *)
Definition round53 (m : Z) : Z :=
  let bits := (Z.log2 m + 1)%Z in
  if (bits <=? 53)%Z then m
  else
    let s := (bits - 53)%Z in
    let q := (m / 2 ^ s)%Z in
    let r := (m mod 2 ^ s)%Z in
    let half := (2 ^ (s - 1))%Z in
    let q' := if (half <? r)%Z || ((r =? half)%Z && Z.odd q) then (q + 1)%Z else q in
    (q' * 2 ^ s)%Z.

(** [d * n] for an array length [n]. *)
Definition timesLength (d : t) (n : nat) : t :=
  {| mantissa := round53 (mantissa d * Z.of_nat n); exponent := exponent d |}.

(** [Math.floor(d)], as an array index. *)
Definition floor (d : t) : nat :=
  Z.to_nat (mantissa d / 2 ^ exponent d).

End Double.

Module SupportedExtra.
Record t : Type := mk { feePayer : option string }.
End SupportedExtra.

(** ** The scheme *)

Section ExactSvmScheme.

Context {Compiled SignerState : Type}.
Variable libs : Libraries Compiled.
Variable signer : FacilitatorSvmSigner SignerState.
Variable verificationConfig : Types.SvmVerificationConfig.
(** The constant of ../../constants, an integral number. *)
Variable MAX_COMPUTE_UNIT_PRICE_MICROLAMPORTS : Z.

Open Scope completion_scope.
Open Scope async_scope.

(** [address(s)] of @solana/kit: asserts that [s] is an address and returns it. *)
Definition address (s : string) : Completion string :=
  if isAddress libs s then Normal s else Throw (addressError libs s).

Definition instructionIncludesAccount (instruction : Instruction) (accountAddress : string) : bool :=
  match accounts instruction with
  | None => false
  | Some accs => existsb (fun acc => AccountMeta.address acc =? accountAddress) accs
  end.

(** [!instruction.data || instruction.data[0] !== discriminator] *)
Definition dataLacksDiscriminator (instruction : Instruction) (discriminator : Z) : bool :=
  match data instruction with
  | None => true
  | Some bytes =>
      match nth_error bytes 0 with
      | Some b => negb (Z.eqb b discriminator)
      | None => true
      end
  end.

Definition COMPUTE_LIMIT_REASON : string :=
  "invalid_exact_svm_payload_transaction_instructions_compute_limit_instruction".
Definition COMPUTE_PRICE_REASON : string :=
  "invalid_exact_svm_payload_transaction_instructions_compute_price_instruction".
Definition COMPUTE_PRICE_TOO_HIGH_REASON : string :=
  "invalid_exact_svm_payload_transaction_instructions_compute_price_instruction_too_high".

Definition verifyComputeLimitInstruction (instruction : Instruction) : Completion unit :=
  let programAddress := programAddress instruction in
  if negb (programAddress =? COMPUTE_BUDGET_PROGRAM_ADDRESS)
     || dataLacksDiscriminator instruction 2
  then Throw (ErrorObject COMPUTE_LIMIT_REASON)
  else
    match parseSetComputeUnitLimitInstruction libs instruction with
    | Normal _ => Normal tt
    | Throw _ => Throw (ErrorObject COMPUTE_LIMIT_REASON)
    end.

Definition verifyComputePriceInstruction (instruction : Instruction) : Completion unit :=
  let programAddress := programAddress instruction in
  if negb (programAddress =? COMPUTE_BUDGET_PROGRAM_ADDRESS)
     || dataLacksDiscriminator instruction 3
  then Throw (ErrorObject COMPUTE_PRICE_REASON)
  else
    let tried :=
      let? parsedInstruction := parseSetComputeUnitPriceInstruction libs instruction in
      (* [undefined > n] is false *)
      if match microLamports parsedInstruction with
         | Some price => Z.ltb MAX_COMPUTE_UNIT_PRICE_MICROLAMPORTS price
         | None => false
         end
      then Throw (ErrorObject COMPUTE_PRICE_TOO_HIGH_REASON)
      else Normal tt in
    match tried with
    | Normal _ => Normal tt
    | Throw error =>
        if match error with
           | ErrorObject message => stringIncludes "too_high" message
           | NonError _ => false
           end
        then Throw error
        else Throw (ErrorObject COMPUTE_PRICE_REASON)
    end.

Definition rejected (reason : string) : InstructionValidationResult :=
  {| isValid := false; reason := Some reason; transferInstructionIndex := 2 |}.

Definition accepted : InstructionValidationResult :=
  {| isValid := true; reason := None; transferInstructionIndex := 2 |}.

(** [customVerifiers.find(v => v.programIds.includes(address(programId)))]:
    the callback runs [address] once for every verifier it is asked about. *)
Fixpoint findCustomVerifier (verifiers : list Types.InstructionVerifierConfig)
    (programId : string) : Completion (option Types.InstructionVerifierConfig) :=
  match verifiers with
  | [] => Normal None
  | v :: rest =>
      let? a := address programId in
      if includes (Types.programIds v) a then Normal (Some v)
      else findCustomVerifier rest programId
  end.

(** [signerAddresses.map(addr => address(addr))] *)
Fixpoint mapAddress (addrs : list string) : Completion (list string) :=
  match addrs with
  | [] => Normal []
  | addr :: rest =>
      let? a := address addr in
      let? others := mapAddress rest in
      Normal (a :: others)
  end.

(** The body of the [try] block around a custom verifier's callback. *)
Definition runCustomVerifier (callback : Types.InstructionVerifier) (ix : Instruction)
    (signerAddresses : list string) (feePayer : string) (i : nat) : Completion unit :=
  let verifiableIx :=
    {| programAddress := programAddress ix; accounts := accounts ix; data := data ix |} in
  let? addresses := mapAddress signerAddresses in
  let? payer := address feePayer in
  let context :=
    {| Types.signerAddresses := addresses;
       Types.feePayer := payer;
       Types.instructionIndex := i |} in
  match callback verifiableIx context with
  | Some error => Throw error
  | None => Normal tt
  end.

(** The body of the loop over the additional instructions, for the
    instruction [ix] at index [i]: [Some result] is [return result], [None]
    is the end of the iteration ([continue] or falling off the body). *)
Definition validateAdditionalInstruction (config : Required.SvmVerificationConfig)
    (signerAddresses : list string) (feePayer : string)
    (i : nat) (ix : Instruction) : Completion (option InstructionValidationResult) :=
  let programId := programAddress ix in
  if includes (Required.blockedProgramIds config) programId
  then Normal (Some (rejected ("invalid_exact_svm_payload_blocked_program_" ++ programId)))
  else
    let? customVerifier := findCustomVerifier (Required.customVerifiers config) programId in
    match customVerifier with
    | Some customVerifier =>
        if match Types.allowedPositions customVerifier with
           | Some positions => negb (includesNumber positions (Z.of_nat i))
           | None => false
           end
        then Normal (Some (rejected ("invalid_exact_svm_payload_instruction_position_"
                                     ++ programId ++ "_at_" ++ numberToString (Z.of_nat i))))
        else
          match Types.verify customVerifier with
          | Some callback =>
              match runCustomVerifier callback ix signerAddresses feePayer i with
              | Throw error =>
                  Normal (Some (rejected
                    match error with
                    | ErrorObject message => message
                    | NonError _ => "custom_verifier_failed_" ++ programId
                    end))
              | Normal _ => Normal None
              end
          | None => Normal None
          end
    | None =>
        if (0 <? length (Required.allowedProgramIds config))%nat
           && negb (includes (Required.allowedProgramIds config) programId)
        then Normal (Some (rejected ("invalid_exact_svm_payload_program_not_allowed_" ++ programId)))
        else Normal None
    end.

(** The loop [for (let i = 3; i < instructions.length; i++)], as a recursion
    on the instructions from index [i] on. *)
Fixpoint validateAdditionalInstructions (config : Required.SvmVerificationConfig)
    (signerAddresses : list string) (feePayer : string)
    (i : nat) (remaining : list Instruction) : Completion InstructionValidationResult :=
  match remaining with
  | [] => Normal accepted
  | ix :: later =>
      let? outcome := validateAdditionalInstruction config signerAddresses feePayer i ix in
      match outcome with
      | Some result => Normal result
      | None => validateAdditionalInstructions config signerAddresses feePayer (S i) later
      end
  end.

Definition isTokenProgram (programId : string) : bool :=
  (programId =? TOKEN_PROGRAM_ADDRESS) || (programId =? TOKEN_2022_PROGRAM_ADDRESS).

(** [validateInstructions]. The first test, [instructions.length < 3], is the
    last branch of the [match]: the list has no entries 0, 1 and 2. *)
Definition validateInstructions (instructions : list Instruction)
    (signerAddresses : list string) (feePayer : string) : Completion InstructionValidationResult :=
  let config := spread DEFAULT_VERIFICATION_CONFIG verificationConfig in
  match instructions with
  | ix0 :: ix1 :: transferIx :: additional =>
      if Z.ltb (Required.maxInstructionCount config) (Z.of_nat (length instructions))
      then Normal (rejected ("invalid_exact_svm_payload_transaction_instructions_length_exceeds_max_"
                             ++ numberToString (Required.maxInstructionCount config)))
      else if Required.requireFeePayerNotInInstructions config
              && existsb (fun ix => instructionIncludesAccount ix feePayer) instructions
      then Normal (rejected "invalid_exact_svm_payload_fee_payer_in_instruction_accounts")
      else
        match verifyComputeLimitInstruction ix0 with
        | Throw error => Normal (rejected (messageOrString error))
        | Normal _ =>
            match verifyComputePriceInstruction ix1 with
            | Throw error => Normal (rejected (messageOrString error))
            | Normal _ =>
                let transferProgramId := programAddress transferIx in
                if negb (isTokenProgram transferProgramId)
                then Normal (rejected "invalid_exact_svm_payload_no_transfer_instruction_at_index_2")
                else if (3 <? length instructions)%nat
                then
                  if negb (Required.allowAdditionalInstructions config)
                  then Normal (rejected "invalid_exact_svm_payload_additional_instructions_not_allowed")
                  else validateAdditionalInstructions config signerAddresses feePayer 3 additional
                else Normal accepted
            end
        end
  | _ => Normal (rejected "invalid_exact_svm_payload_transaction_instructions_length_too_few")
  end.

(** [getExtra]; [random] is the number [Math.random()] returns. *)
Definition getExtra (random : Double.t) (_ : string) : SupportedExtra.t :=
  let addresses := getAddresses signer in
  let randomIndex := Double.floor (Double.timesLength random (length addresses)) in
  {| SupportedExtra.feePayer := nth_error addresses randomIndex |}.

(** [getSigners]: a copy of the signer's addresses. *)
Definition getSigners (_ : string) : list string :=
  getAddresses signer.

Definition invalid (invalidReason payer : string) : VerifyResponse.t :=
  {| VerifyResponse.isValid := false;
     VerifyResponse.invalidReason := Some invalidReason;
     VerifyResponse.payer := payer |}.

Definition valid (payer : string) : VerifyResponse.t :=
  {| VerifyResponse.isValid := true;
     VerifyResponse.invalidReason := None;
     VerifyResponse.payer := payer |}.

(** The required fee payer, when [requirements.extra?.feePayer] is truthy and a
    string: the value later read as [requirements.extra.feePayer]. *)
Definition requiredFeePayer (requirements : PaymentRequirements.t) : option string :=
  match PaymentRequirements.extra requirements with
  | None => None
  | Some extra =>
      let v := Extra.feePayer extra in
      if negb (truthy v) || negb (typeofIsString v) then None
      else match v with Str s => Some s | _ => None end
  end.

(** Reading a property of [undefined]. *)
Definition TypeError : Thrown :=
  ErrorObject "Cannot read properties of undefined".

(** Steps 4 and 5 of [verify]: the transfer instruction, then signing and
    simulation. *)
Definition verifyTransfer (exactSvmPayload : ExactSvmPayloadV2)
    (requirements : PaymentRequirements.t) (signerAddresses : list string)
    (feePayer payer : string) (transferIx : Instruction) : Async SignerState VerifyResponse.t :=
  let programAddress := programAddress transferIx in
  if negb (programAddress =? TOKEN_PROGRAM_ADDRESS)
     && negb (programAddress =? TOKEN_2022_PROGRAM_ADDRESS)
  then ret (invalid "invalid_exact_svm_payload_no_transfer_instruction" payer)
  else
    match (if programAddress =? TOKEN_PROGRAM_ADDRESS
           then parseTransferCheckedInstructionToken libs transferIx
           else parseTransferCheckedInstruction2022 libs transferIx) with
    | Throw _ => ret (invalid "invalid_exact_svm_payload_no_transfer_instruction" payer)
    | Normal parsedTransfer =>
        let authorityAddress := authority parsedTransfer in
        if includes signerAddresses authorityAddress
        then ret (invalid "invalid_exact_svm_payload_transaction_fee_payer_transferring_funds" payer)
        else
          let mintAddress := mint parsedTransfer in
          if negb (mintAddress =? PaymentRequirements.asset requirements)
          then ret (invalid "invalid_exact_svm_payload_mint_mismatch" payer)
          else
            let destATA := destination parsedTransfer in
            match findAssociatedTokenPda libs
                    (PaymentRequirements.asset requirements)
                    (PaymentRequirements.payTo requirements)
                    (if programAddress =? TOKEN_PROGRAM_ADDRESS
                     then TOKEN_PROGRAM_ADDRESS else TOKEN_2022_PROGRAM_ADDRESS) with
            | Throw _ => ret (invalid "invalid_exact_svm_payload_recipient_mismatch" payer)
            | Normal expectedDestATA =>
                if negb (destATA =? expectedDestATA)
                then ret (invalid "invalid_exact_svm_payload_recipient_mismatch" payer)
                else
                  let amount := amount parsedTransfer in
                  await required <- lift (BigInt libs (PaymentRequirements.amount requirements)) ;;
                  if Z.ltb amount required
                  then ret (invalid "invalid_exact_svm_payload_amount_insufficient" payer)
                  else
                    let network := PaymentRequirements.network requirements in
                    tryCatch
                      (await fullySignedTransaction <-
                         perform (SignTransaction (transaction exactSvmPayload) feePayer network)
                                 (signTransaction signer (transaction exactSvmPayload) feePayer network) ;;
                       await _ <-
                         perform (SimulateTransaction fullySignedTransaction network)
                                 (simulateTransaction signer fullySignedTransaction network) ;;
                       ret (valid payer))
                      (fun error =>
                         ret (invalid ("transaction_simulation_failed: " ++ messageOrString error)
                                      payer))
            end
    end.

(** Steps 3 to 5 of [verify], entered once the payer is resolved. *)
Definition verifyInstructions (exactSvmPayload : ExactSvmPayloadV2)
    (requirements : PaymentRequirements.t) (signerAddresses : list string)
    (feePayer payer : string) (instructions : list Instruction)
    : Async SignerState VerifyResponse.t :=
  await validationResult <- lift (validateInstructions instructions signerAddresses feePayer) ;;
  if negb (isValid validationResult)
  then ret (invalid match reason validationResult with
                    | Some reason => reason
                    | None => "invalid_instructions"
                    end payer)
  else
    match nth_error instructions (transferInstructionIndex validationResult) with
    | None => raise TypeError
    | Some transferIx =>
        verifyTransfer exactSvmPayload requirements signerAddresses feePayer payer transferIx
    end.

Definition verify (payload : PaymentPayload.t) (requirements : PaymentRequirements.t)
    : Async SignerState VerifyResponse.t :=
  let exactSvmPayload := PaymentPayload.payload payload in
  let accepted := PaymentPayload.accepted payload in
  if negb (PaymentRequirements.scheme accepted =? "exact")
     || negb (PaymentRequirements.scheme requirements =? "exact")
  then ret (invalid "unsupported_scheme" "")
  else if negb (PaymentRequirements.network accepted =? PaymentRequirements.network requirements)
  then ret (invalid "network_mismatch" "")
  else
    match requiredFeePayer requirements with
    | None => ret (invalid "invalid_exact_svm_payload_missing_fee_payer" "")
    | Some feePayer =>
        let signerAddresses := getAddresses signer in
        if negb (includes signerAddresses feePayer)
        then ret (invalid "fee_payer_not_managed_by_facilitator" "")
        else
          match decodeTransactionFromPayload libs exactSvmPayload with
          | Throw _ =>
              ret (invalid "invalid_exact_svm_payload_transaction_could_not_be_decoded" "")
          | Normal transaction =>
              await compiled <-
                lift (decodeCompiledTransactionMessage libs (messageBytes transaction)) ;;
              await decompiled <- lift (decompileTransactionMessage libs compiled) ;;
              let instructions :=
                match instructions decompiled with Some l => l | None => [] end in
              await payer <- lift (getTokenPayerFromTransaction libs transaction) ;;
              if payer =? ""
              then ret (invalid "invalid_exact_svm_payload_no_transfer_instruction" "")
              else verifyInstructions exactSvmPayload requirements signerAddresses
                                      feePayer payer instructions
          end
    end.

Definition settle (payload : PaymentPayload.t) (requirements : PaymentRequirements.t)
    : Async SignerState SettleResponse.t :=
  let exactSvmPayload := PaymentPayload.payload payload in
  let network := PaymentRequirements.network requirements in
  await valid <- verify payload requirements ;;
  if negb (VerifyResponse.isValid valid)
  then ret {| SettleResponse.success := false;
              SettleResponse.network := PaymentRequirements.network (PaymentPayload.accepted payload);
              SettleResponse.transaction := "";
              SettleResponse.errorReason :=
                Some match VerifyResponse.invalidReason valid with
                     | Some reason => reason
                     | None => "verification_failed"
                     end;
              SettleResponse.payer :=
                if VerifyResponse.payer valid =? "" then "" else VerifyResponse.payer valid |}
  else
    tryCatch
      (await feePayer <-
         lift match requiredFeePayer requirements with
              | Some feePayer => Normal feePayer
              | None => Throw TypeError
              end ;;
       await fullySignedTransaction <-
         perform (SignTransaction (transaction exactSvmPayload) feePayer network)
                 (signTransaction signer (transaction exactSvmPayload) feePayer network) ;;
       await signature <-
         perform (SendTransaction fullySignedTransaction network)
                 (sendTransaction signer fullySignedTransaction network) ;;
       await _ <-
         perform (ConfirmTransaction signature network)
                 (confirmTransaction signer signature network) ;;
       ret {| SettleResponse.success := true;
              SettleResponse.transaction := signature;
              SettleResponse.network := PaymentRequirements.network (PaymentPayload.accepted payload);
              SettleResponse.errorReason := None;
              SettleResponse.payer := VerifyResponse.payer valid |})
      (fun error w =>
         (Normal {| SettleResponse.success := false;
                    SettleResponse.errorReason := Some "transaction_failed";
                    SettleResponse.transaction := "";
                    SettleResponse.network :=
                      PaymentRequirements.network (PaymentPayload.accepted payload);
                    SettleResponse.payer :=
                      if VerifyResponse.payer valid =? "" then "" else VerifyResponse.payer valid |},
          mkWorld (signerState w)
                  (effects w ++ [ConsoleError "Failed to settle transaction:" error])%list)).

End ExactSvmScheme.

(** ** The gates of [verify]

    What it means for a call of [verify] to get past its first gates, stated on
    the collaborators' answers. *)
Section Gates.

Context {Compiled SignerState : Type}.
Variable libs : Libraries Compiled.
Variable signer : FacilitatorSvmSigner SignerState.
Variable verificationConfig : Types.SvmVerificationConfig.
Variable MAX_COMPUTE_UNIT_PRICE_MICROLAMPORTS : Z.

(** Step 1 passes with the required fee payer [feePayer], and the payload
    decodes to [tx]. *)
Definition decodes (payload : PaymentPayload.t) (requirements : PaymentRequirements.t)
    (feePayer : string) (tx : Transaction) : Prop :=
  PaymentRequirements.scheme (PaymentPayload.accepted payload) = "exact"
  /\ PaymentRequirements.scheme requirements = "exact"
  /\ PaymentRequirements.network (PaymentPayload.accepted payload)
     = PaymentRequirements.network requirements
  /\ requiredFeePayer requirements = Some feePayer
  /\ includes (getAddresses signer) feePayer = true
  /\ decodeTransactionFromPayload libs (PaymentPayload.payload payload) = Normal tx.

(** Moreover the message of [tx] decompiles, to the instruction list [ixs]. *)
Definition decompiles (payload : PaymentPayload.t) (requirements : PaymentRequirements.t)
    (feePayer : string) (tx : Transaction) (ixs : list Instruction) : Prop :=
  decodes payload requirements feePayer tx
  /\ exists compiled decompiled,
       decodeCompiledTransactionMessage libs (messageBytes tx) = Normal compiled
       /\ decompileTransactionMessage libs compiled = Normal decompiled
       /\ ixs = match instructions decompiled with
                | Some l => l
                | None => []
                end.

(** Moreover the payer is resolved, to [payer]. *)
Definition resolves (payload : PaymentPayload.t) (requirements : PaymentRequirements.t)
    (feePayer payer : string) (instructions : list Instruction) : Prop :=
  exists tx,
    decompiles payload requirements feePayer tx instructions
    /\ getTokenPayerFromTransaction libs tx = Normal payer
    /\ payer <> "".

(** The checks of [validateInstructions] on the instruction count, the fee
    payer's absence and the three required instructions all pass. *)
Definition requiredInstructionsPass (instructions : list Instruction) (feePayer : string) : Prop :=
  let config := spread DEFAULT_VERIFICATION_CONFIG verificationConfig in
  match instructions with
  | ix0 :: ix1 :: transferIx :: _ =>
      (Z.of_nat (length instructions) <= Required.maxInstructionCount config)%Z
      /\ (Required.requireFeePayerNotInInstructions config = true ->
          forall ix, In ix instructions -> instructionIncludesAccount ix feePayer = false)
      /\ verifyComputeLimitInstruction libs ix0 = Normal tt
      /\ verifyComputePriceInstruction libs MAX_COMPUTE_UNIT_PRICE_MICROLAMPORTS ix1 = Normal tt
      /\ isTokenProgram (programAddress transferIx) = true
  | _ => False
  end.

(** The transfer instruction passes every check of step 4 before the amount
    check: it parses to [parsed], its authority is not a signer address, its
    mint and destination are the required ones, and the required amount reads
    as [required]. *)
Definition transferMatches (requirements : PaymentRequirements.t) (transferIx : Instruction)
    (parsed : ParsedTransferChecked) (required : Z) : Prop :=
  let program := programAddress transferIx in
  isTokenProgram program = true
  /\ (if program =? TOKEN_PROGRAM_ADDRESS
      then parseTransferCheckedInstructionToken libs transferIx
      else parseTransferCheckedInstruction2022 libs transferIx) = Normal parsed
  /\ includes (getAddresses signer) (authority parsed) = false
  /\ mint parsed = PaymentRequirements.asset requirements
  /\ findAssociatedTokenPda libs (PaymentRequirements.asset requirements)
       (PaymentRequirements.payTo requirements)
       (if program =? TOKEN_PROGRAM_ADDRESS
        then TOKEN_PROGRAM_ADDRESS else TOKEN_2022_PROGRAM_ADDRESS)
     = Normal (destination parsed)
  /\ BigInt libs (PaymentRequirements.amount requirements) = Normal required.

(** The effects of the simulation gate: a signing, then a simulation. *)
Definition ofSimulationGate (e : Effect) : Prop :=
  match e with
  | SignTransaction _ _ _ | SimulateTransaction _ _ => True
  | _ => False
  end.

(** The simulation gate passes from [w] to [w']: the signer signs the payload's
    transaction for [feePayer] and simulates what it signed, and both calls
    return. *)
Definition simulated (requirements : PaymentRequirements.t) (exactSvmPayload : ExactSvmPayloadV2)
    (feePayer : string) (w w' : World SignerState) : Prop :=
  let network := PaymentRequirements.network requirements in
  exists signed s1 s2,
    signTransaction signer (transaction exactSvmPayload) feePayer network (signerState w)
    = (Normal signed, s1)
    /\ simulateTransaction signer signed network s1 = (Normal tt, s2)
    /\ w' = mkWorld s2 (effects w ++ [SignTransaction (transaction exactSvmPayload) feePayer network;
                                     SimulateTransaction signed network])%list.

(** The submission of [settle] succeeds from [w] to [w'], with [signature]:
    signing, sending and confirming all return. *)
Definition submitted (requirements : PaymentRequirements.t) (exactSvmPayload : ExactSvmPayloadV2)
    (feePayer signature : string) (w w' : World SignerState) : Prop :=
  let network := PaymentRequirements.network requirements in
  exists signed s1 s2 s3,
    signTransaction signer (transaction exactSvmPayload) feePayer network (signerState w)
    = (Normal signed, s1)
    /\ sendTransaction signer signed network s1 = (Normal signature, s2)
    /\ confirmTransaction signer signature network s2 = (Normal tt, s3)
    /\ w' = mkWorld s3 (effects w ++ [SignTransaction (transaction exactSvmPayload) feePayer network;
                                     SendTransaction signed network;
                                     ConfirmTransaction signature network])%list.

(** The reasons [verify] gives before it has a payer. *)
Definition REASONS_WITHOUT_PAYER : list string :=
  [ "unsupported_scheme";
    "network_mismatch";
    "invalid_exact_svm_payload_missing_fee_payer";
    "fee_payer_not_managed_by_facilitator";
    "invalid_exact_svm_payload_transaction_could_not_be_decoded";
    "invalid_exact_svm_payload_no_transfer_instruction" ].

End Gates.

(** ** A concrete facilitator

    Collaborators that compute, used to run the scheme on the scenarios of the
    specification and on the inputs named in the theorems below. The payload's
    [transaction] string stands for the encoded transaction; [messages] lists
    what each one decompiles to. *)
Module Example.

(** Little-endian bytes of [v], [n] of them, and back. *)
Fixpoint littleEndian (n : nat) (v : Z) : list Z :=
  match n with
  | O => []
  | S n' => (v mod 256)%Z :: littleEndian n' (v / 256)%Z
  end.

Fixpoint fromLittleEndian (bytes : list Z) : Z :=
  match bytes with
  | [] => 0%Z
  | b :: rest => (b + 256 * fromLittleEndian rest)%Z
  end.

Definition facilitator : string := "FeePayer1111111111111111111111111111111111".
Definition client : string := "Client111111111111111111111111111111111111".
Definition clientAccount : string := "ClientAta1111111111111111111111111111111111".
Definition usdc : string := "EPjFWdd5AufqSSqeM2qN1xzybapC8G4wEGGkZwyTDt1v".
Definition merchant : string := "Merchant11111111111111111111111111111111111".
Definition lighthouse : string := "L2TExMFKdjpN9kozasaurPirfHy9P8sbXoAN1qA3S95".
Definition memo : string := "MemoSq4gqABAXKb96qnH8TysNcWxMyWCqXgDLGmfcHr".
Definition devnet : string := "solana:EtWTRABZaYq6iMfeYKouRu166VU2xqa1".

Definition ata (mint owner tokenProgram : string) : string :=
  "ata(" ++ mint ++ "," ++ owner ++ "," ++ tokenProgram ++ ")".

Definition meta (a : string) : AccountMeta.t :=
  {| AccountMeta.address := a; AccountMeta.role := 1 |}.

Definition setComputeUnitLimit (units : Z) : Instruction :=
  {| programAddress := COMPUTE_BUDGET_PROGRAM_ADDRESS;
     accounts := None;
     data := Some (2%Z :: littleEndian 4 units) |}.

Definition setComputeUnitPrice (price : Z) : Instruction :=
  {| programAddress := COMPUTE_BUDGET_PROGRAM_ADDRESS;
     accounts := None;
     data := Some (3%Z :: littleEndian 8 price) |}.

Definition transferChecked (program source mint destination authority : string) (amount : Z)
    : Instruction :=
  {| programAddress := program;
     accounts := Some [meta source; meta mint; meta destination; meta authority];
     data := Some (12%Z :: littleEndian 8 amount ++ [6%Z])%list |}.

Definition other (program : string) : Instruction :=
  {| programAddress := program; accounts := Some []; data := Some [] |}.

Definition goodTransfer (amount : Z) : Instruction :=
  transferChecked TOKEN_PROGRAM_ADDRESS clientAccount usdc
                  (ata usdc merchant TOKEN_PROGRAM_ADDRESS) client amount.

Definition scenarioA : list Instruction :=
  [setComputeUnitLimit 20000; setComputeUnitPrice 1; goodTransfer 1000].

(** What each encoded transaction decompiles to; [None] when decompilation
    fails (a message that needs address lookup tables). *)
Definition messages : list (string * option (list Instruction)) :=
  [ ("A", Some scenarioA);
    ("B", Some (scenarioA ++ [other lighthouse])%list);
    ("C", Some [setComputeUnitLimit 20000; setComputeUnitPrice 5000001; goodTransfer 1000]);
    ("D", Some [setComputeUnitLimit 20000; setComputeUnitPrice 1;
                transferChecked TOKEN_PROGRAM_ADDRESS clientAccount usdc
                                (ata usdc client TOKEN_PROGRAM_ADDRESS) client 1000]);
    ("short", Some [setComputeUnitLimit 20000; goodTransfer 1000]);
    ("empty", Some []);
    ("underpaid", Some [setComputeUnitLimit 20000; setComputeUnitPrice 1; goodTransfer 999]);
    ("overpaid", Some [setComputeUnitLimit 20000; setComputeUnitPrice 1; goodTransfer 1001]);
    ("unfunded", Some scenarioA);
    ("payer-in-extra", Some (scenarioA ++ [{| programAddress := memo;
                                              accounts := Some [meta facilitator];
                                              data := Some [] |}])%list);
    ("memo", Some (scenarioA ++ [other memo])%list);
    ("memo-memo", Some (scenarioA ++ [other memo; other lighthouse])%list);
    ("lookup-tables", None) ].

Fixpoint lookup {A : Type} (key : string) (table : list (string * A)) : option A :=
  match table with
  | [] => None
  | (k, v) :: rest => if k =? key then Some v else lookup key rest
  end.

Definition bytesOf (s : string) : list Z :=
  map (fun c => Z.of_nat (nat_of_ascii c)) (list_ascii_of_string s).

Definition stringOf (bytes : list Z) : string :=
  string_of_list_ascii (map (fun b => ascii_of_nat (Z.to_nat b)) bytes).

Definition codecError : Thrown := ErrorObject "codec: unexpected bytes".

(** Modelled from the spec: [getTokenPayerFromTransaction] of ../../utils is
    not part of the sources at hand; the specification says that the payer is
    resolved from the transfer instruction's source account, and [verify]
    reports [no_transfer_instruction] when nothing is resolved. *)
Fixpoint tokenPayer (instructions : list Instruction) : string :=
  match instructions with
  | [] => ""
  | ix :: rest =>
      if (programAddress ix =? TOKEN_PROGRAM_ADDRESS)
         || (programAddress ix =? TOKEN_2022_PROGRAM_ADDRESS)
      then match accounts ix with
           | Some (source :: _) => AccountMeta.address source
           | _ => tokenPayer rest
           end
      else tokenPayer rest
  end.

Definition parseTransfer (ix : Instruction) : Completion ParsedTransferChecked :=
  match accounts ix, data ix with
  | Some (_ :: mint :: destination :: authority :: _), Some (12%Z :: bytes) =>
      if (length bytes =? 9)%nat
      then Normal {| authority := AccountMeta.address authority;
                     mint := AccountMeta.address mint;
                     destination := AccountMeta.address destination;
                     amount := fromLittleEndian (firstn 8 bytes) |}
      else Throw codecError
  | _, _ => Throw codecError
  end.

Fixpoint decimal (digits : list ascii) (acc : Z) : option Z :=
  match digits with
  | [] => Some acc
  | c :: rest =>
      let n := nat_of_ascii c in
      if (48 <=? n)%nat && (n <=? 57)%nat
      then decimal rest (10 * acc + Z.of_nat (n - 48))%Z
      else None
  end.

Definition libraries : Libraries (list Z) :=
  {| decodeTransactionFromPayload p :=
       match lookup (transaction p) messages with
       | Some _ => Normal {| messageBytes := bytesOf (transaction p) |}
       | None => Throw codecError
       end;
     getTokenPayerFromTransaction tx :=
       match lookup (stringOf (messageBytes tx)) messages with
       | Some (Some instructions) => Normal (tokenPayer instructions)
       | _ => Normal ""
       end;
     decodeCompiledTransactionMessage bytes := Normal bytes;
     decompileTransactionMessage compiled :=
       match lookup (stringOf compiled) messages with
       | Some (Some instructions) => Normal {| instructions := Some instructions |}
       | _ => Throw (ErrorObject "address lookup table contents missing")
       end;
     isAddress a := (32 <=? String.length a)%nat && (String.length a <=? 44)%nat;
     addressError a := ErrorObject ("not a base58 address: " ++ a);
     parseSetComputeUnitLimitInstruction ix :=
       match data ix with
       | Some (_ :: bytes) => if (length bytes =? 4)%nat then Normal tt else Throw codecError
       | _ => Throw codecError
       end;
     (* The parser returns { programAddress, data: { discriminator, microLamports } }:
        the price is under [data], and the result has no property [microLamports]
        of its own. *)
     parseSetComputeUnitPriceInstruction ix :=
       match data ix with
       | Some (_ :: bytes) =>
           if (length bytes =? 8)%nat
           then Normal {| microLamports := None |}
           else Throw codecError
       | _ => Throw codecError
       end;
     parseTransferCheckedInstructionToken := parseTransfer;
     parseTransferCheckedInstruction2022 := parseTransfer;
     findAssociatedTokenPda mint owner tokenProgram := Normal (ata mint owner tokenProgram);
     BigInt s :=
       match s with
       | EmptyString => Normal 0%Z
       | _ => match decimal (list_ascii_of_string s) 0 with
              | Some n => Normal n
              | None => Throw (ErrorObject "SyntaxError: Cannot convert to a BigInt")
              end
       end |}.

(** A signer with one key; its state counts the transactions it signed. The
    account behind ["unfunded"] cannot pay: its simulation fails. *)
Definition signer : FacilitatorSvmSigner nat :=
  {| getAddresses := [facilitator];
     signTransaction tx _ _ n := (Normal ("signed:" ++ tx), S n);
     simulateTransaction tx _ n :=
       (if tx =? "signed:unfunded"
        then Throw (ErrorObject "insufficient funds")
        else Normal tt, n);
     sendTransaction tx _ n := (Normal ("signature-of:" ++ tx), n);
     confirmTransaction _ _ n := (Normal tt, n) |}.

Definition MAX_COMPUTE_UNIT_PRICE_MICROLAMPORTS : Z := 5000000.

Definition defaults : Types.SvmVerificationConfig :=
  {| Types.maxInstructionCount := None;
     Types.allowAdditionalInstructions := None;
     Types.allowedProgramIds := None;
     Types.blockedProgramIds := None;
     Types.customVerifiers := None;
     Types.requireFeePayerNotInInstructions := None |}.

(** Up to one additional instruction of any program. *)
Definition lenient : Types.SvmVerificationConfig :=
  {| Types.maxInstructionCount := Some 4%Z;
     Types.allowAdditionalInstructions := Some true;
     Types.allowedProgramIds := None;
     Types.blockedProgramIds := None;
     Types.customVerifiers := None;
     Types.requireFeePayerNotInInstructions := None |}.

(** Up to two additional instructions; one rule matches the memo and the
    lighthouse programs at positions 3 and 4; the lighthouse program is
    blocked. *)
Definition guarded : Types.SvmVerificationConfig :=
  {| Types.maxInstructionCount := Some 5%Z;
     Types.allowAdditionalInstructions := Some true;
     Types.allowedProgramIds := None;
     Types.blockedProgramIds := Some [lighthouse];
     Types.customVerifiers :=
       Some [ {| Types.programIds := [lighthouse; memo];
                 Types.allowedPositions := Some [3%Z; 4%Z];
                 Types.verify := None |} ];
     Types.requireFeePayerNotInInstructions := None |}.

(** One additional instruction; the verifier of the memo program refuses every
    instruction with [throw new Error()], an error with an empty message. *)
Definition silent : Types.SvmVerificationConfig :=
  {| Types.maxInstructionCount := Some 4%Z;
     Types.allowAdditionalInstructions := Some true;
     Types.allowedProgramIds := None;
     Types.blockedProgramIds := None;
     Types.customVerifiers :=
       Some [ {| Types.programIds := [memo];
                 Types.allowedPositions := None;
                 Types.verify := Some (fun _ _ => Some (ErrorObject "")) |} ];
     Types.requireFeePayerNotInInstructions := None |}.

Definition requirements : PaymentRequirements.t :=
  {| PaymentRequirements.scheme := "exact";
     PaymentRequirements.network := devnet;
     PaymentRequirements.asset := usdc;
     PaymentRequirements.payTo := merchant;
     PaymentRequirements.amount := "1000";
     PaymentRequirements.extra := Some {| Extra.feePayer := Str facilitator |} |}.

Definition payloadOf (tx : string) : PaymentPayload.t :=
  {| PaymentPayload.accepted := requirements;
     PaymentPayload.payload := {| transaction := tx |} |}.

Definition start : World nat := mkWorld 0%nat [].

Definition verifyWith (config : Types.SvmVerificationConfig) (tx : string) :=
  verify libraries signer config MAX_COMPUTE_UNIT_PRICE_MICROLAMPORTS
         (payloadOf tx) requirements start.

Definition settleWith (config : Types.SvmVerificationConfig) (tx : string) :=
  settle libraries signer config MAX_COMPUTE_UNIT_PRICE_MICROLAMPORTS
         (payloadOf tx) requirements start.

(** What the verification of ["unfunded"] answers, and the world it leaves. *)
Definition simulationFailure : string := "transaction_simulation_failed: insufficient funds".

Definition afterSimulation : World nat :=
  mkWorld 1%nat [SignTransaction "unfunded" facilitator devnet;
                 SimulateTransaction "signed:unfunded" devnet].

(** What decompiling ["lookup-tables"] throws. *)
Definition lookupTablesMissing : Thrown := ErrorObject "address lookup table contents missing".


(** Up to two additional instructions, of the lighthouse program only. *)
Definition listed : Types.SvmVerificationConfig :=
  {| Types.maxInstructionCount := Some 5%Z;
     Types.allowAdditionalInstructions := Some true;
     Types.allowedProgramIds := Some [lighthouse];
     Types.blockedProgramIds := None;
     Types.customVerifiers := None;
     Types.requireFeePayerNotInInstructions := None |}.

(** Up to two additional instructions; the memo program only at index 4. *)
Definition placed : Types.SvmVerificationConfig :=
  {| Types.maxInstructionCount := Some 5%Z;
     Types.allowAdditionalInstructions := Some true;
     Types.allowedProgramIds := None;
     Types.blockedProgramIds := None;
     Types.customVerifiers :=
       Some [ {| Types.programIds := [memo];
                 Types.allowedPositions := Some [4%Z];
                 Types.verify := None |} ];
     Types.requireFeePayerNotInInstructions := None |}.

(** The world the verification of ["A"] leaves. *)
Definition afterVerification : World nat :=
  mkWorld 1%nat [SignTransaction "A" facilitator devnet; SimulateTransaction "signed:A" devnet].

End Example.

(** ** Properties *)

Section Properties.

Context {Compiled SignerState : Type}.
Variable libs : Libraries Compiled.
Variable signer : FacilitatorSvmSigner SignerState.
Variable verificationConfig : Types.SvmVerificationConfig.
Variable MAX_COMPUTE_UNIT_PRICE_MICROLAMPORTS : Z.

Local Abbreviation config := (spread DEFAULT_VERIFICATION_CONFIG verificationConfig).
Local Abbreviation verify :=
  (verify libs signer verificationConfig MAX_COMPUTE_UNIT_PRICE_MICROLAMPORTS).
Local Abbreviation settle :=
  (settle libs signer verificationConfig MAX_COMPUTE_UNIT_PRICE_MICROLAMPORTS).
Local Abbreviation verifyInstructions :=
  (verifyInstructions libs signer verificationConfig MAX_COMPUTE_UNIT_PRICE_MICROLAMPORTS).
Local Abbreviation validateInstructions :=
  (validateInstructions libs verificationConfig MAX_COMPUTE_UNIT_PRICE_MICROLAMPORTS).
Local Abbreviation verifyTransfer := (verifyTransfer libs signer).
Local Abbreviation verifyComputePriceInstruction :=
  (verifyComputePriceInstruction libs MAX_COMPUTE_UNIT_PRICE_MICROLAMPORTS).
Local Abbreviation validateAdditionalInstruction := (validateAdditionalInstruction libs).
Local Abbreviation validateAdditionalInstructions := (validateAdditionalInstructions libs).
Local Abbreviation resolves := (resolves libs signer).
Local Abbreviation decodes := (decodes libs signer).
Local Abbreviation requiredInstructionsPass :=
  (requiredInstructionsPass libs verificationConfig MAX_COMPUTE_UNIT_PRICE_MICROLAMPORTS).

(** *** The pipeline of [verify] *)

(** Past its first gates, [verify] is [verifyInstructions]. *)
Lemma verify_resolved payload requirements feePayer payer ixs :
  resolves payload requirements feePayer payer ixs ->
  verify payload requirements
  = verifyInstructions (PaymentPayload.payload payload) requirements
                       (getAddresses signer) feePayer payer ixs.
Proof.
  intros (tx & ((Hs1 & Hs2 & Hn & Hfp & Hin & Hdec) & (c & d & Hc & Hd & Hixs)) & Hp & Hne).
  unfold verify.
  rewrite Hs1, Hs2, Hn, Hfp, Hin, Hdec. rewrite !String.eqb_refl. cbn [negb orb].
  unfold bind, lift. rewrite Hc, Hd, Hp.
  apply String.eqb_neq in Hne. rewrite Hne. subst ixs. reflexivity.
Qed.

(** Every response of [verifyTransfer] carries the payer it was given. *)
Lemma verifyTransfer_payer p requirements addrs feePayer payer transferIx w v w' :
  verifyTransfer p requirements addrs feePayer payer transferIx w = (Normal v, w') ->
  VerifyResponse.payer v = payer.
Proof.
  unfold verifyTransfer, ret, bind, lift, tryCatch, perform.
  set (parsing := if programAddress transferIx =? TOKEN_PROGRAM_ADDRESS
                  then parseTransferCheckedInstructionToken libs transferIx
                  else parseTransferCheckedInstruction2022 libs transferIx).
  destruct (negb _ && negb _); [intro H; inversion H; reflexivity | ].
  destruct parsing as [parsed | ]; [ | intro H; inversion H; reflexivity].
  destruct (includes addrs _); [intro H; inversion H; reflexivity | ].
  destruct (negb (mint parsed =? _)); [intro H; inversion H; reflexivity | ].
  destruct (findAssociatedTokenPda _ _ _ _) as [expected | ];
    [ | intro H; inversion H; reflexivity].
  destruct (negb (destination parsed =? expected)); [intro H; inversion H; reflexivity | ].
  destruct (BigInt _ _) as [required | ]; [ | discriminate].
  destruct (Z.ltb _ _); [intro H; inversion H; reflexivity | ].
  destruct (signTransaction _ _ _ _ _) as [[signed | e] s1];
    [ | intro H; inversion H; reflexivity].
  destruct (simulateTransaction _ _ _ _) as [[u | e] s2];
    intro H; inversion H; reflexivity.
Qed.

(** Every response of [verifyInstructions] carries the payer it was given. *)
Lemma verifyInstructions_payer p requirements addrs feePayer payer ixs w v w' :
  verifyInstructions p requirements addrs feePayer payer ixs w = (Normal v, w') ->
  VerifyResponse.payer v = payer.
Proof.
  unfold verifyInstructions, bind, lift, ret, raise.
  destruct (validateInstructions ixs addrs feePayer) as [res | t]; [ | discriminate].
  destruct (isValid res); cbn [negb].
  - destruct (nth_error ixs (transferInstructionIndex res)) as [ix | ]; [ | discriminate].
    apply verifyTransfer_payer.
  - intro H; inversion H; reflexivity.
Qed.

(** C8. Once [verify] has resolved the payer from the transaction, every
    response it returns afterwards, whichever later gate produces it (instruction
    validation, the transfer checks, signing and simulation), carries that payer
    in its [payer] field, not the empty string. *)
Theorem verify_preserves_resolved_payer payload requirements feePayer payer ixs w v w' :
  resolves payload requirements feePayer payer ixs ->
  verify payload requirements w = (Normal v, w') ->
  VerifyResponse.payer v = payer /\ VerifyResponse.payer v <> "".
Proof.
  intros Hres Hrun.
  assert (Hne : payer <> "") by (destruct Hres as (tx & _ & _ & Hne); exact Hne).
  rewrite (verify_resolved _ _ _ _ _ Hres) in Hrun.
  apply verifyInstructions_payer in Hrun. subst payer. split; [reflexivity | exact Hne].
Qed.

(** A rejection by [validateInstructions] is the response of [verify], with
    the reason unchanged and no effect performed. *)
Lemma verifyInstructions_rejected p requirements addrs feePayer payer ixs r w :
  validateInstructions ixs addrs feePayer = Normal (rejected r) ->
  verifyInstructions p requirements addrs feePayer payer ixs w = (Normal (invalid r payer), w).
Proof.
  intro H. unfold verifyInstructions, bind, lift. rewrite H. reflexivity.
Qed.

Lemma instructionIncludesAccount_true ix accs a feePayer :
  accounts ix = Some accs -> In a accs -> AccountMeta.address a = feePayer ->
  instructionIncludesAccount ix feePayer = true.
Proof.
  intros Haccs Hin Ha. unfold instructionIncludesAccount. rewrite Haccs.
  apply existsb_exists. exists a. split; [exact Hin | ]. rewrite Ha. apply String.eqb_refl.
Qed.

(** *** Instruction count and fee payer *)

(** C3. When the requirement gates pass, the payload decodes and decompiles
    and the payer is resolved, an instruction list with fewer than 3 entries
    makes [verify] reject with the too-few reason, whatever the entries are. *)
Theorem verify_too_few_instructions payload requirements feePayer payer ixs w :
  resolves payload requirements feePayer payer ixs ->
  (length ixs < 3)%nat ->
  verify payload requirements w
  = (Normal (invalid "invalid_exact_svm_payload_transaction_instructions_length_too_few" payer),
     w).
Proof.
  intros Hres Hlen. rewrite (verify_resolved _ _ _ _ _ Hres).
  apply verifyInstructions_rejected.
  destruct ixs as [ | a [ | b [ | c rest]]]; try reflexivity.
  cbn [length] in Hlen. lia.
Qed.

(** C5. When the merged policy has [requireFeePayerNotInInstructions] enabled
    and the required fee payer is the address of an account of some instruction,
    at any index, [verify] rejects with the fee-payer-in-accounts reason: the
    scan runs once the instruction count is within bounds, before any
    instruction is looked at. *)
Theorem verify_fee_payer_in_instruction_accounts
    payload requirements feePayer payer ixs ix accs a w :
  resolves payload requirements feePayer payer ixs ->
  (3 <= length ixs)%nat ->
  (Z.of_nat (length ixs) <= Required.maxInstructionCount config)%Z ->
  Required.requireFeePayerNotInInstructions config = true ->
  In ix ixs -> accounts ix = Some accs -> In a accs -> AccountMeta.address a = feePayer ->
  verify payload requirements w
  = (Normal (invalid "invalid_exact_svm_payload_fee_payer_in_instruction_accounts" payer), w).
Proof.
  intros Hres Hmin Hmax Hflag Hix Haccs Ha Haddr.
  rewrite (verify_resolved _ _ _ _ _ Hres).
  apply verifyInstructions_rejected.
  unfold validateInstructions.
  destruct ixs as [ | ix0 [ | ix1 [ | ix2 rest]]]; cbn [length] in Hmin; try lia.
  apply Z.ltb_ge in Hmax. rewrite Hmax, Hflag. cbn [andb].
  replace (existsb _ _) with true; [reflexivity | ].
  symmetry. apply existsb_exists. exists ix. split; [exact Hix | ].
  now apply (instructionIncludesAccount_true ix accs a).
Qed.

(** *** Effects *)

Lemma effects_unchanged (w : World SignerState) :
  exists performed, effects w = (effects w ++ performed)%list /\ Forall ofSimulationGate performed.
Proof. exists []. split; [now rewrite app_nil_r | constructor]. Qed.

Ltac unchanged :=
  intro H; inversion H; subst; apply effects_unchanged.

(** [verifyTransfer] signs and simulates, and does nothing else. *)
Lemma verifyTransfer_effects p requirements addrs feePayer payer transferIx w c w' :
  verifyTransfer p requirements addrs feePayer payer transferIx w = (c, w') ->
  exists performed,
    effects w' = (effects w ++ performed)%list /\ Forall ofSimulationGate performed.
Proof.
  unfold verifyTransfer, ret, bind, lift, tryCatch, perform.
  set (parsing := if programAddress transferIx =? TOKEN_PROGRAM_ADDRESS
                  then parseTransferCheckedInstructionToken libs transferIx
                  else parseTransferCheckedInstruction2022 libs transferIx).
  destruct (negb _ && negb _); [unchanged | ].
  destruct parsing as [parsed | ]; [ | unchanged].
  destruct (includes addrs _); [unchanged | ].
  destruct (negb (mint parsed =? _)); [unchanged | ].
  destruct (findAssociatedTokenPda _ _ _ _) as [expected | ]; [ | unchanged].
  destruct (negb (destination parsed =? expected)); [unchanged | ].
  destruct (BigInt _ _) as [required | ]; [ | unchanged].
  destruct (Z.ltb _ _); [unchanged | ].
  destruct (signTransaction _ _ _ _ _) as [[signed | e] s1].
  - destruct (simulateTransaction _ _ _ _) as [[u | e] s2];
      intro H; inversion H; subst; cbn [effects]; rewrite <- app_assoc;
      eexists; (split; [reflexivity | repeat constructor]).
  - intro H; inversion H; subst; cbn [effects].
    eexists; (split; [reflexivity | repeat constructor]).
Qed.

(** So does [verify]. *)
Lemma verify_effects payload requirements w c w' :
  verify payload requirements w = (c, w') ->
  exists performed,
    effects w' = (effects w ++ performed)%list /\ Forall ofSimulationGate performed.
Proof.
  unfold verify, ret, bind, lift.
  destruct (negb _ || negb _); [unchanged | ].
  destruct (negb (_ =? _)); [unchanged | ].
  destruct (requiredFeePayer requirements) as [feePayer | ]; [ | unchanged].
  destruct (negb (includes _ feePayer)); [unchanged | ].
  destruct (decodeTransactionFromPayload _ _) as [tx | ]; [ | unchanged].
  destruct (decodeCompiledTransactionMessage _ _) as [compiled | ]; [ | unchanged].
  destruct (decompileTransactionMessage _ _) as [decompiled | ]; [ | unchanged].
  destruct (getTokenPayerFromTransaction _ _) as [payer | ]; [ | unchanged].
  destruct (payer =? ""); [unchanged | ].
  unfold verifyInstructions, ret, bind, lift, raise.
  destruct (validateInstructions _ _ _) as [res | ]; [ | unchanged].
  destruct (negb (isValid res)); [unchanged | ].
  destruct (nth_error _ _) as [transferIx | ]; [ | unchanged].
  apply verifyTransfer_effects.
Qed.

(** What [verify] performs is nothing, or one signing of the payload's
    transaction for the required fee payer, or that signing and one
    simulation. *)
Lemma verify_performs payload requirements w c w' :
  verify payload requirements w = (c, w') ->
  exists performed,
    effects w' = (effects w ++ performed)%list
    /\ (performed = []
        \/ exists feePayer,
             requiredFeePayer requirements = Some feePayer
             /\ (performed
                 = [SignTransaction (transaction (PaymentPayload.payload payload)) feePayer
                                    (PaymentRequirements.network requirements)]
                 \/ exists signed,
                      performed
                      = [SignTransaction (transaction (PaymentPayload.payload payload)) feePayer
                                         (PaymentRequirements.network requirements);
                         SimulateTransaction signed
                                             (PaymentRequirements.network requirements)])).
Proof.
  assert (Hnone : forall (c0 : Completion VerifyResponse.t),
            (c0, w) = (c, w') ->
            exists performed,
              effects w' = (effects w ++ performed)%list
              /\ (performed = []
                  \/ exists feePayer,
                       requiredFeePayer requirements = Some feePayer
                       /\ (performed
                           = [SignTransaction (transaction (PaymentPayload.payload payload))
                                              feePayer (PaymentRequirements.network requirements)]
                           \/ exists signed,
                                performed
                                = [SignTransaction (transaction (PaymentPayload.payload payload))
                                                   feePayer
                                                   (PaymentRequirements.network requirements);
                                   SimulateTransaction
                                     signed (PaymentRequirements.network requirements)]))).
  { intros c0 H. inversion H; subst. exists []. split; [now rewrite app_nil_r | now left]. }
  unfold verify, ret, bind, lift.
  destruct (negb _ || negb _); [apply Hnone | ].
  destruct (negb (_ =? _)); [apply Hnone | ].
  destruct (requiredFeePayer requirements) as [feePayer | ]; [ | apply Hnone].
  destruct (negb (includes _ feePayer)); [apply Hnone | ].
  destruct (decodeTransactionFromPayload _ _) as [tx | ]; [ | apply Hnone].
  destruct (decodeCompiledTransactionMessage _ _) as [compiled | ]; [ | apply Hnone].
  destruct (decompileTransactionMessage _ _) as [decompiled | ]; [ | apply Hnone].
  destruct (getTokenPayerFromTransaction _ _) as [payer | ]; [ | apply Hnone].
  destruct (payer =? ""); [apply Hnone | ].
  unfold verifyInstructions, ret, bind, lift, raise.
  destruct (validateInstructions _ _ _) as [res | ]; [ | apply Hnone].
  destruct (negb (isValid res)); [apply Hnone | ].
  destruct (nth_error _ _) as [transferIx | ]; [ | apply Hnone].
  unfold verifyTransfer, ret, bind, lift, tryCatch, perform.
  set (parsing := if programAddress transferIx =? TOKEN_PROGRAM_ADDRESS
                  then parseTransferCheckedInstructionToken libs transferIx
                  else parseTransferCheckedInstruction2022 libs transferIx).
  destruct (negb _ && negb _); [apply Hnone | ].
  destruct parsing as [parsed | ]; [ | apply Hnone].
  destruct (includes _ (authority parsed)); [apply Hnone | ].
  destruct (negb (mint parsed =? _)); [apply Hnone | ].
  destruct (findAssociatedTokenPda _ _ _ _) as [expected | ]; [ | apply Hnone].
  destruct (negb (destination parsed =? expected)); [apply Hnone | ].
  destruct (BigInt _ _) as [required | ]; [ | apply Hnone].
  destruct (Z.ltb _ _); [apply Hnone | ].
  clear Hnone.
  destruct (signTransaction _ _ _ _ _) as [[signed | e] s1].
  - destruct (simulateTransaction _ _ _ _) as [[u | e] s2];
      intro H; inversion H; subst; cbn [effects]; rewrite <- app_assoc;
      eexists; (split; [reflexivity | ]); right; exists feePayer;
      (split; [reflexivity | ]); right; exists signed; reflexivity.
  - intro H; inversion H; subst; cbn [effects].
    eexists; (split; [reflexivity | ]). right. exists feePayer.
    split; [reflexivity | now left].
Qed.

(** C1. Whenever [verify] returns [isValid = false] with reason [r] and payer
    [p], [settle] returns [success = false], [errorReason] the same string [r],
    payer [p] and transaction [""], and leaves the world as that verification
    left it. It performs no [sendTransaction] and no [confirmTransaction], and
    no [signTransaction] other than the one that [verify] itself makes when it
    reaches its simulation gate: what was performed is nothing, or that one
    signing for the required fee payer, or that signing and the simulation that
    follows it. *)
Theorem settle_stops_at_failed_verification payload requirements w r p w' :
  verify payload requirements w
  = (Normal {| VerifyResponse.isValid := false;
               VerifyResponse.invalidReason := Some r;
               VerifyResponse.payer := p |}, w') ->
  settle payload requirements w
  = (Normal {| SettleResponse.success := false;
               SettleResponse.errorReason := Some r;
               SettleResponse.transaction := "";
               SettleResponse.network :=
                 PaymentRequirements.network (PaymentPayload.accepted payload);
               SettleResponse.payer := p |}, w')
  /\ exists performed,
       effects w' = (effects w ++ performed)%list
       /\ Forall ofSimulationGate performed
       /\ (performed = []
           \/ exists feePayer,
                requiredFeePayer requirements = Some feePayer
                /\ (performed
                    = [SignTransaction (transaction (PaymentPayload.payload payload)) feePayer
                                       (PaymentRequirements.network requirements)]
                    \/ exists signed,
                         performed
                         = [SignTransaction (transaction (PaymentPayload.payload payload))
                                            feePayer (PaymentRequirements.network requirements);
                            SimulateTransaction
                              signed (PaymentRequirements.network requirements)])).
Proof.
  intro Hv. split.
  - unfold settle, bind. rewrite Hv. cbn.
    destruct (p =? "") eqn:Hp; [ | reflexivity].
    apply String.eqb_eq in Hp. subst p. reflexivity.
  - destruct (verify_performs _ _ _ _ _ Hv) as (performed & Heffects & Hshape).
    exists performed. split; [exact Heffects | ]. split; [ | exact Hshape].
    destruct Hshape as [-> | (feePayer & _ & [-> | (signed & ->)])]; repeat constructor.
Qed.

(** *** Exceptions *)

(** C2. [verify] and [settle] do not return a structured outcome on every
    input: when the requirement gates pass and the payload decodes, but
    decoding the compiled message, decompiling it or extracting the payer
    throws, the exception leaves [verify], and [settle] with it. Only the
    decoding of the payload is inside a [try]. *)
Theorem verify_raises_after_decode payload requirements feePayer tx t w :
  decodes payload requirements feePayer tx ->
  decodeCompiledTransactionMessage libs (messageBytes tx) = Throw t
  \/ (exists compiled,
        decodeCompiledTransactionMessage libs (messageBytes tx) = Normal compiled
        /\ decompileTransactionMessage libs compiled = Throw t)
  \/ (exists compiled decompiled,
        decodeCompiledTransactionMessage libs (messageBytes tx) = Normal compiled
        /\ decompileTransactionMessage libs compiled = Normal decompiled
        /\ getTokenPayerFromTransaction libs tx = Throw t) ->
  verify payload requirements w = (Throw t, w)
  /\ settle payload requirements w = (Throw t, w).
Proof.
  intros (Hs1 & Hs2 & Hn & Hfp & Hin & Hdec) Hthrow.
  assert (Hv : verify payload requirements w = (Throw t, w)).
  { unfold verify.
    rewrite Hs1, Hs2, Hn, Hfp, Hin, Hdec. rewrite !String.eqb_refl. cbn [negb orb].
    unfold bind, lift.
    destruct Hthrow as [Hc | [(c & Hc & Hd) | (c & d & Hc & Hd & Hp)]].
    - rewrite Hc. reflexivity.
    - rewrite Hc, Hd. reflexivity.
    - rewrite Hc, Hd, Hp. reflexivity. }
  split; [exact Hv | ].
  unfold settle, bind. rewrite Hv. reflexivity.
Qed.

(** *** The amount check *)

(** C6. For a transfer instruction that parses and passes the authority, mint
    and destination checks, [verify] rejects with the amount-insufficient
    reason exactly when the transferred amount is strictly less than the
    required amount. An amount equal to or above the requirement passes the
    amount check: [verify] goes on to sign and simulate, and accepts when both
    succeed. *)
Theorem verify_amount_check payload requirements feePayer payer ixs transferIx parsed required w :
  resolves payload requirements feePayer payer ixs ->
  validateInstructions ixs (getAddresses signer) feePayer = Normal accepted ->
  nth_error ixs 2 = Some transferIx ->
  transferMatches libs signer requirements transferIx parsed required ->
  exists v w',
    verify payload requirements w = (Normal v, w')
    /\ (VerifyResponse.invalidReason v = Some "invalid_exact_svm_payload_amount_insufficient" <-> (amount parsed < required)%Z)
    /\ ((amount parsed < required)%Z -> v = invalid "invalid_exact_svm_payload_amount_insufficient" payer /\ w' = w)
    /\ ((required <= amount parsed)%Z ->
        forall signed s1 s2,
          signTransaction signer (transaction (PaymentPayload.payload payload)) feePayer
                          (PaymentRequirements.network requirements) (signerState w)
          = (Normal signed, s1) ->
          simulateTransaction signer signed (PaymentRequirements.network requirements) s1
          = (Normal tt, s2) ->
          v = valid payer).
Proof.
  intros Hres Hval Hnth (Htok & Hparse & Hauth & Hmint & Hata & Hreq).
  rewrite (verify_resolved _ _ _ _ _ Hres).
  unfold verifyInstructions, bind, lift. rewrite Hval. cbn [isValid accepted negb transferInstructionIndex].
  rewrite Hnth. unfold verifyTransfer, bind, lift, ret, tryCatch, perform.
  unfold isTokenProgram in Htok. rewrite <- negb_orb, Htok. cbn [negb].
  rewrite Hparse, Hauth, Hmint, String.eqb_refl. cbn [negb].
  rewrite Hata, String.eqb_refl. cbn [negb]. rewrite Hreq.
  destruct (Z.ltb_spec (amount parsed) required) as [Hlt | Hge].
  - eexists; eexists. split; [reflexivity | ].
    split; [split; [intros _; exact Hlt | reflexivity] | ].
    split; [intros _; split; reflexivity | lia].
  - destruct (signTransaction _ _ _ _ _) as [[signed | e] s1] eqn:Hsign.
    + destruct (simulateTransaction _ _ _ _) as [[[] | e] s2] eqn:Hsim.
      * eexists; eexists. split; [reflexivity | ].
        split; [split; [discriminate | lia] | ].
        split; [lia | reflexivity].
      * eexists; eexists. split; [reflexivity | ].
        split; [split; [discriminate | lia] | ].
        split; [lia | ].
        intros _ signed' s1' s2' Hs Hsim'. inversion Hs; subst.
        cbn [signerState] in Hsim. rewrite Hsim in Hsim'. discriminate Hsim'.
    + eexists; eexists. split; [reflexivity | ].
      split; [split; [discriminate | lia] | ].
      split; [lia | ]. intros _ signed' s1' s2' Hs. discriminate Hs.
Qed.

(** *** The compute-unit-price instruction *)

Lemma dataLacksDiscriminator_false ix d :
  dataLacksDiscriminator ix d = false <-> exists rest, data ix = Some (d :: rest).
Proof.
  unfold dataLacksDiscriminator. split.
  - destruct (data ix) as [[ | b rest] | ]; cbn; try discriminate.
    intro H. apply negb_false_iff, Z.eqb_eq in H. subst b. now exists rest.
  - intros (rest & ->). cbn. now rewrite Z.eqb_refl.
Qed.

Lemma price_reasons_differ : COMPUTE_PRICE_REASON <> COMPUTE_PRICE_TOO_HIGH_REASON.
Proof. apply String.eqb_neq. reflexivity. Qed.

Lemma too_high_reason_says_so : stringIncludes "too_high" COMPUTE_PRICE_TOO_HIGH_REASON = true.
Proof. reflexivity. Qed.

(** The checks of [validateInstructions] that come before instruction 1. *)
Lemma validateInstructions_price_rejection ix0 ix1 ix2 rest addrs feePayer error :
  (Z.of_nat (length (ix0 :: ix1 :: ix2 :: rest)) <= Required.maxInstructionCount config)%Z ->
  (Required.requireFeePayerNotInInstructions config = true ->
   forall ix, In ix (ix0 :: ix1 :: ix2 :: rest) -> instructionIncludesAccount ix feePayer = false) ->
  verifyComputeLimitInstruction libs ix0 = Normal tt ->
  verifyComputePriceInstruction ix1 = Throw error ->
  validateInstructions (ix0 :: ix1 :: ix2 :: rest) addrs feePayer
  = Normal (rejected (messageOrString error)).
Proof.
  intros Hmax Hscan Hlimit Hprice. unfold validateInstructions.
  apply Z.ltb_ge in Hmax. rewrite Hmax.
  destruct (Required.requireFeePayerNotInInstructions config) eqn:Hflag; cbn [andb].
  - replace (existsb _ _) with false.
    + rewrite Hlimit, Hprice. reflexivity.
    + symmetry. apply not_true_is_false. intro Hex.
      apply existsb_exists in Hex. destruct Hex as (ix & Hin & Hacc).
      rewrite (Hscan eq_refl ix Hin) in Hacc. discriminate.
  - rewrite Hlimit, Hprice. reflexivity.
Qed.

(** The rejections of [verifyComputePriceInstruction], in terms of what it
    reads. Instruction 1 is rejected with the compute-price reason when its
    program address is not the compute-budget program, when its data do not
    start with the discriminator byte 3, or when its payload does not parse; it
    is rejected with the too-high reason exactly when it parses to a result
    whose own property [microLamports] is set and strictly exceeds the ceiling.
    Whatever [verifyComputePriceInstruction] throws is the reason
    [validateInstructions] rejects with. The parser's own error messages are
    taken not to contain "too_high", the marker the [catch] block looks for. *)
Lemma verifyComputePriceInstruction_rejections ix :
  (forall message,
      parseSetComputeUnitPriceInstruction libs ix = Throw (ErrorObject message) ->
      stringIncludes "too_high" message = false) ->
  (programAddress ix <> COMPUTE_BUDGET_PROGRAM_ADDRESS
   \/ ~ (exists rest, data ix = Some (3%Z :: rest))
   \/ (exists error, parseSetComputeUnitPriceInstruction libs ix = Throw error) ->
   verifyComputePriceInstruction ix = Throw (ErrorObject COMPUTE_PRICE_REASON))
  /\ (verifyComputePriceInstruction ix = Throw (ErrorObject COMPUTE_PRICE_TOO_HIGH_REASON)
      <-> programAddress ix = COMPUTE_BUDGET_PROGRAM_ADDRESS
          /\ (exists rest, data ix = Some (3%Z :: rest))
          /\ exists parsed price,
               parseSetComputeUnitPriceInstruction libs ix = Normal parsed
               /\ microLamports parsed = Some price
               /\ (MAX_COMPUTE_UNIT_PRICE_MICROLAMPORTS < price)%Z)
  /\ (forall ix0 ix2 rest addrs feePayer reason,
        (Z.of_nat (length (ix0 :: ix :: ix2 :: rest)) <= Required.maxInstructionCount config)%Z ->
        (Required.requireFeePayerNotInInstructions config = true ->
         forall i, In i (ix0 :: ix :: ix2 :: rest) -> instructionIncludesAccount i feePayer = false) ->
        verifyComputeLimitInstruction libs ix0 = Normal tt ->
        verifyComputePriceInstruction ix = Throw (ErrorObject reason) ->
        validateInstructions (ix0 :: ix :: ix2 :: rest) addrs feePayer = Normal (rejected reason)).
Proof.
  intro Hplain.
  assert (Hguard : negb (programAddress ix =? COMPUTE_BUDGET_PROGRAM_ADDRESS)
                   || dataLacksDiscriminator ix 3 = false
                   <-> programAddress ix = COMPUTE_BUDGET_PROGRAM_ADDRESS
                       /\ exists rest, data ix = Some (3%Z :: rest)).
  { rewrite orb_false_iff, negb_false_iff, String.eqb_eq, dataLacksDiscriminator_false.
    reflexivity. }
  split; [ | split].
  - intro Hwrong. unfold verifyComputePriceInstruction.
    destruct (negb _ || _); [reflexivity | ].
    destruct (proj1 Hguard eq_refl) as (Hprog & Hdata).
    destruct Hwrong as [Hw | [Hw | (error & Hw)]]; [contradiction | contradiction | ].
    rewrite Hw. cbn [bindC].
    destruct error as [message | other]; [ | reflexivity].
    now rewrite (Hplain message Hw).
  - unfold verifyComputePriceInstruction. split.
    + destruct (negb _ || _).
      * intro H. exfalso. apply price_reasons_differ. now inversion H.
      * destruct (proj1 Hguard eq_refl) as (Hprog & Hdata).
        destruct (parseSetComputeUnitPriceInstruction libs ix) as [parsed | error] eqn:Hparse;
          cbn [bindC].
        -- destruct (microLamports parsed) as [price | ] eqn:Hprice; [ | discriminate].
           destruct (Z.ltb_spec MAX_COMPUTE_UNIT_PRICE_MICROLAMPORTS price) as [Hlt | Hle];
             [ | discriminate].
           intros _. repeat split; try assumption. now exists parsed, price.
        -- destruct error as [message | other].
           ++ rewrite (Hplain message eq_refl).
              intro H. exfalso. apply price_reasons_differ. now inversion H.
           ++ intro H. exfalso. apply price_reasons_differ. now inversion H.
    + intros (Hprog & Hdata & parsed & price & Hparse & Hprice & Hlt).
      replace (negb _ || _) with false by (symmetry; apply Hguard; now split).
      rewrite Hparse. cbn [bindC]. rewrite Hprice.
      apply Z.ltb_lt in Hlt. rewrite Hlt. now rewrite too_high_reason_says_so.
  - intros ix0 ix2 rest addrs feePayer reason Hmax Hscan Hlimit Hprice.
    exact (validateInstructions_price_rejection _ _ _ _ addrs _ _ Hmax Hscan Hlimit Hprice).
Qed.

(** The price compared with the ceiling is the property [microLamports] of the
    parser's result itself. A result without that property, such as one that
    keeps the price under a [data] property, passes whatever its price. *)
Remark verifyComputePriceInstruction_without_price ix parsed :
  programAddress ix = COMPUTE_BUDGET_PROGRAM_ADDRESS ->
  (exists rest, data ix = Some (3%Z :: rest)) ->
  parseSetComputeUnitPriceInstruction libs ix = Normal parsed ->
  microLamports parsed = None ->
  verifyComputePriceInstruction ix = Normal tt.
Proof.
  intros Hprog Hdata Hparse Hnone. unfold verifyComputePriceInstruction.
  rewrite Hprog, String.eqb_refl. cbn [negb orb].
  rewrite (proj2 (dataLacksDiscriminator_false ix 3) Hdata).
  rewrite Hparse. cbn [bindC]. rewrite Hnone. reflexivity.
Qed.

(** C7. The code departs from the claim. The price it compares with the
    ceiling is the property [microLamports] of the parser's result itself,
    read through a cast; the parser keeps the price under [data] and sets no
    such property. With such a parser the wrong program address, the wrong
    discriminator and a payload that does not parse are rejected with the
    compute-price reason, as the claim says; but an instruction 1 that parses
    is accepted whatever its price, and the too-high reason is never
    produced. The parser's own error messages are taken not to contain
    "too_high". *)
Theorem verifyComputePriceInstruction_ignores_price ix :
  (forall parsed,
      parseSetComputeUnitPriceInstruction libs ix = Normal parsed ->
      microLamports parsed = None) ->
  (forall message,
      parseSetComputeUnitPriceInstruction libs ix = Throw (ErrorObject message) ->
      stringIncludes "too_high" message = false) ->
  (programAddress ix <> COMPUTE_BUDGET_PROGRAM_ADDRESS
   \/ ~ (exists rest, data ix = Some (3%Z :: rest))
   \/ (exists error, parseSetComputeUnitPriceInstruction libs ix = Throw error) ->
   verifyComputePriceInstruction ix = Throw (ErrorObject COMPUTE_PRICE_REASON))
  /\ (programAddress ix = COMPUTE_BUDGET_PROGRAM_ADDRESS ->
      (exists rest, data ix = Some (3%Z :: rest)) ->
      (exists parsed, parseSetComputeUnitPriceInstruction libs ix = Normal parsed) ->
      verifyComputePriceInstruction ix = Normal tt)
  /\ verifyComputePriceInstruction ix <> Throw (ErrorObject COMPUTE_PRICE_TOO_HIGH_REASON).
Proof.
  intros Hshape Hplain.
  destruct (verifyComputePriceInstruction_rejections ix Hplain) as (Hwrong & Hhigh & _).
  split; [exact Hwrong | ]. split.
  - intros Hprog Hdata (parsed & Hparse).
    exact (verifyComputePriceInstruction_without_price ix parsed Hprog Hdata Hparse
             (Hshape parsed Hparse)).
  - intro Hthrow. apply Hhigh in Hthrow.
    destruct Hthrow as (_ & _ & parsed & price & Hparse & Hprice & _).
    rewrite (Hshape parsed Hparse) in Hprice. discriminate Hprice.
Qed.

(** *** Additional instructions *)

(** Once the required instructions pass, validation is the loop over the
    additional instructions, if there are any and they are allowed. *)
Lemma validateInstructions_additional ix0 ix1 ix2 x additional addrs feePayer :
  requiredInstructionsPass (ix0 :: ix1 :: ix2 :: x :: additional) feePayer ->
  Required.allowAdditionalInstructions config = true ->
  validateInstructions (ix0 :: ix1 :: ix2 :: x :: additional) addrs feePayer
  = validateAdditionalInstructions config addrs feePayer 3 (x :: additional).
Proof.
  intros (Hmax & Hscan & Hlimit & Hprice & Htoken) Hallow.
  unfold validateInstructions.
  apply Z.ltb_ge in Hmax. rewrite Hmax.
  replace (Required.requireFeePayerNotInInstructions config && existsb _ _) with false.
  - rewrite Hlimit, Hprice, Htoken, Hallow. reflexivity.
  - symmetry. apply not_true_is_false. intro H.
    apply andb_true_iff in H. destruct H as (Hflag & Hex).
    apply existsb_exists in Hex. destruct Hex as (ix & Hin & Hacc).
    rewrite (Hscan Hflag ix Hin) in Hacc. discriminate.
Qed.

(** The body of the loop never returns an accepting result. *)
Lemma validateAdditionalInstruction_rejects cfg addrs feePayer i ix result :
  validateAdditionalInstruction cfg addrs feePayer i ix = Normal (Some result) ->
  isValid result = false.
Proof.
  unfold validateAdditionalInstruction.
  destruct (includes _ _); [intro H; inversion H; reflexivity | ].
  destruct (findCustomVerifier _ _ _) as [[rule | ] | ]; cbn [bindC]; [ | | discriminate].
  - destruct (match Types.allowedPositions rule with Some _ => _ | None => _ end);
      [intro H; inversion H; reflexivity | ].
    destruct (Types.verify rule) as [callback | ]; [ | discriminate].
    destruct (runCustomVerifier _ _ _ _ _ _); [discriminate | ].
    intro H; inversion H; reflexivity.
  - destruct (_ && _); [intro H; inversion H; reflexivity | discriminate].
Qed.

(** The loop gets past the instructions it accepts. *)
Lemma validateAdditionalInstructions_app cfg addrs feePayer before :
  forall i rest,
    validateAdditionalInstructions cfg addrs feePayer i before = Normal accepted ->
    validateAdditionalInstructions cfg addrs feePayer i (before ++ rest)%list
    = validateAdditionalInstructions cfg addrs feePayer (i + length before) rest.
Proof.
  induction before as [ | ix before IH]; intros i rest Hacc.
  - cbn [app length]. now rewrite Nat.add_0_r.
  - cbn [app length validateAdditionalInstructions] in *.
    destruct (validateAdditionalInstruction cfg addrs feePayer i ix) as [[result | ] | ] eqn:Hix;
      cbn [bindC] in *.
    + apply validateAdditionalInstruction_rejects in Hix.
      inversion Hacc; subst. discriminate.
    + rewrite (IH (S i) rest Hacc). f_equal. lia.
    + discriminate.
Qed.

(** Validation of a list whose additional instructions before [ix] pass is
    decided by the loop at [ix]. *)
Lemma validateInstructions_reaches ix0 ix1 ix2 before ix later addrs feePayer :
  requiredInstructionsPass (ix0 :: ix1 :: ix2 :: before ++ ix :: later)%list feePayer ->
  Required.allowAdditionalInstructions config = true ->
  validateAdditionalInstructions config addrs feePayer 3 before = Normal accepted ->
  validateInstructions (ix0 :: ix1 :: ix2 :: before ++ ix :: later)%list addrs feePayer
  = validateAdditionalInstructions config addrs feePayer (3 + length before) (ix :: later).
Proof.
  intros Hreq Hallow Hbefore.
  rewrite <- (validateAdditionalInstructions_app _ _ _ _ _ _ Hbefore).
  destruct before as [ | x before]; cbn [app] in *;
    exact (validateInstructions_additional _ _ _ _ _ addrs _ Hreq Hallow).
Qed.

(** C4. An additional instruction (index 3 or more) that validation reaches
    is judged in this order. If its program is block-listed, validation rejects
    with the blocked-program reason for that program, whether or not a custom
    verifier matches it. If its program is not blocked and a custom verifier
    matches it, the outcome does not depend on the allow-list. If no custom
    verifier matches and the allow-list is empty, the instruction is permitted
    and validation moves on to the next one. *)
Theorem additional_instruction_policy ix0 ix1 ix2 before ix later addrs feePayer :
  requiredInstructionsPass (ix0 :: ix1 :: ix2 :: before ++ ix :: later)%list feePayer ->
  Required.allowAdditionalInstructions config = true ->
  validateAdditionalInstructions config addrs feePayer 3 before = Normal accepted ->
  (includes (Required.blockedProgramIds config) (programAddress ix) = true ->
   validateInstructions (ix0 :: ix1 :: ix2 :: before ++ ix :: later)%list addrs feePayer
   = Normal (rejected ("invalid_exact_svm_payload_blocked_program_" ++ programAddress ix)))
  /\ (includes (Required.blockedProgramIds config) (programAddress ix) = false ->
      forall rule,
        findCustomVerifier libs (Required.customVerifiers config) (programAddress ix)
        = Normal (Some rule) ->
        forall allowed,
          validateAdditionalInstruction (withAllowedProgramIds config allowed) addrs feePayer
                                        (3 + length before) ix
          = validateAdditionalInstruction config addrs feePayer (3 + length before) ix)
  /\ (includes (Required.blockedProgramIds config) (programAddress ix) = false ->
      findCustomVerifier libs (Required.customVerifiers config) (programAddress ix)
      = Normal None ->
      Required.allowedProgramIds config = [] ->
      validateAdditionalInstruction config addrs feePayer (3 + length before) ix = Normal None
      /\ validateInstructions (ix0 :: ix1 :: ix2 :: before ++ ix :: later)%list addrs feePayer
         = validateAdditionalInstructions config addrs feePayer (S (3 + length before)) later).
Proof.
  intros Hreq Hallow Hbefore.
  pose proof (validateInstructions_reaches _ _ _ _ _ _ addrs _ Hreq Hallow Hbefore) as Hreach.
  split; [ | split].
  - intro Hblocked. rewrite Hreach.
    cbn [validateAdditionalInstructions]. unfold validateAdditionalInstruction.
    rewrite Hblocked. reflexivity.
  - intros Hfree rule Hrule allowed. unfold validateAdditionalInstruction.
    cbn [withAllowedProgramIds Required.blockedProgramIds Required.customVerifiers].
    rewrite Hfree, Hrule. reflexivity.
  - intros Hfree Hnone Hempty.
    assert (Hstep : validateAdditionalInstruction config addrs feePayer (3 + length before) ix
                    = Normal None).
    { unfold validateAdditionalInstruction. rewrite Hfree, Hnone, Hempty. reflexivity. }
    split; [exact Hstep | ].
    rewrite Hreach. cbn [validateAdditionalInstructions]. rewrite Hstep. reflexivity.
Qed.

(** *** Rejection reasons *)

Lemma findCustomVerifier_In verifiers programId rule :
  findCustomVerifier libs verifiers programId = Normal (Some rule) -> In rule verifiers.
Proof.
  induction verifiers as [ | v rest IH]; cbn [findCustomVerifier]; [discriminate | ].
  destruct (address libs programId) as [a | ]; cbn [bindC]; [ | discriminate].
  destruct (includes (Types.programIds v) a).
  - intro H; inversion H; subst. now left.
  - intro H. right. now apply IH.
Qed.

Lemma verifyComputeLimitInstruction_throws ix error :
  verifyComputeLimitInstruction libs ix = Throw error ->
  error = ErrorObject COMPUTE_LIMIT_REASON.
Proof.
  unfold verifyComputeLimitInstruction.
  destruct (negb _ || _); [intro H; now inversion H | ].
  destruct (parseSetComputeUnitLimitInstruction libs ix); [discriminate | ].
  intro H; now inversion H.
Qed.

Lemma verifyComputePriceInstruction_throws ix error :
  verifyComputePriceInstruction ix = Throw error ->
  exists message, error = ErrorObject message /\ message <> "".
Proof.
  unfold verifyComputePriceInstruction.
  destruct (negb _ || _).
  { intro H; inversion H. eexists; split; [reflexivity | discriminate]. }
  destruct (parseSetComputeUnitPriceInstruction libs ix) as [parsed | thrown]; cbn [bindC].
  - destruct (match microLamports parsed with Some _ => _ | None => _ end); [ | discriminate].
    cbn. intro H; inversion H. eexists; split; [reflexivity | discriminate].
  - destruct thrown as [message | other].
    + destruct (stringIncludes "too_high" message) eqn:Hinc.
      * intro H; inversion H; subst. exists message. split; [reflexivity | ].
        intros ->. discriminate Hinc.
      * intro H; inversion H. eexists; split; [reflexivity | discriminate].
    + intro H; inversion H. eexists; split; [reflexivity | discriminate].
Qed.

(** What a rejecting iteration of the loop returns. *)
Lemma validateAdditionalInstruction_reason cfg addrs feePayer i ix result :
  validateAdditionalInstruction cfg addrs feePayer i ix = Normal (Some result) ->
  exists r,
    result = rejected r
    /\ (r = "" ->
        exists rule callback,
          In rule (Required.customVerifiers cfg)
          /\ Types.verify rule = Some callback
          /\ runCustomVerifier libs callback ix addrs feePayer i = Throw (ErrorObject "")).
Proof.
  unfold validateAdditionalInstruction.
  destruct (includes _ _).
  { intro H; inversion H. eexists; split; [reflexivity | discriminate]. }
  destruct (findCustomVerifier _ _ _) as [[rule | ] | ] eqn:Hfind; cbn [bindC]; [ | | discriminate].
  - destruct (match Types.allowedPositions rule with Some _ => _ | None => _ end).
    { intro H; inversion H. eexists; split; [reflexivity | discriminate]. }
    destruct (Types.verify rule) as [callback | ] eqn:Hcb; [ | discriminate].
    destruct (runCustomVerifier _ _ _ _ _ _) as [ | [message | other]] eqn:Hrun; [discriminate | | ].
    + intro H; inversion H. exists message. split; [reflexivity | ].
      intros ->. exists rule, callback.
      split; [exact (findCustomVerifier_In _ _ _ Hfind) | now split].
    + intro H; inversion H. eexists; split; [reflexivity | discriminate].
  - destruct (_ && _); [ | discriminate].
    intro H; inversion H. eexists; split; [reflexivity | discriminate].
Qed.

Lemma validateAdditionalInstructions_reason cfg addrs feePayer remaining :
  forall i result,
    validateAdditionalInstructions cfg addrs feePayer i remaining = Normal result ->
    isValid result = false ->
    exists r,
      result = rejected r
      /\ (r = "" ->
          exists rule callback ix j,
            In rule (Required.customVerifiers cfg)
            /\ Types.verify rule = Some callback
            /\ In ix remaining
            /\ runCustomVerifier libs callback ix addrs feePayer j = Throw (ErrorObject "")).
Proof.
  induction remaining as [ | ix later IH]; intros i result; cbn [validateAdditionalInstructions].
  - intro H; inversion H; subst. discriminate.
  - destruct (validateAdditionalInstruction cfg addrs feePayer i ix) as [[res | ] | ] eqn:Hix;
      cbn [bindC]; [ | | discriminate].
    + intro H; inversion H; subst. intros _.
      destruct (validateAdditionalInstruction_reason _ _ _ _ _ _ Hix) as (r & Hr & Hempty).
      exists r. split; [exact Hr | ].
      intro E. destruct (Hempty E) as (rule & callback & Hin & Hcb & Hrun).
      exists rule, callback, ix, i. repeat split; try assumption. now left.
    + intros Hrun Hinvalid.
      destruct (IH _ _ Hrun Hinvalid) as (r & Hr & Hempty).
      exists r. split; [exact Hr | ].
      intro E. destruct (Hempty E) as (rule & callback & ix' & j & Hin & Hcb & Hix' & Hthrow).
      exists rule, callback, ix', j. repeat split; try assumption. now right.
Qed.

(** C9. Every rejection by [validateInstructions] carries a reason, so the
    fallback "invalid_instructions" of [verify] is never used: the reason of
    the response is the reason of the rejecting branch. The reason is not
    empty, unless it is the message of an [Error] thrown inside the [try] block
    of a custom verifier, which the scheme passes on as it is. *)
Theorem validateInstructions_rejections_carry_reason ixs addrs feePayer result :
  validateInstructions ixs addrs feePayer = Normal result ->
  isValid result = false ->
  exists r,
    reason result = Some r
    /\ (forall p requirements payer w,
          verifyInstructions p requirements addrs feePayer payer ixs w
          = (Normal (invalid r payer), w))
    /\ (r = "" ->
        exists rule callback ix i,
          In rule (Required.customVerifiers config)
          /\ Types.verify rule = Some callback
          /\ In ix ixs
          /\ runCustomVerifier libs callback ix addrs feePayer i = Throw (ErrorObject "")).
Proof.
  intros Hrun Hinvalid.
  assert (Hshape : exists r,
            result = rejected r
            /\ (r = "" ->
                exists rule callback ix i,
                  In rule (Required.customVerifiers config)
                  /\ Types.verify rule = Some callback
                  /\ In ix ixs
                  /\ runCustomVerifier libs callback ix addrs feePayer i = Throw (ErrorObject ""))).
  { revert Hrun. unfold validateInstructions.
    destruct ixs as [ | ix0 [ | ix1 [ | ix2 additional]]];
      try (intro H; inversion H; eexists; split; [reflexivity | discriminate]).
    destruct (Z.ltb _ _).
    { intro H; inversion H. eexists; split; [reflexivity | discriminate]. }
    destruct (_ && _).
    { intro H; inversion H. eexists; split; [reflexivity | discriminate]. }
    destruct (verifyComputeLimitInstruction libs ix0) as [ | e0] eqn:Hlimit.
    2:{ apply verifyComputeLimitInstruction_throws in Hlimit. subst e0.
        intro H; inversion H. eexists; split; [reflexivity | discriminate]. }
    destruct (verifyComputePriceInstruction ix1) as [ | e1] eqn:Hprice.
    2:{ apply verifyComputePriceInstruction_throws in Hprice.
        destruct Hprice as (message & -> & Hne).
        intro H; inversion H. exists message. split; [reflexivity | ].
        intro E. contradiction. }
    destruct (negb (isTokenProgram _)).
    { intro H; inversion H. eexists; split; [reflexivity | discriminate]. }
    destruct (3 <? _)%nat.
    2:{ intro H; inversion H; subst. discriminate. }
    destruct (negb (Required.allowAdditionalInstructions config)).
    { intro H; inversion H. eexists; split; [reflexivity | discriminate]. }
    intro H.
    destruct (validateAdditionalInstructions_reason _ _ _ _ _ _ H Hinvalid) as (r & Hr & Hempty).
    exists r. split; [exact Hr | ].
    intro E. destruct (Hempty E) as (rule & callback & ix & j & Hin & Hcb & Hix & Hthrow).
    exists rule, callback, ix, j. repeat split; try assumption.
    right. right. now right. }
  destruct Hshape as (r & -> & Hempty).
  exists r. split; [reflexivity | ]. split; [ | exact Hempty].
  intros p requirements payer w. now apply verifyInstructions_rejected.
Qed.

(** *** Where exceptions come from *)

(** The exceptions that leave [validateInstructions] come from [address],
    called on the program of an additional instruction. *)
Lemma findCustomVerifier_throws verifiers programId t :
  findCustomVerifier libs verifiers programId = Throw t ->
  address libs programId = Throw t.
Proof.
  induction verifiers as [ | v rest IH]; cbn [findCustomVerifier]; [discriminate | ].
  destruct (address libs programId) as [a | e]; cbn [bindC].
  - destruct (includes _ a); [discriminate | exact IH].
  - intro H; now inversion H.
Qed.

Lemma validateAdditionalInstructions_throws cfg addrs feePayer remaining t :
  forall i,
    validateAdditionalInstructions cfg addrs feePayer i remaining = Throw t ->
    exists ix, In ix remaining /\ address libs (programAddress ix) = Throw t.
Proof.
  induction remaining as [ | ix later IH]; intro i; cbn [validateAdditionalInstructions];
    [discriminate | ].
  destruct (validateAdditionalInstruction cfg addrs feePayer i ix) as [[res | ] | e] eqn:Hix;
    cbn [bindC]; [discriminate | | ].
  - intro H. destruct (IH _ H) as (ix' & Hin & Hthrow). exists ix'. split; [now right | exact Hthrow].
  - intro H; inversion H; subst. exists ix. split; [now left | ].
    revert Hix. unfold validateAdditionalInstruction.
    destruct (includes _ _); [discriminate | ].
    destruct (findCustomVerifier _ _ _) as [[rule | ] | e] eqn:Hfind; cbn [bindC].
    + destruct (match Types.allowedPositions rule with Some _ => _ | None => _ end);
        [discriminate | ].
      destruct (Types.verify rule); [ | discriminate].
      destruct (runCustomVerifier _ _ _ _ _ _); discriminate.
    + destruct (_ && _); discriminate.
    + intro H'; inversion H'; subst. exact (findCustomVerifier_throws _ _ _ Hfind).
Qed.

Lemma validateInstructions_throws ixs addrs feePayer t :
  validateInstructions ixs addrs feePayer = Throw t ->
  exists ix, In ix ixs /\ address libs (programAddress ix) = Throw t.
Proof.
  unfold validateInstructions.
  destruct ixs as [ | ix0 [ | ix1 [ | ix2 additional]]]; try discriminate.
  destruct (Z.ltb _ _); [discriminate | ].
  destruct (_ && _); [discriminate | ].
  destruct (verifyComputeLimitInstruction libs ix0); [ | discriminate].
  destruct (verifyComputePriceInstruction ix1); [ | discriminate].
  destruct (negb (isTokenProgram _)); [discriminate | ].
  destruct (3 <? _)%nat; [ | discriminate].
  destruct (negb (Required.allowAdditionalInstructions config)); [discriminate | ].
  intro H. destruct (validateAdditionalInstructions_throws _ _ _ _ _ _ H) as (ix & Hin & Hthrow).
  exists ix. split; [ | exact Hthrow]. right. right. now right.
Qed.

(** An accepting validation names index 2, which the list has. *)
Lemma validateInstructions_accepts ixs addrs feePayer result :
  validateInstructions ixs addrs feePayer = Normal result ->
  isValid result = true ->
  exists transferIx, nth_error ixs (transferInstructionIndex result) = Some transferIx.
Proof.
  intros Hrun Hvalid.
  assert (Hshape : isValid result = false
                   \/ (transferInstructionIndex result = 2%nat /\ (3 <= length ixs)%nat)).
  { revert Hrun. unfold validateInstructions.
    destruct ixs as [ | ix0 [ | ix1 [ | ix2 additional]]];
      try (intro H; inversion H; now left).
    destruct (Z.ltb _ _); [intro H; inversion H; now left | ].
    destruct (_ && _); [intro H; inversion H; now left | ].
    destruct (verifyComputeLimitInstruction libs ix0); [ | intro H; inversion H; now left].
    destruct (verifyComputePriceInstruction ix1); [ | intro H; inversion H; now left].
    destruct (negb (isTokenProgram _)); [intro H; inversion H; now left | ].
    destruct (3 <? _)%nat.
    2:{ intro H; inversion H. right. split; [reflexivity | cbn [length]; lia]. }
    destruct (negb (Required.allowAdditionalInstructions config));
      [intro H; inversion H; now left | ].
    intro H. destruct (isValid result) eqn:E; [ | now left].
    right. split; [ | cbn [length]; lia].
    clear Hvalid. revert H E. generalize 3%nat at 1.
    induction additional as [ | ix later IH]; intro i; cbn [validateAdditionalInstructions].
    - intro H; inversion H; reflexivity.
    - destruct (validateAdditionalInstruction config addrs feePayer i ix) as [[res | ] | ] eqn:Hix;
        cbn [bindC]; [ | apply IH | discriminate].
      intro H; inversion H; subst. intro E.
      apply validateAdditionalInstruction_rejects in Hix. congruence. }
  destruct Hshape as [Hno | (Hindex & Hlen)]; [congruence | ].
  rewrite Hindex.
  destruct (nth_error ixs 2) as [ix | ] eqn:Hnth; [now exists ix | ].
  apply nth_error_None in Hnth. lia.
Qed.

(** Nothing else leaves [verify] as an exception: an exception out of [verify]
    was thrown by the decoder of the compiled message, by the decompiler, by the
    payer extraction, by [address] on the program of an instruction, or by
    [BigInt] on the required amount; and no effect precedes it. *)
Lemma verify_raises_only_unguarded payload requirements w t w' :
  verify payload requirements w = (Throw t, w') ->
  w' = w
  /\ ((exists tx, decodeCompiledTransactionMessage libs (messageBytes tx) = Throw t)
      \/ (exists compiled, decompileTransactionMessage libs compiled = Throw t)
      \/ (exists tx, getTokenPayerFromTransaction libs tx = Throw t)
      \/ (exists programId, address libs programId = Throw t)
      \/ BigInt libs (PaymentRequirements.amount requirements) = Throw t).
Proof.
  unfold verify, ret, bind, lift.
  destruct (negb _ || negb _); [discriminate | ].
  destruct (negb (_ =? _)); [discriminate | ].
  destruct (requiredFeePayer requirements) as [feePayer | ]; [ | discriminate].
  destruct (negb (includes _ feePayer)); [discriminate | ].
  destruct (decodeTransactionFromPayload _ _) as [tx | ]; [ | discriminate].
  destruct (decodeCompiledTransactionMessage _ _) as [compiled | e] eqn:Hc.
  2:{ intro H; inversion H; subst. split; [reflexivity | ]. left. now exists tx. }
  destruct (decompileTransactionMessage _ _) as [decompiled | e] eqn:Hd.
  2:{ intro H; inversion H; subst. split; [reflexivity | ]. right. left. now exists compiled. }
  destruct (getTokenPayerFromTransaction _ _) as [payer | e] eqn:Hp.
  2:{ intro H; inversion H; subst. split; [reflexivity | ]. right. right. left. now exists tx. }
  destruct (payer =? ""); [discriminate | ].
  unfold verifyInstructions, ret, bind, lift, raise.
  destruct (validateInstructions _ _ _) as [res | e] eqn:Hval.
  2:{ intro H; inversion H; subst. split; [reflexivity | ].
      destruct (validateInstructions_throws _ _ _ _ Hval) as (ix & _ & Hthrow).
      right. right. right. left. now exists (programAddress ix). }
  destruct (isValid res) eqn:Hvalid; cbn [negb]; [ | discriminate].
  destruct (validateInstructions_accepts _ _ _ _ Hval Hvalid) as (transferIx & ->).
  unfold verifyTransfer, ret, bind, lift, tryCatch, perform.
  set (parsing := if programAddress transferIx =? TOKEN_PROGRAM_ADDRESS
                  then parseTransferCheckedInstructionToken libs transferIx
                  else parseTransferCheckedInstruction2022 libs transferIx).
  destruct (negb _ && negb _); [discriminate | ].
  destruct parsing as [parsed | ]; [ | discriminate].
  destruct (includes _ (authority parsed)); [discriminate | ].
  destruct (negb (mint parsed =? _)); [discriminate | ].
  destruct (findAssociatedTokenPda _ _ _ _) as [expected | ]; [ | discriminate].
  destruct (negb (destination parsed =? expected)); [discriminate | ].
  destruct (BigInt _ _) as [required | e] eqn:Hreq.
  2:{ intro H; inversion H; subst. split; [reflexivity | ]. now repeat right. }
  destruct (Z.ltb _ _); [discriminate | ].
  destruct (signTransaction _ _ _ _ _) as [[signed | e] s1]; [ | discriminate].
  destruct (simulateTransaction _ _ _ _) as [[u | e] s2]; discriminate.
Qed.

(** *** The fee payer offered by [getExtra] *)

(** Rounding a product [m] of a 53-bit mantissa and [n] moves it by less than
    [n]. *)
Lemma round53_close (m n : Z) :
  (0 <= m)%Z -> (0 < n)%Z -> (m < 2 ^ 53 * n)%Z ->
  (0 <= Double.round53 m < m + n)%Z.
Proof.
  intros Hm Hn Hbound. unfold Double.round53.
  destruct (Z.leb_spec (Z.log2 m + 1) 53) as [Hfits | Hlong]; [lia | ].
  assert (Hpos : (0 < m)%Z).
  { destruct (Z.eq_dec m 0) as [-> | ]; [cbn in Hlong; lia | lia]. }
  destruct (Z.log2_spec m Hpos) as (Hlow & _).
  set (s := (Z.log2 m + 1 - 53)%Z) in *.
  assert (Hs : (1 <= s)%Z) by (unfold s; lia).
  assert (Hpow : (2 ^ s = 2 * 2 ^ (s - 1))%Z).
  { replace s with (Z.succ (s - 1)) at 1 by lia. apply Z.pow_succ_r. lia. }
  assert (Hhalf : (0 < 2 ^ (s - 1))%Z) by (apply Z.pow_pos_nonneg; lia).
  assert (Hsmall : (2 ^ (s - 1) < n)%Z).
  { replace (Z.log2 m) with ((s - 1) + 53)%Z in Hlow by (unfold s; lia).
    rewrite Z.pow_add_r in Hlow by lia. nia. }
  pose proof (Z.div_mod m (2 ^ s)) as Hdiv.
  pose proof (Z.mod_pos_bound m (2 ^ s)) as Hmod.
  assert (Hq : (0 <= m / 2 ^ s)%Z) by (apply Z.div_pos; lia).
  destruct ((2 ^ (s - 1) <? m mod 2 ^ s)%Z || ((m mod 2 ^ s =? 2 ^ (s - 1))%Z && Z.odd (m / 2 ^ s)))
    eqn:Hup.
  - assert (Hr : (2 ^ (s - 1) <= m mod 2 ^ s)%Z).
    { apply orb_true_iff in Hup. destruct Hup as [Hup | Hup].
      - apply Z.ltb_lt in Hup. lia.
      - apply andb_true_iff in Hup. destruct Hup as (Hup & _).
        apply Z.eqb_eq in Hup. lia. }
    nia.
  - nia.
Qed.

(** C10. Whatever the network argument, when the signer exposes at least one
    address [getExtra] returns a record whose [feePayer] is one of the signer's
    addresses, and when the signer exposes none it still returns a record,
    whose [feePayer] is [undefined]. The number drawn by [Math.random()] is any
    binary64 number in [0, 1). *)
Theorem getExtra_offers_signer_address random network :
  Double.wellFormed random -> Double.belowOne random ->
  (getAddresses signer <> [] ->
   exists a,
     SupportedExtra.feePayer (getExtra signer random network) = Some a
     /\ In a (getAddresses signer))
  /\ (getAddresses signer = [] ->
      SupportedExtra.feePayer (getExtra signer random network) = None).
Proof.
  intros ((Hm0 & Hm53) & (He0 & He)) Hone. unfold Double.belowOne in Hone.
  unfold getExtra. cbn [SupportedExtra.feePayer]. split.
  - intro Hsome.
    set (addresses := getAddresses signer) in *.
    assert (Hn : (0 < Z.of_nat (length addresses))%Z).
    { destruct addresses; [contradiction | cbn [length]; lia]. }
    set (n := Z.of_nat (length addresses)) in *.
    assert (Hpow : (0 < 2 ^ Double.exponent random)%Z) by (apply Z.pow_pos_nonneg; lia).
    assert (Hround : (0 <= Double.round53 (Double.mantissa random * n)
                      < Double.mantissa random * n + n)%Z).
    { apply round53_close; nia. }
    assert (Hindex : (Double.floor (Double.timesLength random (length addresses))
                      < length addresses)%nat).
    { unfold Double.floor, Double.timesLength. cbn [Double.mantissa Double.exponent].
      fold n. apply Nat2Z.inj_lt. rewrite Z2Nat.id by (apply Z.div_pos; lia). fold n.
      apply Z.div_lt_upper_bound; [exact Hpow | nia]. }
    destruct (nth_error addresses _) as [a | ] eqn:Hnth.
    + exists a. split; [reflexivity | ]. exact (nth_error_In _ _ Hnth).
    + apply nth_error_None in Hnth. lia.
  - intros ->. cbn [length].
    destruct (Double.floor _); reflexivity.
Qed.

End Properties.

(** ** Further properties

    What an accepting [verify] guarantees, what [settle] does after it, and
    the rest of the instruction policy. *)

Section Coverage.

Context {Compiled SignerState : Type}.
Variable libs : Libraries Compiled.
Variable signer : FacilitatorSvmSigner SignerState.
Variable verificationConfig : Types.SvmVerificationConfig.
Variable MAX_COMPUTE_UNIT_PRICE_MICROLAMPORTS : Z.

Local Abbreviation config := (spread DEFAULT_VERIFICATION_CONFIG verificationConfig).
Local Abbreviation verify :=
  (verify libs signer verificationConfig MAX_COMPUTE_UNIT_PRICE_MICROLAMPORTS).
Local Abbreviation settle :=
  (settle libs signer verificationConfig MAX_COMPUTE_UNIT_PRICE_MICROLAMPORTS).
Local Abbreviation verifyInstructions :=
  (verifyInstructions libs signer verificationConfig MAX_COMPUTE_UNIT_PRICE_MICROLAMPORTS).
Local Abbreviation validateInstructions :=
  (validateInstructions libs verificationConfig MAX_COMPUTE_UNIT_PRICE_MICROLAMPORTS).
Local Abbreviation verifyTransfer := (verifyTransfer libs signer).
Local Abbreviation verifyComputeLimitInstruction := (verifyComputeLimitInstruction libs).
Local Abbreviation verifyComputePriceInstruction :=
  (verifyComputePriceInstruction libs MAX_COMPUTE_UNIT_PRICE_MICROLAMPORTS).
Local Abbreviation validateAdditionalInstruction := (validateAdditionalInstruction libs).
Local Abbreviation validateAdditionalInstructions := (validateAdditionalInstructions libs).
Local Abbreviation resolves := (resolves libs signer).
Local Abbreviation decodes := (decodes libs signer).
Local Abbreviation transferMatches := (transferMatches libs signer).
Local Abbreviation simulated := (simulated signer).
Local Abbreviation submitted := (submitted signer).
Local Abbreviation requiredInstructionsPass :=
  (requiredInstructionsPass libs verificationConfig MAX_COMPUTE_UNIT_PRICE_MICROLAMPORTS).

(** *** What an accepted payment has passed *)

(** An accepting [verifyTransfer] has passed every check of steps 4 and 5. *)
Lemma verifyTransfer_valid p requirements feePayer payer transferIx w v w' :
  verifyTransfer p requirements (getAddresses signer) feePayer payer transferIx w
  = (Normal v, w') ->
  VerifyResponse.isValid v = true ->
  v = valid payer
  /\ exists parsed required,
       transferMatches requirements transferIx parsed required
       /\ (required <= amount parsed)%Z
       /\ simulated requirements p feePayer w w'.
Proof.
  unfold verifyTransfer, ret, bind, lift, tryCatch, perform.
  set (parsing := if programAddress transferIx =? TOKEN_PROGRAM_ADDRESS
                  then parseTransferCheckedInstructionToken libs transferIx
                  else parseTransferCheckedInstruction2022 libs transferIx).
  assert (Hparsing : parsing = if programAddress transferIx =? TOKEN_PROGRAM_ADDRESS
                               then parseTransferCheckedInstructionToken libs transferIx
                               else parseTransferCheckedInstruction2022 libs transferIx)
    by reflexivity.
  clearbody parsing.
  destruct (negb _ && negb _) eqn:Htok; [intro H; inversion H; subst; discriminate | ].
  destruct parsing as [parsed | ]; [ | intro H; inversion H; subst; discriminate].
  destruct (includes _ (authority parsed)) eqn:Hauth; [intro H; inversion H; subst; discriminate | ].
  destruct (negb (mint parsed =? _)) eqn:Hmint; [intro H; inversion H; subst; discriminate | ].
  destruct (findAssociatedTokenPda _ _ _ _) as [expected | ] eqn:Hata;
    [ | intro H; inversion H; subst; discriminate].
  destruct (negb (destination parsed =? expected)) eqn:Hdest;
    [intro H; inversion H; subst; discriminate | ].
  destruct (BigInt _ _) as [required | ] eqn:Hreq; [ | discriminate].
  destruct (Z.ltb_spec (amount parsed) required) as [Hlt | Hge];
    [intro H; inversion H; subst; discriminate | ].
  destruct (signTransaction _ _ _ _ _) as [[signed | e] s1] eqn:Hsign;
    [ | intro H; inversion H; subst; discriminate].
  destruct (simulateTransaction _ _ _ _) as [[[] | e] s2] eqn:Hsim;
    [ | intro H; inversion H; subst; discriminate].
  intro H; inversion H; subst. intros _. split; [reflexivity | ].
  exists parsed, required. split; [ | split; [exact Hge | ]].
  - unfold isTokenProgram. rewrite <- negb_orb in Htok. apply negb_false_iff in Htok.
    apply negb_false_iff, String.eqb_eq in Hmint.
    apply negb_false_iff, String.eqb_eq in Hdest. subst expected.
    repeat split; try assumption. now symmetry.
  - exists signed, s1, s2. cbn [signerState] in Hsim.
    split; [exact Hsign | split; [exact Hsim | ]].
    cbn [effects]. now rewrite <- app_assoc.
Qed.

(** An accepting validation has passed the required instructions, and the
    whole loop when there are additional instructions. *)
Lemma validateAdditionalInstructions_valid cfg addrs feePayer remaining :
  forall i result,
    validateAdditionalInstructions cfg addrs feePayer i remaining = Normal result ->
    isValid result = true ->
    result = accepted.
Proof.
  induction remaining as [ | ix later IH]; intros i result; cbn [validateAdditionalInstructions].
  - intro H; now inversion H.
  - destruct (validateAdditionalInstruction cfg addrs feePayer i ix) as [[res | ] | ] eqn:Hix;
      cbn [bindC]; [ | apply IH | discriminate].
    intro H; inversion H; subst. intro E.
    apply validateAdditionalInstruction_rejects in Hix. congruence.
Qed.

Lemma validateInstructions_valid ixs addrs feePayer result :
  validateInstructions ixs addrs feePayer = Normal result ->
  isValid result = true ->
  result = accepted
  /\ requiredInstructionsPass ixs feePayer
  /\ match skipn 3 ixs with
     | [] => True
     | additional =>
         Required.allowAdditionalInstructions config = true
         /\ validateAdditionalInstructions config addrs feePayer 3 additional = Normal accepted
     end.
Proof.
  unfold validateInstructions, requiredInstructionsPass.
  destruct ixs as [ | ix0 [ | ix1 [ | ix2 additional]]];
    try (intro H; inversion H; subst; discriminate).
  destruct (Z.ltb_spec (Required.maxInstructionCount config)
                       (Z.of_nat (length (ix0 :: ix1 :: ix2 :: additional)))) as [Hover | Hmax];
    [intro H; inversion H; subst; discriminate | ].
  destruct (Required.requireFeePayerNotInInstructions config && existsb _ _) eqn:Hscan;
    [intro H; inversion H; subst; discriminate | ].
  assert (Habsent : Required.requireFeePayerNotInInstructions config = true ->
                    forall ix, In ix (ix0 :: ix1 :: ix2 :: additional) ->
                               instructionIncludesAccount ix feePayer = false).
  { intros Hflag ix Hin. rewrite Hflag in Hscan. cbn [andb] in Hscan.
    destruct (instructionIncludesAccount ix feePayer) eqn:Hacc; [ | reflexivity].
    assert (Hex : existsb (fun ix => instructionIncludesAccount ix feePayer)
                          (ix0 :: ix1 :: ix2 :: additional) = true)
      by (apply existsb_exists; now exists ix).
    congruence. }
  clear Hscan.
  destruct (verifyComputeLimitInstruction ix0) as [[] | e0] eqn:Hlimit;
    [ | intro H; inversion H; subst; discriminate].
  destruct (verifyComputePriceInstruction ix1) as [[] | e1] eqn:Hprice;
    [ | intro H; inversion H; subst; discriminate].
  destruct (isTokenProgram (programAddress ix2)) eqn:Htoken; cbn [negb];
    [ | intro H; inversion H; subst; discriminate].
  destruct additional as [ | x additional].
  - cbn. intro H; inversion H; subst. intros _.
    split; [reflexivity | ]. split; [ | exact I].
    repeat split; assumption.
  - replace (3 <? length (ix0 :: ix1 :: ix2 :: x :: additional))%nat with true
      by (symmetry; apply Nat.ltb_lt; cbn [length]; lia).
    destruct (Required.allowAdditionalInstructions config) eqn:Hallow; cbn [negb];
      [ | intro H; inversion H; subst; discriminate].
    intros Hloop Hvalid.
    pose proof (validateAdditionalInstructions_valid _ _ _ _ _ _ Hloop Hvalid) as ->.
    split; [reflexivity | ]. split; [repeat split; assumption | ].
    cbn [skipn]. split; [reflexivity | exact Hloop].
Qed.

(** An accepting [verify] has passed every gate. *)
Lemma verify_valid payload requirements w v w' :
  verify payload requirements w = (Normal v, w') ->
  VerifyResponse.isValid v = true ->
  exists feePayer payer ixs transferIx parsed required,
    v = valid payer
    /\ resolves payload requirements feePayer payer ixs
    /\ validateInstructions ixs (getAddresses signer) feePayer = Normal accepted
    /\ nth_error ixs 2 = Some transferIx
    /\ transferMatches requirements transferIx parsed required
    /\ (required <= amount parsed)%Z
    /\ simulated requirements (PaymentPayload.payload payload) feePayer w w'.
Proof.
  unfold verify, ret, bind, lift.
  destruct (negb (_ =? "exact")) eqn:Hs1; cbn [orb];
    [intro H; inversion H; subst; discriminate | ].
  destruct (negb (PaymentRequirements.scheme requirements =? "exact")) eqn:Hs2;
    [intro H; inversion H; subst; discriminate | ].
  destruct (negb (_ =? PaymentRequirements.network requirements)) eqn:Hn;
    [intro H; inversion H; subst; discriminate | ].
  destruct (requiredFeePayer requirements) as [feePayer | ] eqn:Hfp;
    [ | intro H; inversion H; subst; discriminate].
  destruct (negb (includes _ feePayer)) eqn:Hin; [intro H; inversion H; subst; discriminate | ].
  destruct (decodeTransactionFromPayload _ _) as [tx | ] eqn:Hdec;
    [ | intro H; inversion H; subst; discriminate].
  destruct (decodeCompiledTransactionMessage _ _) as [compiled | ] eqn:Hc; [ | discriminate].
  destruct (decompileTransactionMessage _ _) as [decompiled | ] eqn:Hd; [ | discriminate].
  destruct (getTokenPayerFromTransaction _ _) as [payer | ] eqn:Hp; [ | discriminate].
  destruct (payer =? "") eqn:Hne; [intro H; inversion H; subst; discriminate | ].
  set (ixs := match instructions decompiled with Some l => l | None => [] end).
  unfold verifyInstructions, ret, bind, lift, raise.
  destruct (validateInstructions ixs _ _) as [res | ] eqn:Hval; [ | discriminate].
  destruct (isValid res) eqn:Hvalid; cbn [negb]; [ | intro H; inversion H; subst; discriminate].
  destruct (validateInstructions_valid _ _ _ _ Hval Hvalid) as (-> & _ & _).
  cbn [transferInstructionIndex accepted].
  destruct (nth_error ixs 2) as [transferIx | ] eqn:Hnth; [ | discriminate].
  intros Hrun Hok.
  destruct (verifyTransfer_valid _ _ _ _ _ _ _ _ Hrun Hok)
    as (-> & parsed & required & Hmatch & Hge & Hsim).
  exists feePayer, payer, ixs, transferIx, parsed, required.
  split; [reflexivity | ].
  split; [ | split; [exact Hval | split; [exact Hnth | split; [exact Hmatch | now split]]]].
  apply negb_false_iff, String.eqb_eq in Hs1, Hs2, Hn. apply negb_false_iff in Hin.
  apply String.eqb_neq in Hne.
  exists tx. split; [ | split; assumption].
  split; [repeat split; assumption | ].
  now exists compiled, decompiled.
Qed.

Lemma includes_true xs x : includes xs x = true <-> In x xs.
Proof.
  unfold includes. rewrite existsb_exists. split.
  - intros (y & Hin & Heq). apply String.eqb_eq in Heq. now subst.
  - intro Hin. exists x. split; [exact Hin | apply String.eqb_refl].
Qed.

Lemma includes_false xs x : includes xs x = false <-> ~ In x xs.
Proof.
  rewrite <- includes_true. destruct (includes xs x); split; congruence.
Qed.


(** X1. [verify] accepts only a payment whose instruction 2 parses, with the
    parser of its own token program, to a transfer of the required asset to
    the associated token account of the recipient under that program, of at
    least the required amount, on an authority that is none of the signer's
    addresses, so in particular not the required fee payer. *)
Theorem verify_accepts_only_matching_transfer payload requirements w v w' :
  verify payload requirements w = (Normal v, w') ->
  VerifyResponse.isValid v = true ->
  exists feePayer payer ixs transferIx parsed required,
    resolves payload requirements feePayer payer ixs
    /\ nth_error ixs 2 = Some transferIx
    /\ transferMatches requirements transferIx parsed required
    /\ (required <= amount parsed)%Z
    /\ ~ In (authority parsed) (getAddresses signer)
    /\ authority parsed <> feePayer.
Proof.
  intros Hrun Hok.
  destruct (verify_valid _ _ _ _ _ Hrun Hok)
    as (feePayer & payer & ixs & transferIx & parsed & required
        & _ & Hres & _ & Hnth & Hmatch & Hge & _).
  exists feePayer, payer, ixs, transferIx, parsed, required.
  repeat (split; [assumption | ]).
  assert (Hauth : ~ In (authority parsed) (getAddresses signer)).
  { apply includes_false. now destruct Hmatch as (_ & _ & Hauth & _). }
  split; [exact Hauth | ].
  intro Heq. apply Hauth. rewrite Heq. apply includes_true.
  now destruct Hres as (tx & ((_ & _ & _ & _ & Hin & _) & _) & _).
Qed.

(** X2. [verify] accepts only after the signer has signed the payload's
    transaction for the required fee payer on the requirement's network and
    simulated the transaction it signed, both without error; these two calls
    are all it performs. *)
Theorem verify_accepts_only_after_simulation payload requirements w v w' :
  verify payload requirements w = (Normal v, w') ->
  VerifyResponse.isValid v = true ->
  exists feePayer,
    requiredFeePayer requirements = Some feePayer
    /\ simulated requirements (PaymentPayload.payload payload) feePayer w w'.
Proof.
  intros Hrun Hok.
  destruct (verify_valid _ _ _ _ _ Hrun Hok)
    as (feePayer & payer & ixs & transferIx & parsed & required
        & _ & Hres & _ & _ & _ & _ & Hsim).
  exists feePayer. split; [ | exact Hsim].
  now destruct Hres as (tx & ((_ & _ & _ & Hfp & _) & _) & _).
Qed.



(** *** The gates, one after the other *)

Lemma requiredFeePayer_Some requirements feePayer :
  requiredFeePayer requirements = Some feePayer <->
  exists extra,
    PaymentRequirements.extra requirements = Some extra
    /\ Extra.feePayer extra = Str feePayer
    /\ feePayer <> "".
Proof.
  unfold requiredFeePayer. split.
  - destruct (PaymentRequirements.extra requirements) as [extra | ]; [ | discriminate].
    destruct (Extra.feePayer extra) as [ | s | b] eqn:Hv; cbn.
    + discriminate.
    + destruct (s =? "") eqn:Hs; cbn; [discriminate | ].
      intro H; inversion H; subst. exists extra. apply String.eqb_neq in Hs. now repeat split.
    + destruct b; discriminate.
  - intros (extra & -> & -> & Hne). cbn. apply String.eqb_neq in Hne. now rewrite Hne.
Qed.

(** Past validation, [verify] is [verifyTransfer] on instruction 2. *)
Lemma verify_at_transfer payload requirements feePayer payer ixs transferIx :
  resolves payload requirements feePayer payer ixs ->
  validateInstructions ixs (getAddresses signer) feePayer = Normal accepted ->
  nth_error ixs 2 = Some transferIx ->
  verify payload requirements
  = verifyTransfer (PaymentPayload.payload payload) requirements (getAddresses signer)
                   feePayer payer transferIx.
Proof.
  intros Hres Hval Hnth.
  rewrite (verify_resolved libs signer verificationConfig MAX_COMPUTE_UNIT_PRICE_MICROLAMPORTS
             _ _ _ _ _ Hres).
  unfold verifyInstructions, bind, lift. rewrite Hval.
  cbn [isValid accepted negb transferInstructionIndex]. now rewrite Hnth.
Qed.

(** X5. The gates of [verify] before instruction validation fail in this
    order, each with its own reason, an empty payer and no effect: the scheme
    of the payload or of the requirement is not "exact"; the networks differ;
    the requirement carries no non-empty string as fee payer; the fee payer is
    not a signer address; the payload does not decode; no payer is resolved. *)
Theorem verify_first_failing_gate payload requirements w :
  (PaymentRequirements.scheme (PaymentPayload.accepted payload) <> "exact"
   \/ PaymentRequirements.scheme requirements <> "exact" ->
   verify payload requirements w = (Normal (invalid "unsupported_scheme" ""), w))
  /\ (PaymentRequirements.scheme (PaymentPayload.accepted payload) = "exact" ->
      PaymentRequirements.scheme requirements = "exact" ->
      (PaymentRequirements.network (PaymentPayload.accepted payload)
       <> PaymentRequirements.network requirements ->
       verify payload requirements w = (Normal (invalid "network_mismatch" ""), w))
      /\ (PaymentRequirements.network (PaymentPayload.accepted payload)
          = PaymentRequirements.network requirements ->
          (~ (exists extra feePayer,
                 PaymentRequirements.extra requirements = Some extra
                 /\ Extra.feePayer extra = Str feePayer /\ feePayer <> "") ->
           verify payload requirements w
           = (Normal (invalid "invalid_exact_svm_payload_missing_fee_payer" ""), w))
          /\ (forall feePayer,
                requiredFeePayer requirements = Some feePayer ->
                (~ In feePayer (getAddresses signer) ->
                 verify payload requirements w
                 = (Normal (invalid "fee_payer_not_managed_by_facilitator" ""), w))
                /\ (In feePayer (getAddresses signer) ->
                    ((exists error,
                         decodeTransactionFromPayload libs (PaymentPayload.payload payload)
                         = Throw error) ->
                     verify payload requirements w
                     = (Normal (invalid "invalid_exact_svm_payload_transaction_could_not_be_decoded"
                                        ""), w))
                    /\ (forall tx ixs,
                          decompiles libs signer payload requirements feePayer tx ixs ->
                          getTokenPayerFromTransaction libs tx = Normal "" ->
                          verify payload requirements w
                          = (Normal (invalid "invalid_exact_svm_payload_no_transfer_instruction"
                                             ""), w)))))).
Proof.
  split.
  { intro Hscheme. unfold verify.
    replace (negb _ || negb _) with true; [reflexivity | ].
    symmetry. apply orb_true_iff.
    destruct Hscheme as [H | H]; [left | right]; apply negb_true_iff; now apply String.eqb_neq. }
  intros Hs1 Hs2. split.
  { intro Hn. unfold verify. rewrite Hs1, Hs2. cbn [String.eqb Ascii.eqb Bool.eqb negb orb].
    apply String.eqb_neq in Hn. now rewrite Hn. }
  intro Hn. split.
  { intro Hnone. unfold verify. rewrite Hs1, Hs2, Hn, !String.eqb_refl.
    cbn [String.eqb Ascii.eqb Bool.eqb negb orb].
    destruct (requiredFeePayer requirements) as [feePayer | ] eqn:Hfp; [ | reflexivity].
    exfalso. apply Hnone. apply requiredFeePayer_Some in Hfp.
    destruct Hfp as (extra & H). now exists extra, feePayer. }
  intros feePayer Hfp. split.
  { intro Hout. unfold verify. rewrite Hs1, Hs2, Hn, !String.eqb_refl, Hfp.
    cbn [String.eqb Ascii.eqb Bool.eqb negb orb].
    apply includes_false in Hout. now rewrite Hout. }
  intro Hin. apply includes_true in Hin. split.
  { intros (error & Herr). unfold verify. rewrite Hs1, Hs2, Hn, !String.eqb_refl, Hfp, Hin, Herr.
    reflexivity. }
  intros tx ixs ((_ & _ & _ & _ & _ & Hdec) & (c & d & Hc & Hd & _)) Hp.
  unfold verify. rewrite Hs1, Hs2, Hn, !String.eqb_refl, Hfp, Hin, Hdec.
  cbn [String.eqb Ascii.eqb Bool.eqb negb orb]. unfold bind, lift.
  now rewrite Hc, Hd, Hp.
Qed.

(** X6. A response of [verify] with an empty payer is a rejection at one of
    the gates before instruction validation: its reason is one of the six
    reasons of those gates, and the signer has signed and simulated nothing
    (it has at most been asked for its addresses). *)
Theorem verify_without_payer payload requirements w v w' :
  verify payload requirements w = (Normal v, w') ->
  VerifyResponse.payer v = "" ->
  w' = w
  /\ VerifyResponse.isValid v = false
  /\ exists r, VerifyResponse.invalidReason v = Some r /\ In r REASONS_WITHOUT_PAYER.
Proof.
  unfold verify, ret, bind, lift.
  assert (Hgate : forall r, In r REASONS_WITHOUT_PAYER ->
            (Normal (invalid r ""), w) = (Normal v, w') ->
            VerifyResponse.payer v = "" ->
            w' = w /\ VerifyResponse.isValid v = false
            /\ exists r', VerifyResponse.invalidReason v = Some r' /\ In r' REASONS_WITHOUT_PAYER).
  { intros r Hr H _. inversion H; subst. repeat split. now exists r. }
  destruct (negb _ || negb _); [apply Hgate; cbn; tauto | ].
  destruct (negb (_ =? _)); [apply Hgate; cbn; tauto | ].
  destruct (requiredFeePayer requirements) as [feePayer | ]; [ | apply Hgate; cbn; tauto].
  destruct (negb (includes _ feePayer)); [apply Hgate; cbn; tauto | ].
  destruct (decodeTransactionFromPayload _ _) as [tx | ]; [ | apply Hgate; cbn; tauto].
  destruct (decodeCompiledTransactionMessage _ _) as [compiled | ]; [ | discriminate].
  destruct (decompileTransactionMessage _ _) as [decompiled | ]; [ | discriminate].
  destruct (getTokenPayerFromTransaction _ _) as [payer | ]; [ | discriminate].
  destruct (payer =? "") eqn:Hne; [apply Hgate; cbn; tauto | ].
  intros Hrun Hempty. exfalso.
  apply (verifyInstructions_payer libs signer verificationConfig
           MAX_COMPUTE_UNIT_PRICE_MICROLAMPORTS) in Hrun.
  apply String.eqb_neq in Hne. congruence.
Qed.

(** X7. A transaction of more instructions than the configured maximum is
    rejected with the exceeds-max reason, which ends with that maximum, before
    any instruction is looked at. *)
Theorem verify_exceeds_max payload requirements feePayer payer ixs w :
  resolves payload requirements feePayer payer ixs ->
  (3 <= length ixs)%nat ->
  (Required.maxInstructionCount config < Z.of_nat (length ixs))%Z ->
  verify payload requirements w
  = (Normal (invalid ("invalid_exact_svm_payload_transaction_instructions_length_exceeds_max_"
                      ++ numberToString (Required.maxInstructionCount config)) payer), w).
Proof.
  intros Hres Hmin Hmax.
  rewrite (verify_resolved libs signer verificationConfig MAX_COMPUTE_UNIT_PRICE_MICROLAMPORTS
             _ _ _ _ _ Hres).
  apply verifyInstructions_rejected. unfold validateInstructions.
  destruct ixs as [ | ix0 [ | ix1 [ | ix2 rest]]]; cbn [length] in Hmin; try lia.
  apply Z.ltb_lt in Hmax. now rewrite Hmax.
Qed.

(** *** The transfer instruction *)

(** X8. Once validation has accepted the instructions, instruction 2 is
    judged in this order, each rejection carrying the resolved payer and
    performing no effect: it does not parse (with the parser of its program);
    its authority is one of the signer's addresses; its mint is not the
    required asset; the associated token account of the recipient cannot be
    derived or is not its destination. *)
Theorem verify_transfer_rejections payload requirements feePayer payer ixs transferIx w :
  resolves payload requirements feePayer payer ixs ->
  validateInstructions ixs (getAddresses signer) feePayer = Normal accepted ->
  nth_error ixs 2 = Some transferIx ->
  ((exists error,
       (if programAddress transferIx =? TOKEN_PROGRAM_ADDRESS
        then parseTransferCheckedInstructionToken libs transferIx
        else parseTransferCheckedInstruction2022 libs transferIx) = Throw error) ->
   verify payload requirements w
   = (Normal (invalid "invalid_exact_svm_payload_no_transfer_instruction" payer), w))
  /\ (forall parsed,
        (if programAddress transferIx =? TOKEN_PROGRAM_ADDRESS
         then parseTransferCheckedInstructionToken libs transferIx
         else parseTransferCheckedInstruction2022 libs transferIx) = Normal parsed ->
        (In (authority parsed) (getAddresses signer) ->
         verify payload requirements w
         = (Normal (invalid "invalid_exact_svm_payload_transaction_fee_payer_transferring_funds"
                            payer), w))
        /\ (~ In (authority parsed) (getAddresses signer) ->
            (mint parsed <> PaymentRequirements.asset requirements ->
             verify payload requirements w
             = (Normal (invalid "invalid_exact_svm_payload_mint_mismatch" payer), w))
            /\ (mint parsed = PaymentRequirements.asset requirements ->
                findAssociatedTokenPda libs (PaymentRequirements.asset requirements)
                  (PaymentRequirements.payTo requirements)
                  (if programAddress transferIx =? TOKEN_PROGRAM_ADDRESS
                   then TOKEN_PROGRAM_ADDRESS else TOKEN_2022_PROGRAM_ADDRESS)
                <> Normal (destination parsed) ->
                verify payload requirements w
                = (Normal (invalid "invalid_exact_svm_payload_recipient_mismatch" payer), w)))).
Proof.
  intros Hres Hval Hnth.
  destruct (validateInstructions_valid _ _ _ _ Hval eq_refl) as (_ & Hreq & _).
  assert (Htoken : negb (programAddress transferIx =? TOKEN_PROGRAM_ADDRESS)
                   && negb (programAddress transferIx =? TOKEN_2022_PROGRAM_ADDRESS) = false).
  { unfold requiredInstructionsPass in Hreq.
    destruct ixs as [ | ix0 [ | ix1 [ | ix2 rest]]]; try contradiction.
    cbn in Hnth. inversion Hnth; subst.
    destruct Hreq as (_ & _ & _ & _ & Htok). unfold isTokenProgram in Htok.
    now rewrite <- negb_orb, Htok. }
  rewrite (verify_at_transfer _ _ _ _ _ _ Hres Hval Hnth).
  unfold verifyTransfer, ret. rewrite Htoken. split.
  { intros (error & ->). reflexivity. }
  intros parsed ->. split.
  { intro Hin. apply includes_true in Hin. now rewrite Hin. }
  intro Hout. apply includes_false in Hout. rewrite Hout. split.
  { intro Hmint. apply String.eqb_neq in Hmint. now rewrite Hmint. }
  intros Hmint Hata. rewrite Hmint, String.eqb_refl. cbn [negb].
  destruct (findAssociatedTokenPda _ _ _ _) as [expected | ]; [ | reflexivity].
  destruct (destination parsed =? expected) eqn:Hdest; [ | reflexivity].
  apply String.eqb_eq in Hdest. subst expected. contradiction.
Qed.

(** X9. Past the amount check, a failure of the signer is reported as
    "transaction_simulation_failed: " followed by the error's message, with the
    resolved payer: when signing fails, nothing is simulated; when the
    simulation fails, it was a simulation of the transaction just signed. *)
Theorem verify_simulation_failures
    payload requirements feePayer payer ixs transferIx parsed required w :
  resolves payload requirements feePayer payer ixs ->
  validateInstructions ixs (getAddresses signer) feePayer = Normal accepted ->
  nth_error ixs 2 = Some transferIx ->
  transferMatches requirements transferIx parsed required ->
  (required <= amount parsed)%Z ->
  let tx := transaction (PaymentPayload.payload payload) in
  let network := PaymentRequirements.network requirements in
  (forall error s1,
      signTransaction signer tx feePayer network (signerState w) = (Throw error, s1) ->
      verify payload requirements w
      = (Normal (invalid ("transaction_simulation_failed: " ++ messageOrString error) payer),
         mkWorld s1 (effects w ++ [SignTransaction tx feePayer network])%list))
  /\ (forall signed s1 error s2,
        signTransaction signer tx feePayer network (signerState w) = (Normal signed, s1) ->
        simulateTransaction signer signed network s1 = (Throw error, s2) ->
        verify payload requirements w
        = (Normal (invalid ("transaction_simulation_failed: " ++ messageOrString error) payer),
           mkWorld s2 (effects w ++ [SignTransaction tx feePayer network;
                                     SimulateTransaction signed network])%list)).
Proof.
  intros Hres Hval Hnth (Htok & Hparse & Hauth & Hmint & Hata & Hreq) Hge tx network.
  rewrite (verify_at_transfer _ _ _ _ _ _ Hres Hval Hnth).
  unfold verifyTransfer, bind, lift, ret, tryCatch, perform.
  unfold isTokenProgram in Htok. rewrite <- negb_orb, Htok. cbn [negb].
  rewrite Hparse, Hauth, Hmint, String.eqb_refl. cbn [negb].
  rewrite Hata, String.eqb_refl. cbn [negb]. rewrite Hreq.
  apply Z.ltb_ge in Hge. rewrite Hge. fold tx network. split.
  - intros error s1 Hsign. now rewrite Hsign.
  - intros signed s1 error s2 Hsign Hsim. rewrite Hsign. cbn [signerState].
    rewrite Hsim. cbn [effects]. now rewrite <- app_assoc.
Qed.

(** *** Settlement *)

(** X10. Whenever [verify] returns, so does [settle], with the payer of that
    verification and the network of the payload; a response that is not a
    success has an empty transaction and a reason. *)
Theorem settle_returns_when_verify_does payload requirements w v w1 :
  verify payload requirements w = (Normal v, w1) ->
  exists r w2,
    settle payload requirements w = (Normal r, w2)
    /\ SettleResponse.payer r = VerifyResponse.payer v
    /\ SettleResponse.network r = PaymentRequirements.network (PaymentPayload.accepted payload)
    /\ (SettleResponse.success r = false ->
        SettleResponse.transaction r = "" /\ SettleResponse.errorReason r <> None).
Proof.
  intro Hv. unfold settle, bind, tryCatch, lift, perform, ret. rewrite Hv.
  assert (Hpayer : (if VerifyResponse.payer v =? "" then "" else VerifyResponse.payer v)
                   = VerifyResponse.payer v).
  { destruct (VerifyResponse.payer v =? "") eqn:E; [ | reflexivity].
    apply String.eqb_eq in E. now rewrite E. }
  destruct (VerifyResponse.isValid v); cbn [negb].
  - destruct (requiredFeePayer requirements) as [feePayer | ].
    + destruct (signTransaction _ _ _ _ _) as [[signed | e] s1].
      * cbn [signerState effects].
        destruct (sendTransaction _ _ _ _) as [[signature | e] s2].
        -- cbn [signerState effects].
           destruct (confirmTransaction _ _ _ _) as [[u | e] s3].
           ++ eexists; eexists. split; [reflexivity | ]. cbn. repeat split; discriminate.
           ++ eexists; eexists. split; [reflexivity | ]. cbn.
              repeat split; try exact Hpayer; discriminate.
        -- eexists; eexists. split; [reflexivity | ]. cbn.
           repeat split; try exact Hpayer; discriminate.
      * eexists; eexists. split; [reflexivity | ]. cbn.
        repeat split; try exact Hpayer; discriminate.
    + eexists; eexists. split; [reflexivity | ]. cbn.
      repeat split; try exact Hpayer; discriminate.
  - eexists; eexists. split; [reflexivity | ]. cbn.
    repeat split; try exact Hpayer; discriminate.
Qed.

(** X11. [settle] reports success only when the verification accepted and,
    after it, the signer signed the transaction for the required fee payer,
    sent what it signed and confirmed the signature it got, all without error;
    the transaction of the response is that signature, and these three calls are
    all [settle] adds to those of [verify]. *)
Theorem settle_success_means_confirmed payload requirements w r w2 :
  settle payload requirements w = (Normal r, w2) ->
  SettleResponse.success r = true ->
  exists v w1 feePayer,
    verify payload requirements w = (Normal v, w1)
    /\ VerifyResponse.isValid v = true
    /\ requiredFeePayer requirements = Some feePayer
    /\ submitted requirements (PaymentPayload.payload payload) feePayer
                 (SettleResponse.transaction r) w1 w2
    /\ SettleResponse.payer r = VerifyResponse.payer v
    /\ SettleResponse.errorReason r = None.
Proof.
  unfold settle, bind, tryCatch, lift, perform, ret.
  destruct (verify payload requirements w) as [[v | e] w1] eqn:Hv; [ | discriminate].
  destruct (VerifyResponse.isValid v) eqn:Hvalid; cbn [negb];
    [ | intro H; inversion H; subst; discriminate].
  destruct (requiredFeePayer requirements) as [feePayer | ] eqn:Hfp;
    [ | intro H; inversion H; subst; discriminate].
  destruct (signTransaction _ _ _ _ _) as [[signed | e] s1] eqn:Hsign;
    [ | intro H; inversion H; subst; discriminate].
  cbn [signerState effects].
  destruct (sendTransaction _ _ _ _) as [[signature | e] s2] eqn:Hsend;
    [ | intro H; inversion H; subst; discriminate].
  cbn [signerState effects].
  destruct (confirmTransaction _ _ _ _) as [[[] | e] s3] eqn:Hconfirm;
    [ | intro H; inversion H; subst; discriminate].
  intro H; inversion H; subst. intros _.
  exists v, w1, feePayer. repeat split; try assumption; try reflexivity.
  exists signed, s1, s2, s3. cbn [SettleResponse.transaction].
  repeat split; try assumption. cbn [effects]. now rewrite <- !app_assoc.
Qed.


(** *** The instruction policy *)

(** X13. The custom verifier consulted for a program is the first one, in the
    configured order, whose program list contains it. [address] is only called
    when there is a verifier to ask: a program that is not an address throws
    unless no verifier is configured. *)
Theorem findCustomVerifier_first_match verifiers programId :
  (isAddress libs programId = true ->
   findCustomVerifier libs verifiers programId
   = Normal (find (fun v => includes (Types.programIds v) programId) verifiers))
  /\ (isAddress libs programId = false ->
      findCustomVerifier libs verifiers programId
      = match verifiers with
        | [] => Normal None
        | _ :: _ => Throw (addressError libs programId)
        end).
Proof.
  split; intro Haddr.
  - induction verifiers as [ | v rest IH]; [reflexivity | ].
    cbn [findCustomVerifier find]. unfold address. rewrite Haddr. cbn [bindC].
    destruct (includes (Types.programIds v) programId); [reflexivity | exact IH].
  - destruct verifiers as [ | v rest]; [reflexivity | ].
    cbn [findCustomVerifier]. unfold address. now rewrite Haddr.
Qed.

Lemma includesNumber_true xs x : includesNumber xs x = true <-> In x xs.
Proof.
  unfold includesNumber. rewrite existsb_exists. split.
  - intros (y & Hin & Heq). apply Z.eqb_eq in Heq. now subst.
  - intro Hin. exists x. split; [exact Hin | apply Z.eqb_refl].
Qed.

(** The loop accepts exactly when every iteration ends without a result. *)
Lemma validateAdditionalInstructions_accepts cfg addrs feePayer remaining :
  forall i,
    validateAdditionalInstructions cfg addrs feePayer i remaining = Normal accepted
    <-> forall k ix,
          nth_error remaining k = Some ix ->
          validateAdditionalInstruction cfg addrs feePayer (i + k) ix = Normal None.
Proof.
  induction remaining as [ | ix later IH]; intro i; cbn [validateAdditionalInstructions].
  - split; [intros _ k ix' Hk; destruct k; discriminate | reflexivity].
  - split.
    + destruct (validateAdditionalInstruction cfg addrs feePayer i ix) as [[res | ] | ] eqn:Hix;
        cbn [bindC]; [ | | discriminate].
      * intro H; inversion H; subst.
        apply validateAdditionalInstruction_rejects in Hix. discriminate.
      * intros Hloop k ix' Hk. destruct k as [ | k].
        -- cbn in Hk. inversion Hk; subst. now rewrite Nat.add_0_r.
        -- cbn in Hk. rewrite <- Nat.add_succ_comm. exact (proj1 (IH (S i)) Hloop k ix' Hk).
    + intro Hall. rewrite <- (Nat.add_0_r i) at 1. rewrite (Hall 0%nat ix eq_refl). cbn [bindC].
      apply IH. intros k ix' Hk. rewrite Nat.add_succ_comm. exact (Hall (S k) ix' Hk).
Qed.

(** X14. [validateInstructions] accepts a list exactly when the checks on
    the count, the fee payer and the three required instructions pass and
    either there are exactly three instructions, or additional instructions are
    allowed and each additional instruction passes the policy check at its own
    index. *)
Theorem validateInstructions_accepts_iff ixs addrs feePayer :
  validateInstructions ixs addrs feePayer = Normal accepted
  <-> requiredInstructionsPass ixs feePayer
      /\ (length ixs = 3%nat
          \/ (Required.allowAdditionalInstructions config = true
              /\ forall k ix,
                   nth_error (skipn 3 ixs) k = Some ix ->
                   validateAdditionalInstruction config addrs feePayer (3 + k) ix
                   = Normal None)).
Proof.
  split.
  - intro Hrun.
    destruct (validateInstructions_valid _ _ _ _ Hrun eq_refl) as (_ & Hreq & Hadd).
    split; [exact Hreq | ].
    unfold requiredInstructionsPass in Hreq.
    destruct ixs as [ | ix0 [ | ix1 [ | ix2 [ | x rest]]]]; try contradiction;
      [now left | right].
    cbn [skipn] in *. destruct Hadd as (Hallow & Hloop).
    split; [exact Hallow | ]. now apply validateAdditionalInstructions_accepts.
  - intros (Hreq & Hadd).
    destruct ixs as [ | ix0 [ | ix1 [ | ix2 rest]]]; try contradiction.
    destruct rest as [ | x rest].
    + destruct Hreq as (Hmax & Hscan & Hlimit & Hprice & Htoken).
      unfold validateInstructions.
      apply Z.ltb_ge in Hmax. rewrite Hmax.
      replace (Required.requireFeePayerNotInInstructions config && existsb _ _) with false.
      * now rewrite Hlimit, Hprice, Htoken.
      * symmetry. apply not_true_is_false. intro H.
        apply andb_true_iff in H. destruct H as (Hflag & Hex).
        apply existsb_exists in Hex. destruct Hex as (ix & Hin & Hacc).
        rewrite (Hscan Hflag ix Hin) in Hacc. discriminate.
    + destruct Hadd as [Hlen | (Hallow & Hall)]; [cbn [length] in Hlen; lia | ].
      rewrite (validateInstructions_additional libs verificationConfig
                 MAX_COMPUTE_UNIT_PRICE_MICROLAMPORTS _ _ _ _ _ addrs _ Hreq Hallow).
      now apply validateAdditionalInstructions_accepts.
Qed.

(** X15. For an additional instruction that validation reaches, whose
    program is not blocked and matches no custom verifier, a non-empty
    allow-list decides: a listed program passes and validation moves on, any
    other is rejected with the program-not-allowed reason for that program. *)
Theorem additional_instruction_allow_list ix0 ix1 ix2 before ix later addrs feePayer :
  requiredInstructionsPass (ix0 :: ix1 :: ix2 :: before ++ ix :: later)%list feePayer ->
  Required.allowAdditionalInstructions config = true ->
  validateAdditionalInstructions config addrs feePayer 3 before = Normal accepted ->
  includes (Required.blockedProgramIds config) (programAddress ix) = false ->
  findCustomVerifier libs (Required.customVerifiers config) (programAddress ix) = Normal None ->
  Required.allowedProgramIds config <> [] ->
  (In (programAddress ix) (Required.allowedProgramIds config) ->
   validateInstructions (ix0 :: ix1 :: ix2 :: before ++ ix :: later)%list addrs feePayer
   = validateAdditionalInstructions config addrs feePayer (S (3 + length before)) later)
  /\ (~ In (programAddress ix) (Required.allowedProgramIds config) ->
      validateInstructions (ix0 :: ix1 :: ix2 :: before ++ ix :: later)%list addrs feePayer
      = Normal (rejected ("invalid_exact_svm_payload_program_not_allowed_" ++ programAddress ix))).
Proof.
  intros Hreq Hallow Hbefore Hfree Hnone Hlist.
  rewrite (validateInstructions_reaches libs verificationConfig
             MAX_COMPUTE_UNIT_PRICE_MICROLAMPORTS _ _ _ _ _ _ addrs _ Hreq Hallow Hbefore).
  cbn [validateAdditionalInstructions]. unfold validateAdditionalInstruction.
  rewrite Hfree, Hnone. cbn [bindC].
  assert (Hnonempty : (0 <? length (Required.allowedProgramIds config))%nat = true).
  { apply Nat.ltb_lt. destruct (Required.allowedProgramIds config); [contradiction | cbn; lia]. }
  rewrite Hnonempty. cbn [andb]. split.
  - intro Hin. apply includes_true in Hin. now rewrite Hin.
  - intro Hout. apply includes_false in Hout. now rewrite Hout.
Qed.

(** X16. For an additional instruction that validation reaches, whose
    program is not blocked and matches a custom verifier that restricts
    positions, an index outside the allowed positions is rejected with the
    position reason naming the program and the index, before any callback is
    run; in particular an empty list of positions rejects the program
    everywhere. At an allowed index a verifier without callback lets the
    instruction pass. *)
Theorem additional_instruction_position
    ix0 ix1 ix2 before ix later addrs feePayer rule positions :
  requiredInstructionsPass (ix0 :: ix1 :: ix2 :: before ++ ix :: later)%list feePayer ->
  Required.allowAdditionalInstructions config = true ->
  validateAdditionalInstructions config addrs feePayer 3 before = Normal accepted ->
  includes (Required.blockedProgramIds config) (programAddress ix) = false ->
  findCustomVerifier libs (Required.customVerifiers config) (programAddress ix)
  = Normal (Some rule) ->
  Types.allowedPositions rule = Some positions ->
  (~ In (Z.of_nat (3 + length before)) positions ->
   validateInstructions (ix0 :: ix1 :: ix2 :: before ++ ix :: later)%list addrs feePayer
   = Normal (rejected ("invalid_exact_svm_payload_instruction_position_"
                       ++ programAddress ix ++ "_at_"
                       ++ numberToString (Z.of_nat (3 + length before)))))
  /\ (In (Z.of_nat (3 + length before)) positions ->
      Types.verify rule = None ->
      validateInstructions (ix0 :: ix1 :: ix2 :: before ++ ix :: later)%list addrs feePayer
      = validateAdditionalInstructions config addrs feePayer (S (3 + length before)) later).
Proof.
  intros Hreq Hallow Hbefore Hfree Hrule Hpos.
  rewrite (validateInstructions_reaches libs verificationConfig
             MAX_COMPUTE_UNIT_PRICE_MICROLAMPORTS _ _ _ _ _ _ addrs _ Hreq Hallow Hbefore).
  cbn [validateAdditionalInstructions]. unfold validateAdditionalInstruction.
  rewrite Hfree, Hrule. cbn [bindC]. rewrite Hpos. split.
  - intro Hout.
    replace (includesNumber positions _) with false; [reflexivity | ].
    symmetry. apply not_true_is_false. intro H. now apply includesNumber_true in H.
  - intros Hin Hnone. apply includesNumber_true in Hin. rewrite Hin, Hnone. reflexivity.
Qed.

Lemma mapAddress_addresses addrs :
  Forall (fun a => isAddress libs a = true) addrs ->
  mapAddress libs addrs = Normal addrs.
Proof.
  induction 1 as [ | a rest Ha _ IH]; [reflexivity | ].
  cbn [mapAddress]. unfold address at 1. rewrite Ha. cbn [bindC]. now rewrite IH.
Qed.

(** X17. For an additional instruction that validation reaches, whose
    program is not blocked and matches a custom verifier that allows its index
    and has a callback, the callback decides. It is given the instruction as
    it is and the context of the signer addresses, the fee payer and the index.
    If it returns, validation moves on; if it throws an [Error], the
    instruction is rejected with the error's message; if it throws anything
    else, with "custom_verifier_failed_" and the program. *)
Theorem additional_instruction_callback
    ix0 ix1 ix2 before ix later addrs feePayer rule callback :
  requiredInstructionsPass (ix0 :: ix1 :: ix2 :: before ++ ix :: later)%list feePayer ->
  Required.allowAdditionalInstructions config = true ->
  validateAdditionalInstructions config addrs feePayer 3 before = Normal accepted ->
  includes (Required.blockedProgramIds config) (programAddress ix) = false ->
  findCustomVerifier libs (Required.customVerifiers config) (programAddress ix)
  = Normal (Some rule) ->
  match Types.allowedPositions rule with
  | Some positions => In (Z.of_nat (3 + length before)) positions
  | None => True
  end ->
  Types.verify rule = Some callback ->
  Forall (fun a => isAddress libs a = true) addrs ->
  isAddress libs feePayer = true ->
  validateInstructions (ix0 :: ix1 :: ix2 :: before ++ ix :: later)%list addrs feePayer
  = match callback ix {| Types.signerAddresses := addrs;
                         Types.feePayer := feePayer;
                         Types.instructionIndex := 3 + length before |} with
    | None => validateAdditionalInstructions config addrs feePayer (S (3 + length before)) later
    | Some (ErrorObject message) => Normal (rejected message)
    | Some (NonError _) =>
        Normal (rejected ("custom_verifier_failed_" ++ programAddress ix))
    end.
Proof.
  intros Hreq Hallow Hbefore Hfree Hrule Hpos Hcb Haddrs Hfp.
  rewrite (validateInstructions_reaches libs verificationConfig
             MAX_COMPUTE_UNIT_PRICE_MICROLAMPORTS _ _ _ _ _ _ addrs _ Hreq Hallow Hbefore).
  cbn [validateAdditionalInstructions]. unfold validateAdditionalInstruction.
  rewrite Hfree, Hrule. cbn [bindC].
  replace (match Types.allowedPositions rule with
           | Some positions => negb (includesNumber positions (Z.of_nat (3 + length before)))
           | None => false
           end) with false.
  2:{ destruct (Types.allowedPositions rule) as [positions | ]; [ | reflexivity].
      apply includesNumber_true in Hpos. now rewrite Hpos. }
  rewrite Hcb. unfold runCustomVerifier.
  rewrite (mapAddress_addresses _ Haddrs). cbn [bindC].
  unfold address. rewrite Hfp. cbn [bindC].
  replace {| programAddress := programAddress ix; accounts := accounts ix; data := data ix |}
    with ix by (now destruct ix).
  destruct (callback ix _) as [[message | other] | ]; reflexivity.
Qed.

(** X18. With the count and the fee payer passed, a first instruction that
    fails the compute-limit check, whose only error is the compute-limit
    reason, and a third instruction whose program is neither token program are
    rejected with their own reasons; with the three required instructions
    passed, a fourth instruction is rejected outright when the policy does not
    allow additional instructions, whatever it is and whatever the maximum. *)
Theorem validateInstructions_required_rejections ix0 ix1 ix2 rest addrs feePayer :
  (Z.of_nat (length (ix0 :: ix1 :: ix2 :: rest)) <= Required.maxInstructionCount config)%Z ->
  (Required.requireFeePayerNotInInstructions config = true ->
   forall ix, In ix (ix0 :: ix1 :: ix2 :: rest) -> instructionIncludesAccount ix feePayer = false) ->
  ((exists error, verifyComputeLimitInstruction ix0 = Throw error) ->
   validateInstructions (ix0 :: ix1 :: ix2 :: rest) addrs feePayer
   = Normal (rejected COMPUTE_LIMIT_REASON))
  /\ (verifyComputeLimitInstruction ix0 = Normal tt ->
      verifyComputePriceInstruction ix1 = Normal tt ->
      (isTokenProgram (programAddress ix2) = false ->
       validateInstructions (ix0 :: ix1 :: ix2 :: rest) addrs feePayer
       = Normal (rejected "invalid_exact_svm_payload_no_transfer_instruction_at_index_2"))
      /\ (isTokenProgram (programAddress ix2) = true ->
          rest <> [] ->
          Required.allowAdditionalInstructions config = false ->
          validateInstructions (ix0 :: ix1 :: ix2 :: rest) addrs feePayer
          = Normal (rejected "invalid_exact_svm_payload_additional_instructions_not_allowed"))).
Proof.
  intros Hmax Hscan.
  unfold validateInstructions.
  apply Z.ltb_ge in Hmax. rewrite Hmax.
  replace (Required.requireFeePayerNotInInstructions config && existsb _ _) with false.
  2:{ symmetry. apply not_true_is_false. intro H.
      apply andb_true_iff in H. destruct H as (Hflag & Hex).
      apply existsb_exists in Hex. destruct Hex as (ix & Hin & Hacc).
      rewrite (Hscan Hflag ix Hin) in Hacc. discriminate. }
  split.
  - intros (error & Hthrow). rewrite Hthrow.
    apply (verifyComputeLimitInstruction_throws libs) in Hthrow. now subst.
  - intros Hlimit Hprice. rewrite Hlimit, Hprice. split.
    + intro Hno. now rewrite Hno.
    + intros Hyes Hrest Hstrict. rewrite Hyes, Hstrict. cbn [negb].
      destruct rest as [ | x rest]; [contradiction | reflexivity].
Qed.

(** *** The compute-budget instructions *)

(** X19. [verifyComputeLimitInstruction] accepts an instruction exactly when its
    program is the compute-budget program, its data start with the
    discriminator byte 2 and it parses as a limit instruction; data that are
    missing or empty are refused like a wrong discriminator. *)
Theorem verifyComputeLimitInstruction_accepts_iff ix :
  (verifyComputeLimitInstruction ix = Normal tt
   <-> programAddress ix = COMPUTE_BUDGET_PROGRAM_ADDRESS
       /\ (exists rest, data ix = Some (2%Z :: rest))
       /\ parseSetComputeUnitLimitInstruction libs ix = Normal tt)
  /\ (data ix = None \/ data ix = Some [] ->
      verifyComputeLimitInstruction ix = Throw (ErrorObject COMPUTE_LIMIT_REASON)).
Proof.
  unfold verifyComputeLimitInstruction. split; [split | ].
  - destruct (negb _ || _) eqn:Hguard; [discriminate | ].
    apply orb_false_iff in Hguard. destruct Hguard as (Hprog & Hdata).
    apply negb_false_iff, String.eqb_eq in Hprog.
    apply dataLacksDiscriminator_false in Hdata.
    destruct (parseSetComputeUnitLimitInstruction libs ix) as [[] | ]; [ | discriminate].
    intros _. now repeat split.
  - intros (Hprog & Hdata & Hparse).
    rewrite Hprog, String.eqb_refl. cbn [negb orb].
    rewrite (proj2 (dataLacksDiscriminator_false ix 2) Hdata). now rewrite Hparse.
  - intro Hdata.
    replace (dataLacksDiscriminator ix 2) with true; [now rewrite orb_true_r | ].
    unfold dataLacksDiscriminator. now destruct Hdata as [-> | ->].
Qed.

(** X20. [verifyComputePriceInstruction] accepts an instruction exactly when its
    program is the compute-budget program, its data start with the
    discriminator byte 3, it parses, and the price read from the parsed
    instruction, if any is read, does not exceed the ceiling: a price equal to
    the ceiling passes. *)
Theorem verifyComputePriceInstruction_accepts_iff ix :
  verifyComputePriceInstruction ix = Normal tt
  <-> programAddress ix = COMPUTE_BUDGET_PROGRAM_ADDRESS
      /\ (exists rest, data ix = Some (3%Z :: rest))
      /\ exists parsed,
           parseSetComputeUnitPriceInstruction libs ix = Normal parsed
           /\ forall price,
                microLamports parsed = Some price ->
                (price <= MAX_COMPUTE_UNIT_PRICE_MICROLAMPORTS)%Z.
Proof.
  unfold verifyComputePriceInstruction. split.
  - destruct (negb _ || _) eqn:Hguard; [discriminate | ].
    apply orb_false_iff in Hguard. destruct Hguard as (Hprog & Hdata).
    apply negb_false_iff, String.eqb_eq in Hprog.
    apply dataLacksDiscriminator_false in Hdata.
    destruct (parseSetComputeUnitPriceInstruction libs ix) as [parsed | error]; cbn [bindC].
    + destruct (microLamports parsed) as [price | ] eqn:Hprice.
      * destruct (Z.ltb_spec MAX_COMPUTE_UNIT_PRICE_MICROLAMPORTS price) as [Hlt | Hle].
        -- cbn. discriminate.
        -- intros _. repeat split; try assumption. exists parsed. split; [reflexivity | ].
           intros price' H. rewrite Hprice in H. inversion H; subst. exact Hle.
      * intros _. repeat split; try assumption. exists parsed. split; [reflexivity | ].
        intros price H. rewrite Hprice in H. discriminate H.
    + destruct error as [message | other];
        [destruct (stringIncludes "too_high" message) | ]; discriminate.
  - intros (Hprog & Hdata & parsed & Hparse & Hprice).
    rewrite Hprog, String.eqb_refl. cbn [negb orb].
    rewrite (proj2 (dataLacksDiscriminator_false ix 3) Hdata).
    rewrite Hparse. cbn [bindC].
    destruct (microLamports parsed) as [price | ]; [ | reflexivity].
    specialize (Hprice price eq_refl). apply Z.ltb_ge in Hprice. now rewrite Hprice.
Qed.

(** *** The fee payer, from [getExtra] to [verify] *)

(** X21. The fee payer that [getExtra] offers is one of the addresses
    [getSigners] lists, and a requirement that carries it passes the two fee
    payer gates of [verify]: with matching schemes and network and a payload
    that decodes, step 1 of [verify] passes. *)
Theorem getExtra_fee_payer_passes_gates random network payload requirements feePayer tx :
  SupportedExtra.feePayer (getExtra signer random network) = Some feePayer ->
  feePayer <> "" ->
  PaymentRequirements.extra requirements = Some {| Extra.feePayer := Str feePayer |} ->
  PaymentRequirements.scheme (PaymentPayload.accepted payload) = "exact" ->
  PaymentRequirements.scheme requirements = "exact" ->
  PaymentRequirements.network (PaymentPayload.accepted payload)
  = PaymentRequirements.network requirements ->
  decodeTransactionFromPayload libs (PaymentPayload.payload payload) = Normal tx ->
  In feePayer (getSigners signer network)
  /\ decodes payload requirements feePayer tx.
Proof.
  unfold getExtra. cbn [SupportedExtra.feePayer].
  intros Hnth Hne Hextra Hs1 Hs2 Hn Hdec.
  apply nth_error_In in Hnth. split; [exact Hnth | ].
  repeat split; try assumption.
  - apply requiredFeePayer_Some. exists {| Extra.feePayer := Str feePayer |}.
    split; [exact Hextra | split; [reflexivity | exact Hne]].
  - now apply includes_true.
Qed.

(** *** What [verify] asks of the signer *)

(** X22. Whatever [verify] answers, it has asked the signer for nothing, or
    for one signature of the payload's transaction for the required fee payer
    on the requirement's network, or for that signature and then one simulation
    on that network: it never sends and never confirms, and never signs for
    another address. *)
Theorem verify_signs_and_simulates_at_most payload requirements w c w' :
  verify payload requirements w = (c, w') ->
  effects w' = effects w
  \/ exists feePayer,
       requiredFeePayer requirements = Some feePayer
       /\ In feePayer (getAddresses signer)
       /\ let sign := SignTransaction (transaction (PaymentPayload.payload payload)) feePayer
                                      (PaymentRequirements.network requirements) in
          effects w' = (effects w ++ [sign])%list
          \/ exists signed,
               effects w'
               = (effects w ++ [sign; SimulateTransaction
                                        signed (PaymentRequirements.network requirements)])%list.
Proof.
  unfold verify, ret, bind, lift.
  destruct (negb _ || negb _); [intro H; inversion H; now left | ].
  destruct (negb (_ =? _)); [intro H; inversion H; now left | ].
  destruct (requiredFeePayer requirements) as [feePayer | ]; [ | intro H; inversion H; now left].
  destruct (negb (includes _ feePayer)) eqn:Hin; [intro H; inversion H; now left | ].
  apply negb_false_iff, includes_true in Hin.
  destruct (decodeTransactionFromPayload _ _) as [tx | ]; [ | intro H; inversion H; now left].
  destruct (decodeCompiledTransactionMessage _ _) as [compiled | ];
    [ | intro H; inversion H; now left].
  destruct (decompileTransactionMessage _ _) as [decompiled | ];
    [ | intro H; inversion H; now left].
  destruct (getTokenPayerFromTransaction _ _) as [payer | ]; [ | intro H; inversion H; now left].
  destruct (payer =? ""); [intro H; inversion H; now left | ].
  unfold verifyInstructions, ret, bind, lift, raise.
  destruct (validateInstructions _ _ _) as [res | ]; [ | intro H; inversion H; now left].
  destruct (negb (isValid res)); [intro H; inversion H; now left | ].
  destruct (nth_error _ _) as [transferIx | ]; [ | intro H; inversion H; now left].
  unfold verifyTransfer, ret, bind, lift, tryCatch, perform.
  set (parsing := if programAddress transferIx =? TOKEN_PROGRAM_ADDRESS
                  then parseTransferCheckedInstructionToken libs transferIx
                  else parseTransferCheckedInstruction2022 libs transferIx).
  destruct (negb _ && negb _); [intro H; inversion H; now left | ].
  destruct parsing as [parsed | ]; [ | intro H; inversion H; now left].
  destruct (includes _ (authority parsed)); [intro H; inversion H; now left | ].
  destruct (negb (mint parsed =? _)); [intro H; inversion H; now left | ].
  destruct (findAssociatedTokenPda _ _ _ _) as [expected | ]; [ | intro H; inversion H; now left].
  destruct (negb (destination parsed =? expected)); [intro H; inversion H; now left | ].
  destruct (BigInt _ _) as [required | ]; [ | intro H; inversion H; now left].
  destruct (Z.ltb _ _); [intro H; inversion H; now left | ].
  destruct (signTransaction _ _ _ _ _) as [[signed | e] s1].
  - destruct (simulateTransaction _ _ _ _) as [[u | e] s2];
      intro H; inversion H; subst; right; exists feePayer;
      (split; [reflexivity | split; [exact Hin | ]]);
      right; exists signed; cbn [effects]; now rewrite <- app_assoc.
  - intro H; inversion H; subst. right. exists feePayer.
    split; [reflexivity | split; [exact Hin | ]]. now left.
Qed.

(** *** Submission *)

(** X23. [settle] sends or confirms nothing for a payment that [verify] has
    not accepted in the same call: if a [sendTransaction] or a
    [confirmTransaction] is among the effects [settle] performed, the
    verification inside it returned [isValid = true]. *)
Theorem settle_submits_only_verified payload requirements w c w2 performed e :
  settle payload requirements w = (c, w2) ->
  effects w2 = (effects w ++ performed)%list ->
  In e performed ->
  (exists tx network, e = SendTransaction tx network)
  \/ (exists signature network, e = ConfirmTransaction signature network) ->
  exists v w1,
    verify payload requirements w = (Normal v, w1) /\ VerifyResponse.isValid v = true.
Proof.
  intros Hsettle Heffects Hin Hkind.
  destruct (verify payload requirements w) as [[v | t] w1] eqn:Hv.
  - destruct (VerifyResponse.isValid v) eqn:Hvalid; [now exists v, w1 | ].
    exfalso. revert Hsettle. unfold settle, bind, ret. rewrite Hv, Hvalid. cbn [negb].
    intro H; inversion H; subst.
    destruct (verify_effects libs signer verificationConfig MAX_COMPUTE_UNIT_PRICE_MICROLAMPORTS
                _ _ _ _ _ Hv) as (p1 & Hp1 & Hgate).
    rewrite Hp1 in Heffects. apply app_inv_head in Heffects. subst p1.
    rewrite Forall_forall in Hgate. specialize (Hgate e Hin).
    destruct Hkind as [(tx & network & ->) | (signature & network & ->)]; exact Hgate.
  - exfalso. revert Hsettle. unfold settle, bind. rewrite Hv.
    intro H; inversion H; subst.
    destruct (verify_effects libs signer verificationConfig MAX_COMPUTE_UNIT_PRICE_MICROLAMPORTS
                _ _ _ _ _ Hv) as (p1 & Hp1 & Hgate).
    rewrite Hp1 in Heffects. apply app_inv_head in Heffects. subst p1.
    rewrite Forall_forall in Hgate. specialize (Hgate e Hin).
    destruct Hkind as [(tx & network & ->) | (signature & network & ->)]; exact Hgate.
Qed.

(** *** Every signer address can be offered *)

(** Rounding to 53 bits does not fall below a multiple of 2^53 that the number
    has reached. *)
Lemma round53_keeps_floor (m c : Z) :
  (0 <= c)%Z -> (m < 2 ^ 106)%Z -> (c * 2 ^ 53 <= m)%Z ->
  (c * 2 ^ 53 <= Double.round53 m)%Z.
Proof.
  intros Hc Hbound Hfloor. unfold Double.round53.
  destruct (Z.leb_spec (Z.log2 m + 1) 53) as [Hfits | Hlong]; [exact Hfloor | ].
  assert (Hpos : (0 < m)%Z).
  { destruct (Z_le_gt_dec m 0) as [Hle | Hgt]; [ | lia].
    rewrite (Z.log2_nonpos m Hle) in Hlong. lia. }
  assert (Hlog : (Z.log2 m < 106)%Z) by (apply Z.log2_lt_pow2; lia).
  set (s := (Z.log2 m + 1 - 53)%Z) in *.
  assert (Hs : (1 <= s <= 53)%Z) by (unfold s; lia).
  assert (Hpow : (0 < 2 ^ s)%Z) by (apply Z.pow_pos_nonneg; lia).
  assert (Hsplit : (2 ^ 53 = 2 ^ (53 - s) * 2 ^ s)%Z).
  { rewrite <- Z.pow_add_r by lia. f_equal. lia. }
  assert (Hpow' : (0 < 2 ^ (53 - s))%Z) by (apply Z.pow_pos_nonneg; lia).
  assert (Hq : (c * 2 ^ (53 - s) <= m / 2 ^ s)%Z).
  { apply Z.div_le_lower_bound; [exact Hpow | ]. rewrite Hsplit in Hfloor. nia. }
  destruct (_ || _); rewrite Hsplit; nia.
Qed.

(** X24. Every address of the signer can be the one [getExtra] offers: for each
    index there is a number in [0, 1) that [Math.random()] may return and for
    which [getExtra] picks the address at that index. The signer has fewer than
    2^32 addresses, as any array has. *)
Theorem getExtra_reaches_every_address k a network :
  nth_error (getAddresses signer) k = Some a ->
  (Z.of_nat (length (getAddresses signer)) < 2 ^ 32)%Z ->
  exists random,
    Double.wellFormed random /\ Double.belowOne random
    /\ SupportedExtra.feePayer (getExtra signer random network) = Some a.
Proof.
  intros Hnth Hlen.
  set (addresses := getAddresses signer) in *.
  assert (Hk : (k < length addresses)%nat) by (apply nth_error_Some; congruence).
  set (n := Z.of_nat (length addresses)) in *.
  set (target := (Z.of_nat k * 2 ^ 53 + n - 1)%Z).
  set (M := (target / n)%Z).
  assert (Hn : (0 < n)%Z) by (unfold n; lia).
  assert (Hkn : (0 <= Z.of_nat k < n)%Z) by (unfold n; lia).
  pose proof (Z.div_mod target n ltac:(lia)) as Hdiv.
  pose proof (Z.mod_pos_bound target n Hn) as Hmod.
  fold M in Hdiv.
  assert (Hlow : (Z.of_nat k * 2 ^ 53 <= M * n)%Z) by (unfold target in *; nia).
  assert (Hhigh : (M * n < Z.of_nat k * 2 ^ 53 + n)%Z) by (unfold target in *; nia).
  assert (HM0 : (0 <= M)%Z) by (apply Z.div_pos; unfold target; lia).
  assert (HM : (M < 2 ^ 53)%Z) by nia.
  exists {| Double.mantissa := M; Double.exponent := 53 |}.
  split; [split; cbn [Double.mantissa Double.exponent]; lia | ].
  split; [exact HM | ].
  unfold getExtra. cbn [SupportedExtra.feePayer]. fold addresses.
  replace (Double.floor _) with k; [exact Hnth | ].
  unfold Double.floor, Double.timesLength. cbn [Double.mantissa Double.exponent]. fold n.
  assert (Hclose : (0 <= Double.round53 (M * n) < M * n + n)%Z).
  { apply round53_close; nia. }
  assert (Hkeep : (Z.of_nat k * 2 ^ 53 <= Double.round53 (M * n))%Z).
  { apply round53_keeps_floor; [lia | | exact Hlow].
    assert (2 ^ 106 = 2 ^ 53 * 2 ^ 53)%Z by reflexivity. nia. }
  assert (Hindex : (Double.round53 (M * n) / 2 ^ 53 = Z.of_nat k)%Z).
  { symmetry. apply Z.div_unique with (r := (Double.round53 (M * n) - Z.of_nat k * 2 ^ 53)%Z);
      lia. }
  rewrite Hindex. now rewrite Nat2Z.id.
Qed.

End Coverage.


(** ** The scheme at work

    The scenarios of the specification, and the theorems above at concrete
    inputs. *)

Import Example.

Example scenario_A :
  fst (verifyWith defaults "A") = Normal (valid clientAccount).
Proof. reflexivity. Qed.

Example scenario_B :
  fst (verifyWith lenient "B") = Normal (valid clientAccount)
  /\ fst (verifyWith defaults "B")
     = Normal (invalid "invalid_exact_svm_payload_transaction_instructions_length_exceeds_max_3"
                       clientAccount)
  /\ fst (verifyWith {| Types.maxInstructionCount := Some 4%Z;
                        Types.allowAdditionalInstructions := None;
                        Types.allowedProgramIds := None;
                        Types.blockedProgramIds := None;
                        Types.customVerifiers := None;
                        Types.requireFeePayerNotInInstructions := None |} "B")
     = Normal (invalid "invalid_exact_svm_payload_additional_instructions_not_allowed"
                       clientAccount).
Proof. repeat split. Qed.

(** Scenario C of the specification, a price above the ceiling, should be
    rejected with the too-high reason; the code accepts it. *)
Example scenario_C :
  fst (verifyWith defaults "C") = Normal (valid clientAccount).
Proof. reflexivity. Qed.

Example scenario_D :
  fst (verifyWith defaults "D")
  = Normal (invalid "invalid_exact_svm_payload_recipient_mismatch" clientAccount).
Proof. reflexivity. Qed.

Example settle_A :
  settleWith defaults "A"
  = (Normal {| SettleResponse.success := true;
               SettleResponse.errorReason := None;
               SettleResponse.transaction := "signature-of:signed:A";
               SettleResponse.network := devnet;
               SettleResponse.payer := clientAccount |},
     mkWorld 2%nat [SignTransaction "A" facilitator devnet;
                    SimulateTransaction "signed:A" devnet;
                    SignTransaction "A" facilitator devnet;
                    SendTransaction "signed:A" devnet;
                    ConfirmTransaction "signature-of:signed:A" devnet]).
Proof. reflexivity. Qed.


(** *** Settlement after a failed verification *)

(** The claim C1 as worded fails: the verification of ["unfunded"] fails at the
    simulation gate, after [verify] has called [signTransaction], so the
    settlement has performed a [signTransaction] call on the signer. *)
Lemma settle_signs_within_failed_verification :
  verifyWith defaults "unfunded" = (Normal (invalid simulationFailure clientAccount), afterSimulation)
  /\ In (SignTransaction "unfunded" facilitator devnet)
        (effects (snd (settleWith defaults "unfunded"))).
Proof. split; [reflexivity | now left]. Qed.

Lemma settle_stops_at_failed_verification_unfunded :
  settleWith defaults "unfunded"
  = (Normal {| SettleResponse.success := false;
               SettleResponse.errorReason := Some simulationFailure;
               SettleResponse.transaction := "";
               SettleResponse.network := devnet;
               SettleResponse.payer := clientAccount |}, afterSimulation)
  /\ exists performed,
       effects afterSimulation = (effects start ++ performed)%list
       /\ Forall ofSimulationGate performed
       /\ (performed = []
           \/ exists feePayer,
                requiredFeePayer requirements = Some feePayer
                /\ (performed = [SignTransaction "unfunded" feePayer devnet]
                    \/ exists signed,
                         performed = [SignTransaction "unfunded" feePayer devnet;
                                      SimulateTransaction signed devnet])).
Proof.
  apply (settle_stops_at_failed_verification
           libraries signer defaults Example.MAX_COMPUTE_UNIT_PRICE_MICROLAMPORTS
           (payloadOf "unfunded") requirements start simulationFailure clientAccount
           afterSimulation).
  reflexivity.
Defined.

(** *** An exception out of [verify] *)

Lemma verify_raises_on_lookup_tables :
  verifyWith defaults "lookup-tables" = (Throw lookupTablesMissing, start)
  /\ settleWith defaults "lookup-tables" = (Throw lookupTablesMissing, start).
Proof.
  apply (verify_raises_after_decode
           libraries signer defaults Example.MAX_COMPUTE_UNIT_PRICE_MICROLAMPORTS
           (payloadOf "lookup-tables") requirements facilitator
           {| messageBytes := bytesOf "lookup-tables" |} lookupTablesMissing start).
  - repeat split.
  - right. left. exists (bytesOf "lookup-tables"). split; reflexivity.
Defined.

(** *** Fewer than three instructions *)

(** The payer gate comes first: an empty instruction list resolves no payer,
    and [verify] rejects it there, before the instructions are counted. *)
Remark verify_empty_list_has_no_payer :
  decompiles libraries signer (payloadOf "empty") requirements facilitator
             {| messageBytes := bytesOf "empty" |} []
  /\ (length (@nil Instruction) < 3)%nat
  /\ verifyWith defaults "empty"
     = (Normal (invalid "invalid_exact_svm_payload_no_transfer_instruction" ""), start).
Proof.
  split; [ | split; [cbn; lia | reflexivity]].
  split; [repeat split | ].
  exists (bytesOf "empty"), {| instructions := Some [] |}. repeat split.
Qed.

Lemma verify_too_few_instructions_short :
  verifyWith defaults "short"
  = (Normal (invalid "invalid_exact_svm_payload_transaction_instructions_length_too_few"
                     clientAccount), start).
Proof.
  apply (verify_too_few_instructions
           libraries signer defaults Example.MAX_COMPUTE_UNIT_PRICE_MICROLAMPORTS
           (payloadOf "short") requirements facilitator clientAccount
           [setComputeUnitLimit 20000; goodTransfer 1000] start).
  - exists {| messageBytes := bytesOf "short" |}.
    split; [split; [repeat split | ] | split; [reflexivity | discriminate]].
    exists (bytesOf "short"),
           {| instructions := Some [setComputeUnitLimit 20000; goodTransfer 1000] |}.
    repeat split.
  - cbn. lia.
Defined.

(** *** Additional instructions under [guarded] *)

Lemma additional_instruction_policy_blocked_lighthouse :
  validateInstructions libraries guarded Example.MAX_COMPUTE_UNIT_PRICE_MICROLAMPORTS
                       (scenarioA ++ [other memo; other lighthouse])%list
                       [facilitator] facilitator
  = Normal (rejected ("invalid_exact_svm_payload_blocked_program_" ++ lighthouse)).
Proof.
  refine (proj1 (additional_instruction_policy
                   libraries guarded Example.MAX_COMPUTE_UNIT_PRICE_MICROLAMPORTS
                   (setComputeUnitLimit 20000) (setComputeUnitPrice 1) (goodTransfer 1000)
                   [other memo] (other lighthouse) [] [facilitator] facilitator _ _ _) _).
  - split; [cbn; lia | ].
    split; [ | repeat split].
    intros _ ix Hin. cbn in Hin.
    repeat (destruct Hin as [<- | Hin]; [reflexivity | ]). contradiction.
  - reflexivity.
  - reflexivity.
  - reflexivity.
Defined.

(** *** The fee payer among an instruction's accounts *)

Lemma verify_fee_payer_in_instruction_accounts_extra :
  verifyWith lenient "payer-in-extra"
  = (Normal (invalid "invalid_exact_svm_payload_fee_payer_in_instruction_accounts"
                     clientAccount), start).
Proof.
  apply (verify_fee_payer_in_instruction_accounts
           libraries signer lenient Example.MAX_COMPUTE_UNIT_PRICE_MICROLAMPORTS
           (payloadOf "payer-in-extra") requirements facilitator clientAccount
           (scenarioA ++ [{| programAddress := memo;
                             accounts := Some [meta facilitator];
                             data := Some [] |}])%list
           {| programAddress := memo; accounts := Some [meta facilitator]; data := Some [] |}
           [meta facilitator] (meta facilitator) start).
  - exists {| messageBytes := bytesOf "payer-in-extra" |}.
    split; [split; [repeat split | ] | split; [reflexivity | discriminate]].
    eexists (bytesOf "payer-in-extra"), {| instructions := Some _ |}. repeat split.
  - cbn. lia.
  - cbn. lia.
  - reflexivity.
  - cbn. tauto.
  - reflexivity.
  - now left.
  - reflexivity.
Defined.

(** *** The amount check on an underpaying transfer *)

Lemma verify_amount_check_underpaid :
  verifyWith defaults "underpaid"
  = (Normal (invalid "invalid_exact_svm_payload_amount_insufficient" clientAccount), start).
Proof.
  destruct (verify_amount_check
              libraries signer defaults Example.MAX_COMPUTE_UNIT_PRICE_MICROLAMPORTS
              (payloadOf "underpaid") requirements facilitator clientAccount
              [setComputeUnitLimit 20000; setComputeUnitPrice 1; goodTransfer 999]
              (goodTransfer 999)
              {| authority := client; mint := usdc;
                 destination := ata usdc merchant TOKEN_PROGRAM_ADDRESS; amount := 999 |}
              1000%Z start)
    as (v & w' & Hrun & _ & Hless & _).
  - exists {| messageBytes := bytesOf "underpaid" |}.
    split; [split; [repeat split | ] | split; [reflexivity | discriminate]].
    eexists (bytesOf "underpaid"), {| instructions := Some _ |}. repeat split.
  - reflexivity.
  - reflexivity.
  - repeat split.
  - destruct Hless as (-> & ->); [cbn; lia | exact Hrun].
Defined.

(** *** A compute-unit price above the ceiling *)

Lemma verifyComputePriceInstruction_ignores_price_above_ceiling :
  verifyComputePriceInstruction libraries Example.MAX_COMPUTE_UNIT_PRICE_MICROLAMPORTS
                                (setComputeUnitPrice 5000001)
  = Normal tt
  /\ verifyComputePriceInstruction libraries Example.MAX_COMPUTE_UNIT_PRICE_MICROLAMPORTS
                                   (setComputeUnitPrice 5000001)
     <> Throw (ErrorObject COMPUTE_PRICE_TOO_HIGH_REASON).
Proof.
  destruct (verifyComputePriceInstruction_ignores_price
              libraries defaults Example.MAX_COMPUTE_UNIT_PRICE_MICROLAMPORTS
              (setComputeUnitPrice 5000001))
    as (_ & Haccepts & Hnever).
  - intros parsed H. cbn in H. inversion H. reflexivity.
  - intros message H. discriminate H.
  - split; [ | exact Hnever].
    apply Haccepts; [reflexivity | eexists; reflexivity | eexists; reflexivity].
Defined.

(** *** The payer of a transaction that fails its simulation *)

Lemma verify_preserves_resolved_payer_unfunded :
  VerifyResponse.payer (invalid simulationFailure clientAccount) = clientAccount
  /\ VerifyResponse.payer (invalid simulationFailure clientAccount) <> "".
Proof.
  apply (verify_preserves_resolved_payer
           libraries signer defaults Example.MAX_COMPUTE_UNIT_PRICE_MICROLAMPORTS
           (payloadOf "unfunded") requirements facilitator clientAccount scenarioA
           start (invalid simulationFailure clientAccount) afterSimulation).
  - exists {| messageBytes := bytesOf "unfunded" |}.
    split; [split; [repeat split | ] | split; [reflexivity | discriminate]].
    exists (bytesOf "unfunded"), {| instructions := Some scenarioA |}. repeat split.
  - reflexivity.
Defined.

(** *** Rejection reasons *)

(** The claim C9 as worded fails: under [silent] the memo instruction is
    rejected with the message of the error its verifier throws, the empty
    string, which is also the reason of the response of [verify]. *)
Lemma validateInstructions_rejects_with_empty_reason :
  validateInstructions libraries silent Example.MAX_COMPUTE_UNIT_PRICE_MICROLAMPORTS
                       (scenarioA ++ [other memo])%list [facilitator] facilitator
  = Normal {| isValid := false; reason := Some ""; transferInstructionIndex := 2 |}
  /\ verifyWith silent "memo"
     = (Normal {| VerifyResponse.isValid := false;
                  VerifyResponse.invalidReason := Some "";
                  VerifyResponse.payer := clientAccount |}, start).
Proof. split; reflexivity. Qed.

Lemma validateInstructions_rejections_carry_reason_B :
  exists r,
    r = "invalid_exact_svm_payload_transaction_instructions_length_exceeds_max_3"
    /\ (forall p requirements payer w,
          verifyInstructions libraries signer defaults
                             Example.MAX_COMPUTE_UNIT_PRICE_MICROLAMPORTS
                             p requirements [facilitator] facilitator payer
                             (scenarioA ++ [other lighthouse])%list w
          = (Normal (invalid r payer), w)).
Proof.
  destruct (validateInstructions_rejections_carry_reason
              libraries signer defaults Example.MAX_COMPUTE_UNIT_PRICE_MICROLAMPORTS
              (scenarioA ++ [other lighthouse])%list [facilitator] facilitator
              (rejected "invalid_exact_svm_payload_transaction_instructions_length_exceeds_max_3")
              eq_refl eq_refl)
    as (r & Hr & Hverify & _).
  exists r. split; [ | exact Hverify].
  cbn in Hr. now inversion Hr.
Defined.

(** *** The fee payer offered by the example signer *)

Lemma getExtra_offers_signer_address_example :
  (getAddresses signer <> [] ->
   exists a,
     SupportedExtra.feePayer
       (getExtra signer {| Double.mantissa := 2 ^ 53 - 1; Double.exponent := 53 |} devnet)
     = Some a
     /\ In a (getAddresses signer))
  /\ (getAddresses signer = [] ->
      SupportedExtra.feePayer
        (getExtra signer {| Double.mantissa := 2 ^ 53 - 1; Double.exponent := 53 |} devnet)
      = None).
Proof.
  apply (getExtra_offers_signer_address
           signer {| Double.mantissa := 2 ^ 53 - 1; Double.exponent := 53 |} devnet).
  - unfold Double.wellFormed. cbn. lia.
  - unfold Double.belowOne. cbn. lia.
Defined.

(** *** The further properties at concrete inputs *)

Ltac resolved tx :=
  exists {| messageBytes := bytesOf tx |};
  split;
  [ split;
    [ repeat split
    | eexists (bytesOf tx), {| instructions := Some _ |}; repeat split ]
  | split; [reflexivity | discriminate] ].

Lemma verify_accepts_only_matching_transfer_A :
  exists feePayer payer ixs transferIx parsed required,
    resolves libraries signer (payloadOf "A") requirements feePayer payer ixs
    /\ nth_error ixs 2 = Some transferIx
    /\ transferMatches libraries signer requirements transferIx parsed required
    /\ (required <= amount parsed)%Z
    /\ ~ In (authority parsed) (getAddresses signer)
    /\ authority parsed <> feePayer.
Proof.
  apply (verify_accepts_only_matching_transfer
           libraries signer defaults Example.MAX_COMPUTE_UNIT_PRICE_MICROLAMPORTS
           (payloadOf "A") requirements start (valid clientAccount) afterVerification);
    reflexivity.
Defined.

Lemma verify_accepts_only_after_simulation_A :
  exists feePayer,
    requiredFeePayer requirements = Some feePayer
    /\ simulated signer requirements (PaymentPayload.payload (payloadOf "A")) feePayer
                 start afterVerification.
Proof.
  apply (verify_accepts_only_after_simulation
           libraries signer defaults Example.MAX_COMPUTE_UNIT_PRICE_MICROLAMPORTS
           (payloadOf "A") requirements start (valid clientAccount) afterVerification);
    reflexivity.
Defined.



Lemma verify_without_payer_empty :
  start = start
  /\ VerifyResponse.isValid (invalid "invalid_exact_svm_payload_no_transfer_instruction" "") = false
  /\ exists r,
       VerifyResponse.invalidReason
         (invalid "invalid_exact_svm_payload_no_transfer_instruction" "") = Some r
       /\ In r REASONS_WITHOUT_PAYER.
Proof.
  apply (verify_without_payer
           libraries signer defaults Example.MAX_COMPUTE_UNIT_PRICE_MICROLAMPORTS
           (payloadOf "empty") requirements start
           (invalid "invalid_exact_svm_payload_no_transfer_instruction" "") start);
    reflexivity.
Defined.

Lemma verify_exceeds_max_B :
  verifyWith defaults "B"
  = (Normal (invalid "invalid_exact_svm_payload_transaction_instructions_length_exceeds_max_3"
                     clientAccount), start).
Proof.
  apply (verify_exceeds_max
           libraries signer defaults Example.MAX_COMPUTE_UNIT_PRICE_MICROLAMPORTS
           (payloadOf "B") requirements facilitator clientAccount
           (scenarioA ++ [other lighthouse])%list start).
  - resolved "B".
  - cbn. lia.
  - reflexivity.
Defined.

Lemma verify_transfer_rejections_D :
  verifyWith defaults "D"
  = (Normal (invalid "invalid_exact_svm_payload_recipient_mismatch" clientAccount), start).
Proof.
  destruct (verify_transfer_rejections
              libraries signer defaults Example.MAX_COMPUTE_UNIT_PRICE_MICROLAMPORTS
              (payloadOf "D") requirements facilitator clientAccount
              [setComputeUnitLimit 20000; setComputeUnitPrice 1;
               transferChecked TOKEN_PROGRAM_ADDRESS clientAccount usdc
                               (ata usdc client TOKEN_PROGRAM_ADDRESS) client 1000]
              (transferChecked TOKEN_PROGRAM_ADDRESS clientAccount usdc
                               (ata usdc client TOKEN_PROGRAM_ADDRESS) client 1000)
              start)
    as (_ & Hparsed).
  - resolved "D".
  - reflexivity.
  - reflexivity.
  - destruct (Hparsed {| authority := client; mint := usdc;
                         destination := ata usdc client TOKEN_PROGRAM_ADDRESS;
                         amount := 1000 |} eq_refl) as (_ & Hforeign).
    destruct Hforeign as (_ & Hrecipient).
    + cbn. intros [H | []]. discriminate H.
    + apply Hrecipient; [reflexivity | discriminate].
Defined.

Lemma verify_simulation_failures_unfunded :
  verifyWith defaults "unfunded"
  = (Normal (invalid simulationFailure clientAccount), afterSimulation).
Proof.
  destruct (verify_simulation_failures
              libraries signer defaults Example.MAX_COMPUTE_UNIT_PRICE_MICROLAMPORTS
              (payloadOf "unfunded") requirements facilitator clientAccount scenarioA
              (goodTransfer 1000)
              {| authority := client; mint := usdc;
                 destination := ata usdc merchant TOKEN_PROGRAM_ADDRESS; amount := 1000 |}
              1000%Z start)
    as (_ & Hsimulation).
  - resolved "unfunded".
  - reflexivity.
  - reflexivity.
  - repeat split.
  - cbn. lia.
  - exact (Hsimulation "signed:unfunded" 1%nat (ErrorObject "insufficient funds") 1%nat
                       eq_refl eq_refl).
Defined.

Lemma settle_returns_when_verify_does_unfunded :
  exists r w2,
    settleWith defaults "unfunded" = (Normal r, w2)
    /\ SettleResponse.payer r = clientAccount
    /\ SettleResponse.network r = devnet
    /\ (SettleResponse.success r = false ->
        SettleResponse.transaction r = "" /\ SettleResponse.errorReason r <> None).
Proof.
  apply (settle_returns_when_verify_does
           libraries signer defaults Example.MAX_COMPUTE_UNIT_PRICE_MICROLAMPORTS
           (payloadOf "unfunded") requirements start
           (invalid simulationFailure clientAccount) afterSimulation).
  reflexivity.
Defined.

Lemma settle_success_means_confirmed_A :
  exists v w1 feePayer,
    verifyWith defaults "A" = (Normal v, w1)
    /\ VerifyResponse.isValid v = true
    /\ requiredFeePayer requirements = Some feePayer
    /\ submitted signer requirements (PaymentPayload.payload (payloadOf "A")) feePayer
                 "signature-of:signed:A" w1 (snd (settleWith defaults "A"))
    /\ clientAccount = VerifyResponse.payer v
    /\ @None string = None.
Proof.
  apply (settle_success_means_confirmed
           libraries signer defaults Example.MAX_COMPUTE_UNIT_PRICE_MICROLAMPORTS
           (payloadOf "A") requirements start
           {| SettleResponse.success := true;
              SettleResponse.errorReason := None;
              SettleResponse.transaction := "signature-of:signed:A";
              SettleResponse.network := devnet;
              SettleResponse.payer := clientAccount |}
           (snd (settleWith defaults "A")));
    reflexivity.
Defined.


Ltac requiredPass :=
  split; [cbn; lia | ];
  split;
  [ intros _ ix Hin; cbn in Hin;
    repeat (destruct Hin as [<- | Hin]; [reflexivity | ]); contradiction
  | repeat split ].

Lemma additional_instruction_allow_list_memo :
  validateInstructions libraries listed Example.MAX_COMPUTE_UNIT_PRICE_MICROLAMPORTS
                       (scenarioA ++ [other memo])%list [facilitator] facilitator
  = Normal (rejected ("invalid_exact_svm_payload_program_not_allowed_" ++ memo)).
Proof.
  refine (proj2 (additional_instruction_allow_list
                   libraries listed Example.MAX_COMPUTE_UNIT_PRICE_MICROLAMPORTS
                   (setComputeUnitLimit 20000) (setComputeUnitPrice 1) (goodTransfer 1000)
                   [] (other memo) [] [facilitator] facilitator _ _ _ _ _ _) _).
  - requiredPass.
  - reflexivity.
  - reflexivity.
  - reflexivity.
  - reflexivity.
  - discriminate.
  - cbn. intros [H | []]. discriminate H.
Defined.

Lemma additional_instruction_position_memo :
  validateInstructions libraries placed Example.MAX_COMPUTE_UNIT_PRICE_MICROLAMPORTS
                       (scenarioA ++ [other memo])%list [facilitator] facilitator
  = Normal (rejected ("invalid_exact_svm_payload_instruction_position_" ++ memo ++ "_at_3")).
Proof.
  refine (proj1 (additional_instruction_position
                   libraries placed Example.MAX_COMPUTE_UNIT_PRICE_MICROLAMPORTS
                   (setComputeUnitLimit 20000) (setComputeUnitPrice 1) (goodTransfer 1000)
                   [] (other memo) [] [facilitator] facilitator
                   {| Types.programIds := [memo];
                      Types.allowedPositions := Some [4%Z];
                      Types.verify := None |}
                   [4%Z] _ _ _ _ _ _) _).
  - requiredPass.
  - reflexivity.
  - reflexivity.
  - reflexivity.
  - reflexivity.
  - reflexivity.
  - cbn. intros [H | []]. discriminate H.
Defined.

Lemma additional_instruction_callback_memo :
  validateInstructions libraries silent Example.MAX_COMPUTE_UNIT_PRICE_MICROLAMPORTS
                       (scenarioA ++ [other memo])%list [facilitator] facilitator
  = Normal (rejected "").
Proof.
  refine (additional_instruction_callback
            libraries silent Example.MAX_COMPUTE_UNIT_PRICE_MICROLAMPORTS
            (setComputeUnitLimit 20000) (setComputeUnitPrice 1) (goodTransfer 1000)
            [] (other memo) [] [facilitator] facilitator
            {| Types.programIds := [memo];
               Types.allowedPositions := None;
               Types.verify := Some (fun _ _ => Some (ErrorObject "")) |}
            (fun _ _ => Some (ErrorObject "")) _ _ _ _ _ _ _ _ _).
  - requiredPass.
  - reflexivity.
  - reflexivity.
  - reflexivity.
  - reflexivity.
  - exact I.
  - reflexivity.
  - repeat constructor.
  - reflexivity.
Defined.

Lemma validateInstructions_required_rejections_no_limit :
  validateInstructions libraries defaults Example.MAX_COMPUTE_UNIT_PRICE_MICROLAMPORTS
                       [setComputeUnitPrice 1; setComputeUnitPrice 1; goodTransfer 1000]
                       [facilitator] facilitator
  = Normal (rejected COMPUTE_LIMIT_REASON).
Proof.
  refine (proj1 (validateInstructions_required_rejections
                   libraries defaults Example.MAX_COMPUTE_UNIT_PRICE_MICROLAMPORTS
                   (setComputeUnitPrice 1) (setComputeUnitPrice 1) (goodTransfer 1000)
                   [] [facilitator] facilitator _ _) _).
  - cbn. lia.
  - intros _ ix Hin. cbn in Hin.
    repeat (destruct Hin as [<- | Hin]; [reflexivity | ]). contradiction.
  - eexists. reflexivity.
Defined.

Lemma getExtra_fee_payer_passes_gates_example :
  In facilitator (getSigners signer devnet)
  /\ decodes libraries signer (payloadOf "A") requirements facilitator
             {| messageBytes := bytesOf "A" |}.
Proof.
  apply (getExtra_fee_payer_passes_gates
           libraries signer {| Double.mantissa := 2 ^ 52; Double.exponent := 53 |} devnet
           (payloadOf "A") requirements facilitator {| messageBytes := bytesOf "A" |});
    try reflexivity.
  discriminate.
Defined.

Lemma verify_signs_and_simulates_at_most_unfunded :
  effects afterSimulation = effects start
  \/ exists feePayer,
       requiredFeePayer requirements = Some feePayer
       /\ In feePayer (getAddresses signer)
       /\ let sign := SignTransaction (transaction (PaymentPayload.payload (payloadOf "unfunded")))
                                      feePayer (PaymentRequirements.network requirements) in
          effects afterSimulation = (effects start ++ [sign])%list
          \/ exists signed,
               effects afterSimulation
               = (effects start
                  ++ [sign; SimulateTransaction
                              signed (PaymentRequirements.network requirements)])%list.
Proof.
  apply (verify_signs_and_simulates_at_most
           libraries signer defaults Example.MAX_COMPUTE_UNIT_PRICE_MICROLAMPORTS
           (payloadOf "unfunded") requirements start
           (Normal (invalid simulationFailure clientAccount)) afterSimulation).
  reflexivity.
Defined.

Lemma settle_submits_only_verified_A :
  exists v w1,
    verifyWith defaults "A" = (Normal v, w1) /\ VerifyResponse.isValid v = true.
Proof.
  apply (settle_submits_only_verified
           libraries signer defaults Example.MAX_COMPUTE_UNIT_PRICE_MICROLAMPORTS
           (payloadOf "A") requirements start
           (fst (settleWith defaults "A")) (snd (settleWith defaults "A"))
           [SignTransaction "A" facilitator devnet;
            SimulateTransaction "signed:A" devnet;
            SignTransaction "A" facilitator devnet;
            SendTransaction "signed:A" devnet;
            ConfirmTransaction "signature-of:signed:A" devnet]
           (SendTransaction "signed:A" devnet)).
  - reflexivity.
  - reflexivity.
  - cbn. tauto.
  - left. now exists "signed:A", devnet.
Defined.

Lemma getExtra_reaches_every_address_example :
  exists random,
    Double.wellFormed random /\ Double.belowOne random
    /\ SupportedExtra.feePayer (getExtra signer random devnet) = Some facilitator.
Proof.
  apply (getExtra_reaches_every_address signer 0%nat facilitator devnet).
  - reflexivity.
  - cbn. lia.
Defined.
